(** * Pomodoro Visualizer: session lifecycle and reports

    A shallow embedding of [scripts/pomodoro.py] and the properties of its
    session lifecycle (start / complete / interrupt), task totals,
    configuration and reports (today, week, heatmap, export).

    Modelling conventions.
    - The SQLite file is a record of three tables.  [sessions] and [tasks]
      are lists of rows in insertion (rowid) order, [config] is a finite map
      from key to value.  A PRIMARY KEY is a uniqueness check at insertion:
      a duplicate key raises [IntegrityError].  The [id] column of
      [sessions] holds the text identifier that [cmd_start] supplies; the
      type the schema declares for that column (INTEGER PRIMARY KEY
      AUTOINCREMENT) is not part of the model, only its uniqueness is.
    - A command that raises leaves the tables as they were: every write of
      the program is committed by one [commit()] at the end of the command.
    - The marker file [.current_session.json] is an optional record next to
      the tables.  Its [start_time] is kept as the datetime whose ISO text
      the file holds ([isoformat] then [fromisoformat] is the identity on
      naive datetimes).
    - [datetime.now()] and [time.time()] are inputs: each command receives
      the readings it makes in a [clock] record.
    - Python floats are exact rationals ([Q]); [int(x)] truncates toward
      zero.  Python integers are [Z].
    - TEXT columns hold the strings the program writes; text comparison is
      bytewise, as in SQLite's default collation.
    - [created_at] columns are filled by the engine and read only by
      [task list]; they are left out, as is all purely decorative output. *)

From Stdlib Require Import ZArith QArith Qround Qminmax Lia String Ascii.
From stdpp Require Import base list gmap strings sorting.

Local Open Scope Z_scope.

(** ** Python values *)

Module Py.

(** [bool(x)] for the values the program tests with [if x], [x or d]
    and [x and y]. *)
Definition truthy_int (z : Z) : bool := negb (z =? 0).
Definition truthy_str (s : string) : bool := negb (String.eqb s "").

Definition truthy_opt {A} (t : A → bool) (o : option A) : bool :=
  match o with Some a => t a | None => false end.

(** [x or d]: [x] when it is truthy, else [d]. *)
Definition or_else {A} (t : A → bool) (o : option A) (d : A) : A :=
  match o with
  | Some a => if t a then a else d
  | None => d
  end.

(** [int(x)] on a float: truncation toward zero. *)
Definition int_of_float (q : Q) : Z := Z.quot (Qnum q) (Zpos (Qden q)).

(** Float division [a / b] of two integers, [b] not zero. *)
Definition truediv (a b : Z) : Q := (inject_Z a / inject_Z b)%Q.

Definition digit (d : Z) : ascii := ascii_of_N (48 + Z.to_N d).

(** Decimal digits of a natural number, most significant first. *)
Fixpoint decimal (fuel : nat) (n : Z) : string :=
  match fuel with
  | O => ""
  | S f =>
      (if n <? 10 then "" else decimal f (n / 10))
        +:+ String (digit (n mod 10)) ""
  end.

Definition digits (n : Z) : string := decimal (S (Z.to_nat (Z.log2 n))) n.

(** [str(z)] *)
Definition str (z : Z) : string :=
  if z <? 0 then "-" +:+ digits (- z) else digits z.

Fixpoint zeros (n : nat) : string :=
  match n with O => "" | S k => String "0" (zeros k) end.

(** [f"{z:0wd}"]: sign first, then zeros up to width [w], then digits. *)
Definition fmt_d (w : nat) (z : Z) : string :=
  let sign := if z <? 0 then "-" else "" in
  let ds := digits (Z.abs z) in
  sign +:+ zeros (w - String.length sign - String.length ds) +:+ ds.

Definition is_space (c : ascii) : bool :=
  let n := N_of_ascii c in ((9 <=? n) && (n <=? 13) || (n =? 32))%N.

Definition digit_val (c : ascii) : option Z :=
  let n := N_of_ascii c in
  if ((48 <=? n) && (n <=? 57))%N then Some (Z.of_N n - 48) else None.

Fixpoint lstrip (s : string) : string :=
  match s with
  | String c r => if is_space c then lstrip r else s
  | EmptyString => s
  end.

Fixpoint rstrip (s : string) : string :=
  match s with
  | String c r =>
      match rstrip r with
      | EmptyString => if is_space c then "" else String c ""
      | r' => String c r'
      end
  | EmptyString => ""
  end.

(** Digits with single underscores between them, after the first digit
    has been read; [acc] is the value so far, [us] tells that the last
    character was an underscore. *)
Fixpoint int_digits (s : string) (acc : Z) (us : bool) : option Z :=
  match s with
  | EmptyString => if us then None else Some acc
  | String c r =>
      match digit_val c with
      | Some d => int_digits r (10 * acc + d) false
      | None =>
          if Ascii.eqb c "_" && negb us then int_digits r acc true else None
      end
  end.

Definition int_unsigned (s : string) : option Z :=
  match s with
  | String c r =>
      match digit_val c with
      | Some d => int_digits r d false
      | None => None
      end
  | EmptyString => None
  end.

(** [int(s)] on ASCII text: optional surrounding white space, an optional
    sign, decimal digits with single underscores between digits.  [None]
    stands for [ValueError]. *)
Definition int_of_str (s : string) : option Z :=
  match rstrip (lstrip s) with
  | String "-" r => Z.opp <$> int_unsigned r
  | String "+" r => int_unsigned r
  | t => int_unsigned t
  end.

End Py.

(** ** The part of Python's [datetime] that the program uses *)

Module Datetime.

Record datetime := mk {
  year : Z; month : Z; day : Z;
  hour : Z; minute : Z; second : Z; microsecond : Z
}.

Definition DAYS_IN_MONTH : list Z :=
  [-1; 31; 28; 31; 30; 31; 30; 31; 31; 30; 31; 30; 31].
Definition DAYS_BEFORE_MONTH : list Z :=
  [-1; 0; 31; 59; 90; 120; 151; 181; 212; 243; 273; 304; 334].

Definition is_leap (y : Z) : bool :=
  (y mod 4 =? 0) && (negb (y mod 100 =? 0) || (y mod 400 =? 0)).

Definition days_before_year (y : Z) : Z :=
  let y := y - 1 in y * 365 + y / 4 - y / 100 + y / 400.

Definition days_in_month (y m : Z) : Z :=
  if (m =? 2) && is_leap y then 29
  else default 0 (DAYS_IN_MONTH !! Z.to_nat m).

Definition days_before_month (y m : Z) : Z :=
  default 0 (DAYS_BEFORE_MONTH !! Z.to_nat m)
  + (if (2 <? m) && is_leap y then 1 else 0).

Definition ymd2ord (y m d : Z) : Z :=
  days_before_year y + days_before_month y m + d.

(** Day [n] (from 0) of a year to (month, day): the estimate
    [(n + 50) >> 5] is the month or one more. *)
Definition month_and_day (n : Z) (leapyear : bool) : Z * Z :=
  let m := Z.shiftr (n + 50) 5 in
  let preceding :=
    default 0 (DAYS_BEFORE_MONTH !! Z.to_nat m)
    + (if (2 <? m) && leapyear then 1 else 0) in
  if n <? preceding then
    let m := m - 1 in
    let preceding :=
      preceding - (default 0 (DAYS_IN_MONTH !! Z.to_nat m)
                   + (if (m =? 2) && leapyear then 1 else 0)) in
    (m, n - preceding + 1)
  else (m, n - preceding + 1).

(** Proleptic Gregorian ordinal back to (year, month, day). *)
Definition ord2ymd (n : Z) : Z * Z * Z :=
  let n := n - 1 in
  let n400 := n / 146097 in let n := n mod 146097 in
  let y := n400 * 400 + 1 in
  let n100 := n / 36524 in let n := n mod 36524 in
  let n4 := n / 1461 in let n := n mod 1461 in
  let n1 := n / 365 in let n := n mod 365 in
  let y := y + n100 * 100 + n4 * 4 + n1 in
  if (n1 =? 4) || (n100 =? 4) then (y - 1, 12, 31)
  else
    let leapyear := (n1 =? 3) && (negb (n4 =? 24) || (n100 =? 3)) in
    let '(m, d) := month_and_day n leapyear in
    (y, m, d).

Definition toordinal (d : datetime) : Z := ymd2ord (year d) (month d) (day d).

(** [d.weekday()]: Monday is 0. *)
Definition weekday (d : datetime) : Z := (toordinal d + 6) mod 7.

(** [d + timedelta(days=k)] *)
Definition add_days (d : datetime) (k : Z) : datetime :=
  let '(y, m, dd) := ord2ymd (toordinal d + k) in
  mk y m dd (hour d) (minute d) (second d) (microsecond d).

(** [d.replace(day=k)] *)
Definition replace_day (d : datetime) (k : Z) : datetime :=
  mk (year d) (month d) k (hour d) (minute d) (second d) (microsecond d).

(** [datetime(y, m, d)] *)
Definition at_midnight (y m d : Z) : datetime := mk y m d 0 0 0 0.

(** Microseconds since the start of ordinal day 0. *)
Definition to_us (d : datetime) : Z :=
  ((toordinal d * 86400 + hour d * 3600 + minute d * 60 + second d)
   * 1000000) + microsecond d.

(** [a - b] as a timedelta, held as its whole number of microseconds. *)
Definition sub (a b : datetime) : Z := to_us a - to_us b.

(** [td.total_seconds()] *)
Definition total_seconds (td : Z) : Q := (inject_Z td / inject_Z 1000000)%Q.

(** [d.isoformat()]: the fraction is printed only when it is not zero. *)
Definition isoformat (d : datetime) : string :=
  Py.fmt_d 4 (year d) +:+ "-" +:+ Py.fmt_d 2 (month d) +:+ "-"
    +:+ Py.fmt_d 2 (day d) +:+ "T" +:+ Py.fmt_d 2 (hour d) +:+ ":"
    +:+ Py.fmt_d 2 (minute d) +:+ ":" +:+ Py.fmt_d 2 (second d)
    +:+ (if microsecond d =? 0 then ""
         else "." +:+ Py.fmt_d 6 (microsecond d)).

(** [d.strftime("%Y-%m-%d")] *)
Definition strftime_ymd (d : datetime) : string :=
  Py.fmt_d 4 (year d) +:+ "-" +:+ Py.fmt_d 2 (month d) +:+ "-"
    +:+ Py.fmt_d 2 (day d).

(** The values a [datetime] object can hold. *)
Definition valid (d : datetime) : Prop :=
  1 ≤ year d ≤ 9999 ∧ 1 ≤ month d ≤ 12
  ∧ 1 ≤ day d ≤ days_in_month (year d) (month d)
  ∧ 0 ≤ hour d < 24 ∧ 0 ≤ minute d < 60 ∧ 0 ≤ second d < 60
  ∧ 0 ≤ microsecond d < 1000000.

#[global] Instance valid_dec d : Decision (valid d).
Proof. unfold valid. apply _. Defined.

End Datetime.

Import Datetime.

(** ** The datastore, the marker file and the clock *)

Module Session.
(** A row of [sessions].  [completed] is the integer the program writes
    (the column default 0, then 1 or 0). *)
Record row := mk {
  id : string;
  start_time : string;
  end_time : option string;
  planned_duration : Z;
  actual_duration : option Z;
  completed : Z;
  task_id : option string;
  interruption_reason : option string;
  date : string
}.
End Session.

Module Task.
Record row := mk {
  id : string;
  name : string;
  completed_pomodoros : Z;
  total_minutes : Z
}.
End Task.

Module Marker.
(** The content of [.current_session.json]. *)
Record t := mk {
  id : string;
  start_time : datetime;
  duration : Z;
  task_id : option string;
  task_name : option string
}.
End Marker.

Record db := mk_db {
  sessions : list Session.row;
  tasks : list Task.row;
  config : gmap string string
}.

Record state := mk_state {
  database : db;
  marker : option Marker.t
}.

(** The readings of the clock that one command makes. *)
Record clock := mk_clock {
  now : datetime;        (* datetime.now() at the start of the command *)
  session_ms : Z;        (* int(time.time() * 1000) in generate_session_id *)
  task_ms : Z;           (* int(time.time() * 1000) for a new task id *)
  now_after : datetime   (* datetime.now() once the countdown has run out *)
}.

Inductive exn :=
  IntegrityError | ValueError | ZeroDivisionError | OverflowError.

Inductive result (A : Type) :=
| Ok (a : A)
| Raise (e : exn).
Arguments Ok {A} a.
Arguments Raise {A} e.

#[global] Instance result_ret : MRet result := λ A a, Ok a.
#[global] Instance result_bind : MBind result := λ A B f r,
  match r with Ok a => f a | Raise e => Raise e end.

Definition empty_db : db := mk_db [] [] ∅.
Definition empty_state : state := mk_state empty_db None.

(** [init_db]: the tables exist, and [daily_goal] has a value ('8' unless
    one is stored already: INSERT OR IGNORE). *)
Definition init_db (d : db) : db :=
  mk_db (sessions d) (tasks d)
    (match config d !! "daily_goal" with
     | Some _ => config d
     | None => <["daily_goal" := "8"]> (config d)
     end).

Definition generate_session_id (clk : clock) : string :=
  "session_" +:+ Py.str (session_ms clk).

Definition generate_task_id (clk : clock) : string :=
  "task_" +:+ Py.str (task_ms clk).

(** INSERT into a table with a primary key. *)
Definition insert_session (r : Session.row) (l : list Session.row)
  : result (list Session.row) :=
  if decide (Session.id r ∈ Session.id <$> l) then Raise IntegrityError
  else Ok (l ++ [r]).

Definition insert_task (r : Task.row) (l : list Task.row)
  : result (list Task.row) :=
  if decide (Task.id r ∈ Task.id <$> l) then Raise IntegrityError
  else Ok (l ++ [r]).

(** UPDATE ... WHERE id = ? *)
Definition update_session (k : string) (f : Session.row → Session.row)
           (l : list Session.row) : list Session.row :=
  (λ r, if decide (Session.id r = k) then f r else r) <$> l.

Definition update_task (k : string) (f : Task.row → Task.row)
           (l : list Task.row) : list Task.row :=
  (λ r, if decide (Task.id r = k) then f r else r) <$> l.

(** SELECT id FROM tasks WHERE name = ?, then [fetchone()]. *)
Definition select_task_id (n : string) (l : list Task.row) : option string :=
  Task.id <$> (snd <$> list_find (λ r, Task.name r = n) l).

(** ** Session lifecycle *)

Inductive notice :=
| NoActiveSession                           (* No active Pomodoro session found *)
| Completed (minutes : Z)                   (* Pomodoro completed! Duration: .. *)
| Interrupted (minutes : Z) (reason : string). (* Pomodoro interrupted after .. *)

(** [int((now - start_time).total_seconds() / 60)] *)
Definition elapsed_minutes (now start_time : datetime) : Z :=
  Py.int_of_float (Datetime.total_seconds (Datetime.sub now start_time)
                   / inject_Z 60)%Q.

Definition complete_row (now : datetime) (actual : Z) (r : Session.row)
  : Session.row :=
  Session.mk (Session.id r) (Session.start_time r) (Some (isoformat now))
    (Session.planned_duration r) (Some actual) 1 (Session.task_id r)
    (Session.interruption_reason r) (Session.date r).

Definition interrupt_row (now : datetime) (actual : Z) (reason : string)
           (r : Session.row) : Session.row :=
  Session.mk (Session.id r) (Session.start_time r) (Some (isoformat now))
    (Session.planned_duration r) (Some actual) 0 (Session.task_id r)
    (Some reason) (Session.date r).

Definition credit_task (actual : Z) (r : Task.row) : Task.row :=
  Task.mk (Task.id r) (Task.name r) (Task.completed_pomodoros r + 1)
    (Task.total_minutes r + actual).

Definition cmd_complete (now : datetime) (st : state) : state * notice :=
  match marker st with
  | None => (st, NoActiveSession)
  | Some session =>
      let d := database st in
      let start_time := Marker.start_time session in
      let actual_duration := elapsed_minutes now start_time in
      let sessions' :=
        update_session (Marker.id session)
          (complete_row now actual_duration) (sessions d) in
      let tasks' :=
        match Marker.task_id session with
        | Some tid =>
            if Py.truthy_str tid
            then update_task tid (credit_task actual_duration) (tasks d)
            else tasks d
        | None => tasks d
        end in
      (mk_state (mk_db sessions' tasks' (config d)) None,
       Completed actual_duration)
  end.

Definition cmd_interrupt (now : datetime) (reason : option string)
           (st : state) : state * notice :=
  match marker st with
  | None => (st, NoActiveSession)
  | Some session =>
      let d := database st in
      let start_time := Marker.start_time session in
      let actual_duration := elapsed_minutes now start_time in
      let sessions' :=
        update_session (Marker.id session)
          (interrupt_row now actual_duration
             (Py.or_else Py.truthy_str reason "Unknown"))
          (sessions d) in
      (mk_state (mk_db sessions' (tasks d) (config d)) None,
       Interrupted actual_duration
         (Py.or_else Py.truthy_str reason "Not specified"))
  end.

(** The countdown loop: one line [(mins, secs)] per second that remains. *)
Fixpoint countdown (remaining : nat) : list (Z * Z) :=
  match remaining with
  | O => []
  | S k =>
      (Z.of_nat remaining / 60, Z.of_nat remaining mod 60) :: countdown k
  end.

Record start_output := mk_start_output {
  shown_duration : Z;               (* Pomodoro started! .. minutes. *)
  shown_task : string;              (* Task: .. *)
  countdown_lines : list (Z * Z);   (* empty in manual mode *)
  completion : option notice        (* the notice of the automatic complete *)
}.

(** Lines 92-130 of [cmd_start]: the task is found or created, the session
    row is inserted and committed, the marker file is written. *)
Definition start_session (clk : clock) (task : option string)
           (duration : option Z) (st : state) : result state :=
  let d := database st in
  let session_id := generate_session_id clk in
  '(task_id, tasks') ←
    (if Py.truthy_opt Py.truthy_str task then
       let name := default "" task in
       match select_task_id name (tasks d) with
       | Some tid => Ok (Some tid, tasks d)
       | None =>
           let tid := generate_task_id clk in
           tasks' ← insert_task (Task.mk tid name 0 0) (tasks d);
           Ok (Some tid, tasks')
       end
     else Ok (None, tasks d));
  sessions' ←
    insert_session
      (Session.mk session_id (isoformat (now clk)) None
         (Py.or_else Py.truthy_int duration 25) None 0 task_id None
         (strftime_ymd (now clk)))
      (sessions d);
  Ok (mk_state (mk_db sessions' tasks' (config d))
        (Some (Marker.mk session_id (now clk)
                 (Py.or_else Py.truthy_int duration 25) task_id task))).

(** [args.duration and args.duration > 0] *)
Definition timed (duration : option Z) : bool :=
  match duration with
  | Some n => Py.truthy_int n && (0 <? n)
  | None => false
  end.

Definition cmd_start (clk : clock) (task : option string)
           (duration : option Z) (st : state)
  : result (state * start_output) :=
  st1 ← start_session clk task duration st;
  let shown := Py.or_else Py.truthy_int duration 25 in
  let shown_task := Py.or_else Py.truthy_str task "No task specified" in
  if timed duration then
    let remaining := default 0 duration * 60 in
    let '(st2, n) := cmd_complete (now_after clk) st1 in
    Ok (st2, mk_start_output shown shown_task
               (countdown (Z.to_nat remaining)) (Some n))
  else Ok (st1, mk_start_output shown shown_task [] None).

(** ** Tasks and configuration *)

Inductive task_output :=
| NeedName                      (* Please provide a task name *)
| TaskAdded (name : string).    (* Task '..' added! *)

(** [cmd_task] with [task_command == "add"]. *)
Definition cmd_task_add (clk : clock) (name : option string) (st : state)
  : result (state * task_output) :=
  let d := database st in
  if negb (Py.truthy_opt Py.truthy_str name) then Ok (st, NeedName)
  else
    let n := default "" name in
    tasks' ← insert_task (Task.mk (generate_task_id clk) n 0 0) (tasks d);
    Ok (mk_state (mk_db (sessions d) tasks' (config d)) (marker st),
        TaskAdded n).

Inductive config_output :=
| GoalSet (value : string)      (* Daily goal set to .. pomodoros *)
| GoalShown (value : string).   (* Current daily goal: .. pomodoros *)

(** [cmd_config] with [config_command == "daily_goal"]. *)
Definition cmd_config (value : option string) (st : state)
  : state * config_output :=
  let d := database st in
  match value with
  | Some v =>
      if Py.truthy_str v then
        (mk_state
           (mk_db (sessions d) (tasks d) (<["daily_goal" := v]> (config d)))
           (marker st),
         GoalSet v)
      else (st, GoalShown (default "8" (config d !! "daily_goal")))
  | None => (st, GoalShown (default "8" (config d !! "daily_goal")))
  end.

(** ** Reports *)

(** SUM(column): NULL values are skipped, no value at all gives NULL. *)
Definition sql_sum (l : list (option Z)) : option Z :=
  foldl (λ acc v, match v with
                  | Some z => Some (default 0 acc + z)
                  | None => acc
                  end) None l.

(** [int(goal_result[0]) if goal_result else 8] *)
Definition read_daily_goal (d : db) : result Z :=
  match config d !! "daily_goal" with
  | Some v =>
      match Py.int_of_str v with
      | Some g => Ok g
      | None => Raise ValueError
      end
  | None => Ok 8
  end.

(** [min(count / daily_goal, 1.0)] *)
Definition progress (count daily_goal : Z) : result Q :=
  if daily_goal =? 0 then Raise ZeroDivisionError
  else Ok (Qmin (Py.truediv count daily_goal) 1).

(** ["█" * filled + "░" * (bar_length - filled)]; [true] is a filled cell. *)
Definition bar (bar_length filled : Z) : list bool :=
  replicate (Z.to_nat filled) true
    ++ replicate (Z.to_nat (bar_length - filled)) false.

Inductive goal_line :=
| GoalReached                    (* Daily goal achieved! Amazing work! *)
| MoreToGo (remaining : Z).      (* .. more to reach your daily goal! *)

Record today_report := mk_today {
  report_date : string;
  completed_count : Z;
  total_minutes : Z;
  interrupted_count : Z;
  interrupted_minutes : Z;
  daily_goal : Z;
  goal_status : goal_line;
  filled : Z;
  progress_bar : list bool
}.

Definition cmd_today (now : datetime) (st : state) : result today_report :=
  let d := database st in
  let today := strftime_ymd now in
  let done :=
    filter (λ r, Session.date r = today ∧ Session.completed r = 1)
      (sessions d) in
  let completed_count := Z.of_nat (length done) in
  let total_minutes :=
    Py.or_else Py.truthy_int (sql_sum (Session.actual_duration <$> done)) 0 in
  let broken :=
    filter (λ r, Session.date r = today ∧ Session.completed r = 0
                 ∧ Session.interruption_reason r ≠ None)
      (sessions d) in
  let interrupted_count := Z.of_nat (length broken) in
  let interrupted_minutes :=
    Py.or_else Py.truthy_int (sql_sum (Session.actual_duration <$> broken)) 0 in
  daily_goal ← read_daily_goal d;
  let status :=
    if daily_goal <=? completed_count then GoalReached
    else MoreToGo (daily_goal - completed_count) in
  p ← progress completed_count daily_goal;
  let filled := Py.int_of_float (inject_Z 20 * p)%Q in
  Ok (mk_today today completed_count total_minutes interrupted_count
        interrupted_minutes daily_goal status filled (bar 20 filled)).

(** Text comparison of two TEXT values. *)
Definition str_le (a b : string) : Prop := String.leb a b = true.

#[global] Instance str_le_dec a b : Decision (str_le a b).
Proof. unfold str_le. apply _. Defined.

(** SELECT date, COUNT( * ), SUM(actual_duration) ... GROUP BY date
    ORDER BY date, over the rows that the WHERE clause has kept. *)
Definition group_by_date (l : list Session.row)
  : list (string * Z * option Z) :=
  (λ k, let g := filter (λ r, Session.date r = k) l in
        (k, Z.of_nat (length g), sql_sum (Session.actual_duration <$> g)))
    <$> merge_sort str_le (remove_dups (Session.date <$> l)).

Definition MAX_ORDINAL : Z := 3652059.

(** [d + timedelta(days=k)], which raises when the year leaves 1..9999. *)
Definition plus_days (d : datetime) (k : Z) : result datetime :=
  let n := toordinal d + k in
  if (1 <=? n) && (n <=? MAX_ORDINAL) then Ok (add_days d k)
  else Raise OverflowError.

Record week_line := mk_week_line {
  line_date : string;
  line_count : Z;
  line_minutes : Z;
  line_bar : list bool
}.

Record week_totals := mk_week_totals {
  week_lines : list week_line;
  week_pomodoros : Z;
  week_minutes : Z;
  daily_average : Q              (* total_pomodoros / 7, printed with :.1f *)
}.

Inductive week_report :=
| NothingThisWeek                (* No completed Pomodoros this week yet! *)
| WeekTotals (t : week_totals).

(** The loop over the rows of the week, with its three accumulators. *)
Fixpoint week_loop (daily_goal : Z) (rows : list (string * Z * option Z))
         (total_pomodoros total_minutes : Z) (lines : list week_line)
  : result (Z * Z * list week_line) :=
  match rows with
  | [] => Ok (total_pomodoros, total_minutes, lines)
  | (date, count, minutes) :: rest =>
      let shown := Py.or_else Py.truthy_int minutes 0 in
      p ← progress count daily_goal;
      let filled := Py.int_of_float (inject_Z 10 * p)%Q in
      week_loop daily_goal rest (total_pomodoros + count)
        (total_minutes + shown)
        (lines ++ [mk_week_line date count shown (bar 10 filled)])
  end.

(** The rows of the week: completed sessions dated on or after Monday. *)
Definition week_rows (week_start : datetime) (d : db) : list Session.row :=
  filter (λ r, str_le (strftime_ymd week_start) (Session.date r)
               ∧ Session.completed r = 1)
    (sessions d).

Definition cmd_week (now : datetime) (st : state) : result week_report :=
  let d := database st in
  let today := now in
  week_start ← plus_days today (- weekday today);
  let rows := group_by_date (week_rows week_start d) in
  daily_goal ← read_daily_goal d;
  match rows with
  | [] => Ok NothingThisWeek
  | _ =>
      '(total_pomodoros, total_minutes, lines) ←
        week_loop daily_goal rows 0 0 [];
      Ok (WeekTotals
            (mk_week_totals lines total_pomodoros total_minutes
               (Py.truediv total_pomodoros 7)))
  end.

(** A cell of the calendar grid. *)
Inductive cell :=
| Blank          (* "." : before day 1 or after the last day *)
| GoalAchieved   (* green *)
| Halfway        (* yellow *)
| Started        (* orange *)
| NoData         (* white circle *)
| NoSession.     (* white square: no row for that date *)

#[global] Instance cell_eq_dec : EqDecision cell.
Proof. solve_decision. Defined.

(** The marker for a date that has [count] completed sessions. *)
Definition count_cell (daily_goal count : Z) : cell :=
  if daily_goal <=? count then GoalAchieved
  else if Qle_bool (inject_Z daily_goal * (1 # 2)) (inject_Z count) then Halfway
  else if 0 <? count then Started
  else NoData.

Definition day_cell (date_map : gmap string (Z * Z)) (daily_goal : Z)
           (date_str : string) : cell :=
  match date_map !! date_str with
  | Some (count, _) => count_cell daily_goal count
  | None => NoSession
  end.

(** [f"{year}-{month:02d}-{day_num:02d}"] *)
Definition date_str (year month day_num : Z) : string :=
  Py.str year +:+ "-" +:+ Py.fmt_d 2 month +:+ "-" +:+ Py.fmt_d 2 day_num.

(** The body of the two nested loops over the grid. *)
Definition grid_step (cell_of : Z → cell) (start_weekday max_day : Z)
           (week day : nat) (acc : list (list cell) * Z)
  : list (list cell) * Z :=
  let '(grid, day_num) := acc in
  let idx := Z.of_nat (week * 7 + day) in
  if (start_weekday <=? idx) && (day_num <=? max_day)
  then (alter (<[day := cell_of day_num]>) week grid, day_num + 1)
  else acc.

Definition build_grid (cell_of : Z → cell) (start_weekday max_day : Z)
  : list (list cell) :=
  fst (foldl (λ acc week,
                foldl (λ acc day,
                         grid_step cell_of start_weekday max_day week day acc)
                  acc (seq 0 7))
         (replicate 6 (replicate 7 Blank), 1) (seq 0 6)).

(** The rows of the month: completed sessions whose date matches
    [LIKE 'year-month%']; the pattern holds digits and dashes only, so it
    matches the dates it is a prefix of. *)
Definition month_rows (year month : Z) (d : db) : list Session.row :=
  filter (λ r, String.prefix (Py.str year +:+ "-" +:+ Py.fmt_d 2 month)
                 (Session.date r) = true
               ∧ Session.completed r = 1)
    (sessions d).

(** The dictionary built from the rows of the month. *)
Definition build_date_map (rows : list (string * Z * option Z))
  : gmap string (Z * Z) :=
  foldl (λ m '(date, count, minutes),
           <[date := (count, Py.or_else Py.truthy_int minutes 0)]> m)
    ∅ rows.

Record heatmap_report := mk_heatmap {
  grid : list (list cell);
  legend_goal : Z;        (* Goal achieved (goal+) *)
  legend_half : Z;        (* daily_goal // 2 *)
  legend_below : Z;       (* daily_goal - 1 *)
  month_days : Z          (* Active days: ../last_day.day *)
}.

(** [datetime(year, month, 1)] *)
Definition first_of_month (year month : Z) : result datetime :=
  if (1 <=? year) && (year <=? 9999) && (1 <=? month) && (month <=? 12)
  then Ok (at_midnight year month 1)
  else Raise ValueError.

(** The weekday of the first day of the month and the day number of its
    last day: [first_day.weekday()] and [last_day.day], with
    [last_day = (first_day + timedelta(days=32)).replace(day=1)
                - timedelta(days=1)]. *)
Definition month_frame (year month : Z) : result (Z * Z) :=
  first_day ← first_of_month year month;
  later ← plus_days first_day 32;
  last_day ← plus_days (replace_day later 1) (-1);
  Ok (weekday first_day, Datetime.day last_day).

Definition cmd_heatmap (now : datetime) (year month : option Z) (st : state)
  : result heatmap_report :=
  let d := database st in
  let year := Py.or_else Py.truthy_int year (Datetime.year now) in
  let month := Py.or_else Py.truthy_int month (Datetime.month now) in
  let rows := group_by_date (month_rows year month d) in
  daily_goal ← read_daily_goal d;
  let date_map := build_date_map rows in
  '(start_weekday, max_day) ← month_frame year month;
  Ok (mk_heatmap
        (build_grid (λ day_num, day_cell date_map daily_goal
                                  (date_str year month day_num))
           start_weekday max_day)
        daily_goal (daily_goal / 2) (daily_goal - 1) max_day).

(** ** Export *)

#[local] Unset Elimination Schemes.
Inductive json :=
| JNull
| JBool (b : bool)
| JInt (z : Z)
| JStr (s : string)
| JList (l : list json)
| JDict (l : list (string * json)).
#[local] Set Elimination Schemes.

Definition json_opt {A} (f : A → json) (o : option A) : json :=
  match o with Some a => f a | None => JNull end.

Definition export_record (r : Session.row) : json :=
  JDict [("id", JStr (Session.id r));
         ("start_time", JStr (Session.start_time r));
         ("end_time", json_opt JStr (Session.end_time r));
         ("planned_duration", JInt (Session.planned_duration r));
         ("actual_duration", json_opt JInt (Session.actual_duration r));
         ("completed", JBool (Py.truthy_int (Session.completed r)));
         ("task_id", json_opt JStr (Session.task_id r));
         ("interruption_reason",
           json_opt JStr (Session.interruption_reason r));
         ("date", JStr (Session.date r))].

(** ORDER BY start_time DESC *)
Definition later_first (a b : Session.row) : Prop :=
  str_le (Session.start_time b) (Session.start_time a).

#[global] Instance later_first_dec a b : Decision (later_first a b).
Proof. unfold later_first. apply _. Defined.

Inductive export_output :=
| Printed (j : json)             (* print(json.dumps(sessions, indent=2)) *)
| OnlyJsonSupported.             (* Currently only JSON export is supported *)

Definition cmd_export (format : string) (st : state) : export_output :=
  let rows := merge_sort later_first (sessions (database st)) in
  let sessions := export_record <$> rows in
  if String.eqb format "json" then Printed (JList sessions)
  else OnlyJsonSupported.

(** ** The command line *)

Inductive command :=
| Start (task : option string) (duration : option Z)
| Complete
| Interrupt (reason : option string)
| Today
| Week
| Heatmap (year month : option Z)
| TaskAdd (name : option string)
| TaskList
| Config (value : option string)
| Export (format : string).

(** [main]: [init_db()], then the command.  Only the state that the command
    leaves is kept here; a command that raises leaves the state it found.
    The reports, [task list] and [export] write nothing. *)
Definition main (clk : clock) (c : command) (st : state) : state :=
  let st0 := mk_state (init_db (database st)) (marker st) in
  match c with
  | Start task duration =>
      match cmd_start clk task duration st0 with
      | Ok (st', _) => st'
      | Raise _ => st0
      end
  | Complete => fst (cmd_complete (now clk) st0)
  | Interrupt reason => fst (cmd_interrupt (now clk) reason st0)
  | TaskAdd name =>
      match cmd_task_add clk name st0 with
      | Ok (st', _) => st'
      | Raise _ => st0
      end
  | Config value => fst (cmd_config value st0)
  | Today | Week | Heatmap _ _ | TaskList | Export _ => st0
  end.

(** The state after a sequence of invocations, from an empty data
    directory. *)
Definition run (tr : list (clock * command)) : state :=
  foldl (λ st '(clk, c), main clk c st) empty_state tr.

(** ** Vocabulary of the properties *)

(** The ids of the session rows that have no end timestamp. *)
Definition open_ids (st : state) : list string :=
  Session.id <$>
    filter (λ r, Session.end_time r = None) (sessions (database st)).

(** A sequence of invocations in which [start] is never issued while the
    marker file exists. *)
Fixpoint starts_when_idle (st : state) (tr : list (clock * command)) : bool :=
  match tr with
  | [] => true
  | (clk, c) :: rest =>
      match c, marker st with
      | Start _ _, Some _ => false
      | _, _ => starts_when_idle (main clk c st) rest
      end
  end.

(** The completed session rows that are tied to a task. *)
Definition completed_for (tid : string) (l : list Session.row)
  : list Session.row :=
  filter (λ r, Session.task_id r = Some tid ∧ Session.completed r = 1) l.

(** The sum of the actual durations of some rows. *)
Definition minutes_sum (l : list Session.row) : Z :=
  foldr (λ r acc, default 0 (Session.actual_duration r) + acc) 0 l.

(** Markers ranked by the progress they show. *)
Definition cell_rank (c : cell) : Z :=
  match c with
  | GoalAchieved => 3
  | Halfway => 2
  | Started => 1
  | NoData | NoSession | Blank => 0
  end.

(** The sum of a list of integers. *)
Definition sumZ (l : list Z) : Z := foldr Z.add 0 l.

(** The number of filled cells of a bar. *)
Definition filled_cells (b : list bool) : Z :=
  Z.of_nat (length (filter (λ x, x = true) b)).

(** The completed sessions of one calendar date. *)
Definition completed_on (date : string) (d : db) : list Session.row :=
  filter (λ r, Session.date r = date ∧ Session.completed r = 1) (sessions d).

(** The cell of the grid in which the heatmap shows day [day_num] of a
    month whose first day falls on [start_weekday]. *)
Definition grid_cell (g : list (list cell)) (start_weekday day_num : Z)
  : option cell :=
  let idx := Z.to_nat (start_weekday + day_num - 1) in
  g !! (idx `div` 7)%nat ≫= (.!! (idx `mod` 7)%nat).

(** The ids of the rows of a table that have no end timestamp. *)
Definition open_of (l : list Session.row) : list string :=
  Session.id <$> filter (λ r, Session.end_time r = None) l.

(** The session rows that have an end timestamp. *)
Definition closed_rows (st : state) : list Session.row :=
  filter (λ r, Session.end_time r ≠ None) (sessions (database st)).

(** The invocations that end a session: [complete], [interrupt] and a
    [start] that runs its countdown and then completes. *)
Definition ends_a_session (c : command) : bool :=
  match c with
  | Complete | Interrupt _ => true
  | Start _ duration => timed duration
  | _ => false
  end.

(** The open rows are the one that the marker names, if any. *)
Definition tracks (st : state) : Prop :=
  open_ids st = match marker st with Some m => [Marker.id m] | None => [] end.

(** A task's counters agree with the completed rows tied to it. *)
Definition totals_ok (l : list Session.row) (t : Task.row) : Prop :=
  Task.completed_pomodoros t = Z.of_nat (length (completed_for (Task.id t) l))
  ∧ Task.total_minutes t = minutes_sum (completed_for (Task.id t) l).

(** What every sequence of invocations keeps true of the data directory. *)
Record consistent (st : state) : Prop := mk_consistent {
  ids_unique : NoDup (Session.id <$> sessions (database st));
  tasks_known : ∀ r tid,
    r ∈ sessions (database st) → Session.task_id r = Some tid →
    tid ∈ (Task.id <$> tasks (database st));
  task_ids_truthy : ∀ t,
    t ∈ tasks (database st) → Py.truthy_str (Task.id t) = true;
  totals_agree : ∀ t,
    t ∈ tasks (database st) → totals_ok (sessions (database st)) t;
  marker_row : ∀ m,
    marker st = Some m →
    ∃ r, r ∈ sessions (database st) ∧ Session.id r = Marker.id m
         ∧ Session.completed r = 0
         ∧ Session.task_id r = Marker.task_id m
}.

(** The number of elements of [l] that [f] sends to [k]. *)
Definition group_size {A K : Type} `{EqDecision K} (f : A → K) (l : list A)
           (k : K) : Z :=
  Z.of_nat (length (filter (λ x, f x = k) l)).

(** The cell at row-major position [j] of a grid of rows of seven. *)
Definition flat_get (g : list (list cell)) (j : nat) : option cell :=
  g !! (j `div` 7)%nat ≫= (.!! (j `mod` 7)%nat).

(** The cell that belongs at position [j] once the positions below [k]
    have been visited. *)
Definition expected (cell_of : Z → cell) (start_weekday max_day : Z)
           (k j : nat) : cell :=
  if decide ((j < k)%nat ∧ start_weekday ≤ Z.of_nat j
             ∧ Z.of_nat j - start_weekday < max_day)
  then cell_of (Z.of_nat j - start_weekday + 1) else Blank.

(** The number of days placed at the positions below [k]. *)
Definition placed (start_weekday max_day : Z) (k : nat) : Z :=
  Z.max 0 (Z.min (Z.of_nat k - start_weekday) max_day).

(** ** Sample data *)

Definition clock_1 : clock :=
  mk_clock (Datetime.mk 2024 3 15 10 0 0 0) 1710496800000 1710496800001
    (Datetime.mk 2024 3 15 10 25 0 5).

Definition clock_2 : clock :=
  mk_clock (Datetime.mk 2024 3 15 10 30 59 999999) 1710498659999
    1710498660000 (Datetime.mk 2024 3 15 10 55 0 5).

Definition clock_3 : clock :=
  mk_clock (Datetime.mk 2024 3 15 11 0 0 0) 1710500400000 1710500400001
    (Datetime.mk 2024 3 15 11 25 0 5).

(** [start --duration 0] twice, with no [complete] in between. *)
Definition double_start : list (clock * command) :=
  [(clock_1, Start None (Some 0)); (clock_2, Start None (Some 0))].

(** A manual session on a task, completed, then a second manual start. *)
Definition one_done_one_open : list (clock * command) :=
  [(clock_1, Start (Some "Writing") (Some 0)); (clock_2, Complete);
   (clock_3, Start (Some "Writing") (Some 0))].

(** A daily goal of 3, then one completed session. *)
Definition goal_three_one_done : list (clock * command) :=
  [(clock_1, Config (Some "3")); (clock_1, Start None (Some 0));
   (clock_2, Complete)].

(** The heatmap of March 2024 after [goal_three_one_done]. *)
Definition sample_heatmap : heatmap_report :=
  mk_heatmap
    (build_grid
       (λ day_num,
          day_cell
            (build_date_map
               (group_by_date
                  (month_rows 2024 3 (database (run goal_three_one_done)))))
            3 (date_str 2024 3 day_num))
       4 31)
    3 1 2 31.

(** ** Vocabulary of text order *)

(** [w] decimal digits of [n], the most significant first. *)
Fixpoint pad (w : nat) (n : Z) : string :=
  match w with
  | O => ""
  | S k => pad k (n / 10) +:+ String (Py.digit (n mod 10)) ""
  end.

(** Lexicographic comparison of two lists of integers. *)
Fixpoint lex (l1 l2 : list Z) : comparison :=
  match l1, l2 with
  | x :: l1', y :: l2' =>
      match x ?= y with
      | Eq => lex l1' l2'
      | c => c
      end
  | _, _ => Eq
  end.

(** The fields of a datetime, the most significant first. *)
Definition fields (d : datetime) : list Z :=
  [year d; month d; day d; hour d; minute d; second d; microsecond d].

(** The length of a year in days. *)
Definition year_length (y : Z) : Z := if is_leap y then 366 else 365.

(** The table lookups of [days_before_month] and [days_in_month] with the
    leap flag as an argument. *)
Definition before_month (leap : bool) (m : Z) : Z :=
  default 0 (DAYS_BEFORE_MONTH !! Z.to_nat m)
  + (if (2 <? m) && leap then 1 else 0).

Definition in_month (leap : bool) (m : Z) : Z :=
  if (m =? 2) && leap then 29 else default 0 (DAYS_IN_MONTH !! Z.to_nat m).

(** ** Vocabulary of the further properties *)

(** The three shapes of a session row: open, completed, interrupted. *)
Definition row_open (r : Session.row) : Prop :=
  Session.end_time r = None ∧ Session.actual_duration r = None
  ∧ Session.completed r = 0 ∧ Session.interruption_reason r = None.

Definition row_completed (r : Session.row) : Prop :=
  is_Some (Session.end_time r) ∧ is_Some (Session.actual_duration r)
  ∧ Session.completed r = 1 ∧ Session.interruption_reason r = None.

Definition row_interrupted (r : Session.row) : Prop :=
  is_Some (Session.end_time r) ∧ is_Some (Session.actual_duration r)
  ∧ Session.completed r = 0
  ∧ ∃ why, Session.interruption_reason r = Some why ∧ why ≠ "".

(** What holds of every row that the program has written. *)
Definition row_shape (r : Session.row) : Prop :=
  Session.planned_duration r ≠ 0
  ∧ String.prefix (Session.date r) (Session.start_time r) = true
  ∧ (row_open r ∨ row_completed r ∨ row_interrupted r).

(** Every row has one of the shapes, and the rows that the marker names
    are open. *)
Definition shaped (st : state) : Prop :=
  (∀ r, r ∈ sessions (database st) → row_shape r)
  ∧ ∀ m r, marker st = Some m → r ∈ sessions (database st) →
           Session.id r = Marker.id m → row_open r.

(** The state after further invocations. *)
Definition run_from (st : state) (tr : list (clock * command)) : state :=
  foldl (λ st '(clk, c), main clk c st) st tr.

(** The row that [start] inserts. *)
Definition started_row (clk : clock) (duration : option Z)
           (task_id : option string) : Session.row :=
  Session.mk (generate_session_id clk) (isoformat (now clk)) None
    (Py.or_else Py.truthy_int duration 25) None 0 task_id None
    (strftime_ymd (now clk)).

(** The month after month [m] of year [y], with its year. *)
Definition next_month (y m : Z) : Z * Z :=
  if m =? 12 then (y + 1, 1) else (y, m + 1).

(** Row [r'] is row [r] at a later time: the same session with what [start]
    wrote, and the same row altogether once [r] has an end timestamp. *)
Definition continues (r r' : Session.row) : Prop :=
  Session.id r' = Session.id r
  ∧ Session.start_time r' = Session.start_time r
  ∧ Session.planned_duration r' = Session.planned_duration r
  ∧ Session.task_id r' = Session.task_id r
  ∧ Session.date r' = Session.date r
  ∧ (Session.end_time r ≠ None → r' = r).

(** Task [t'] is task [t] at a later time: the same id and name, with no
    fewer pomodoros. *)
Definition task_continues (t t' : Task.row) : Prop :=
  Task.id t' = Task.id t ∧ Task.name t' = Task.name t
  ∧ Task.completed_pomodoros t ≤ Task.completed_pomodoros t'.

(** The goal text that is stored after a sequence of invocations, when
    [g] was stored before: the value of the last [config daily_goal] that
    gave a non-empty value. *)
Definition goal_after (g : string) (tr : list (clock * command)) : string :=
  foldl (λ g '(_, c),
           match c with
           | Config (Some v) => if Py.truthy_str v then v else g
           | _ => g
           end) g tr.

(** The ids in the tables were made from the clock readings [l]. *)
Definition ids_from (l : list clock) (st : state) : Prop :=
  (∀ k, k ∈ (Session.id <$> sessions (database st)) →
        k ∈ (generate_session_id <$> l))
  ∧ (∀ k, k ∈ (Task.id <$> tasks (database st)) →
          k ∈ (generate_task_id <$> l)).

(** The month summary that [heatmap] prints under the legend: the totals
    over the values of the dictionary and the number of its keys; the
    average is printed only when a day is active. *)
Record month_summary := mk_month_summary {
  summary_pomodoros : Z;       (* Total: .. *)
  summary_minutes : Z;         (* (.. min) *)
  active_days : Z;             (* Active days: ../.. *)
  active_average : option Q    (* Daily avg: total_minutes / active_days *)
}.

Definition heatmap_summary (date_map : gmap string (Z * Z)) : month_summary :=
  let values := snd <$> map_to_list date_map in
  let total_pomodoros := sumZ (fst <$> values) in
  let total_minutes := sumZ (snd <$> values) in
  let active_days := Z.of_nat (size date_map) in
  mk_month_summary total_pomodoros total_minutes active_days
    (if 0 <? active_days then Some (Py.truediv total_minutes active_days)
     else None).

(** [any(c != "." for c in row)] *)
Definition has_content (row : list cell) : bool :=
  existsb (λ c, negb (bool_decide (c = Blank))) row.

(** The rows of the grid that are printed: the first five, and the sixth
    when it has content.  The grid has six rows. *)
Definition printed_rows (grid : list (list cell)) : list (list cell) :=
  omap (λ week,
          row ← grid !! week;
          if has_content row || (week <? 5)%nat then Some row else None)
    (seq 0 6).

(** * Properties *)

(** ** Durations and bars *)

Lemma elapsed_minutes_quot a b :
  elapsed_minutes a b = Z.quot (Datetime.sub a b) 60000000.
Proof.
  unfold elapsed_minutes, Py.int_of_float, total_seconds. cbn.
  f_equal. lia.
Qed.

Lemma elapsed_minutes_floor a b :
  to_us b ≤ to_us a →
  elapsed_minutes a b = (to_us a - to_us b) / 60000000
  ∧ 0 ≤ (to_us a - to_us b) / 60000000.
Proof.
  intros H. rewrite elapsed_minutes_quot. unfold Datetime.sub.
  rewrite Z.quot_div_nonneg by lia. split; [done|].
  apply Z.div_pos; lia.
Qed.

Lemma int_of_float_floor q : (0 <= q)%Q → Py.int_of_float q = Qfloor q.
Proof.
  destruct q as [n d]. unfold Qle, Py.int_of_float, Qfloor. cbn. intros H.
  apply Z.quot_div_nonneg; lia.
Qed.

(** [int(n * min(c / g, 1.0))] for a positive goal. *)
Lemma bar_fill n c g :
  0 < g → 0 ≤ c → 0 ≤ n →
  let q := (inject_Z n * Qmin (Py.truediv c g) 1)%Q in
  Py.int_of_float q = Qfloor q ∧ Qfloor q = Z.min n (n * c / g).
Proof.
  intros Hg Hc Hn q.
  assert (Qfloor q = Z.min n (n * c / g) ∧ (0 <= q)%Q) as [Hq Hpos].
  { subst q. destruct g as [|p|p]; try lia.
    unfold Py.truediv, Qdiv, Qinv, inject_Z. cbn [Qnum Qden].
    unfold Qmin, GenericMinMax.gmin.
    destruct (Qcompare _ _) eqn:E; unfold Qcompare in E; cbn in E.
    - apply Z.compare_eq in E. unfold Qfloor, Qle. cbn.
      split; [|nia]. replace (n * (c * 1)) with (n * c) by lia.
      replace (Z.pos (1 * p)) with (Z.pos p) by lia.
      rewrite Z.min_r; [done|]. apply Z.div_le_upper_bound; nia.
    - rewrite Z.compare_lt_iff in E. unfold Qfloor, Qle. cbn.
      split; [|nia]. replace (n * (c * 1)) with (n * c) by lia.
      replace (Z.pos (1 * p)) with (Z.pos p) by lia.
      rewrite Z.min_r; [done|]. apply Z.div_le_upper_bound; nia.
    - rewrite Z.compare_gt_iff in E. unfold Qfloor, Qle. cbn.
      split; [|nia]. rewrite Z.div_1_r.
      replace (n * 1) with n by lia.
      rewrite Z.min_l; [done|]. apply Z.div_le_lower_bound; nia. }
  split; [by apply int_of_float_floor|done].
Qed.

Lemma filter_replicate_true m :
  filter (λ x, x = true) (replicate m true) = replicate m true.
Proof.
  induction m as [|m IH]; [done|].
  change (replicate (S m) true) with (true :: replicate m true).
  by rewrite filter_cons, decide_True, IH.
Qed.

Lemma filter_replicate_false m :
  filter (λ x, x = true) (replicate m false) = [].
Proof.
  induction m as [|m IH]; [done|].
  change (replicate (S m) false) with (false :: replicate m false).
  by rewrite filter_cons, decide_False, IH.
Qed.

Lemma bar_cells n k :
  0 ≤ k ≤ n →
  length (bar n k) = Z.to_nat n ∧ filled_cells (bar n k) = k.
Proof.
  intros H. unfold bar, filled_cells. split.
  - rewrite length_app, !length_replicate. lia.
  - rewrite filter_app, filter_replicate_true, filter_replicate_false,
      app_nil_r, length_replicate. lia.
Qed.

(** ** Tables *)

Lemma update_session_fresh k f l :
  k ∉ (Session.id <$> l) → update_session k f l = l.
Proof.
  unfold update_session. induction l as [|r l IH]; [done|].
  rewrite fmap_cons, not_elem_of_cons. intros [Hne Hl]. cbn.
  rewrite decide_False by done. f_equal. by apply IH.
Qed.

Lemma update_session_cons k f r l :
  update_session k f (r :: l)
  = (if decide (Session.id r = k) then f r else r) :: update_session k f l.
Proof. done. Qed.

Lemma update_session_ids k f l :
  (∀ r, Session.id (f r) = Session.id r) →
  Session.id <$> update_session k f l = Session.id <$> l.
Proof.
  intros Hf. unfold update_session. rewrite <- list_fmap_compose.
  apply list_fmap_ext. intros i r _. cbn. case_decide; [apply Hf|done].
Qed.

Lemma update_task_ids k f l :
  (∀ r, Task.id (f r) = Task.id r) →
  Task.id <$> update_task k f l = Task.id <$> l.
Proof.
  intros Hf. unfold update_task. rewrite <- list_fmap_compose.
  apply list_fmap_ext. intros i r _. cbn. case_decide; [apply Hf|done].
Qed.

Lemma filter_id_fresh k (l : list Session.row) :
  k ∉ (Session.id <$> l) → filter (λ r, Session.id r = k) l = [].
Proof.
  induction l as [|r l IH]; [done|].
  rewrite fmap_cons, not_elem_of_cons. intros [Hne Hl].
  rewrite filter_cons, decide_False by (intros ?; congruence). by apply IH.
Qed.

Lemma update_session_last k f l r :
  k ∉ (Session.id <$> l) → Session.id r = k →
  update_session k f (l ++ [r]) = l ++ [f r].
Proof.
  intros Hl Hr. unfold update_session. rewrite fmap_app.
  fold (update_session k f l). rewrite update_session_fresh by done.
  cbn. by rewrite decide_True.
Qed.

Lemma filter_id_last k (l : list Session.row) r :
  k ∉ (Session.id <$> l) → Session.id r = k →
  filter (λ r, Session.id r = k) (l ++ [r]) = [r].
Proof.
  intros Hl Hr. rewrite filter_app, filter_id_fresh by done.
  by rewrite filter_cons, decide_True.
Qed.

Lemma select_task_id_elem n l tid :
  select_task_id n l = Some tid → tid ∈ (Task.id <$> l).
Proof.
  unfold select_task_id. intros H.
  destruct (list_find _ l) as [[i t]|] eqn:E; [|done].
  cbn in H. injection H as <-.
  apply list_find_Some in E as (Hi & _). apply list_elem_of_fmap_2.
  by eapply list_elem_of_lookup_2.
Qed.

Lemma update_task_elem k f l t' :
  t' ∈ update_task k f l →
  ∃ t, t ∈ l ∧ t' = if decide (Task.id t = k) then f t else t.
Proof.
  unfold update_task. intros H. apply list_elem_of_fmap in H as (t & -> & Ht).
  by exists t.
Qed.

(** ** Start, complete, interrupt *)

(** What [start_session] leaves when the inserts are accepted. *)
Lemma start_session_ok clk task duration st st1 :
  start_session clk task duration st = Ok st1 →
  ∃ tid tasks',
    (generate_session_id clk ∉ (Session.id <$> sessions (database st)))
    ∧ sessions (database st1) =
        sessions (database st)
          ++ [Session.mk (generate_session_id clk) (isoformat (now clk)) None
                (Py.or_else Py.truthy_int duration 25) None 0 tid None
                (strftime_ymd (now clk))]
    ∧ tasks (database st1) = tasks'
    ∧ config (database st1) = config (database st)
    ∧ marker st1 =
        Some (Marker.mk (generate_session_id clk) (now clk)
                (Py.or_else Py.truthy_int duration 25) tid task).
Proof.
  unfold start_session. intros H.
  destruct (if Py.truthy_opt Py.truthy_str task then _ else _)
    as [[tid tasks']|e] eqn:Ht; [|done].
  cbn in H. unfold insert_session in H. cbn in H.
  case_decide as Hin; [done|]. cbn in H. injection H as <-.
  exists tid, tasks'. done.
Qed.

(** [cmd_start] is [start_session], followed in timed mode by the
    countdown and [cmd_complete]. *)
Lemma cmd_start_ok clk task duration st st' out :
  cmd_start clk task duration st = Ok (st', out) →
  ∃ st1, start_session clk task duration st = Ok st1
    ∧ if timed duration
      then st' = fst (cmd_complete (now_after clk) st1)
           ∧ completion out = Some (snd (cmd_complete (now_after clk) st1))
           ∧ countdown_lines out
             = countdown (Z.to_nat (default 0 duration * 60))
      else st' = st1 ∧ completion out = None ∧ countdown_lines out = [].
Proof.
  unfold cmd_start. intros H.
  destruct (start_session clk task duration st) as [st1|e]; [|done].
  cbn in H. exists st1. split; [done|].
  destruct (timed duration).
  - destruct (cmd_complete (now_after clk) st1) as [st2 n].
    injection H as <- <-. done.
  - injection H as <- <-. done.
Qed.

(** C3.  With no marker file, [complete] and [interrupt] leave the whole
    state (sessions, tasks, configuration, marker) as it is and answer
    "no active session". *)
Theorem no_marker_no_change (st : state) (now : datetime)
        (reason : option string) :
  marker st = None →
  cmd_complete now st = (st, NoActiveSession)
  ∧ cmd_interrupt now reason st = (st, NoActiveSession).
Proof. intros H. unfold cmd_complete, cmd_interrupt. by rewrite H. Qed.

Lemma no_marker_no_change_witness :
  marker empty_state = None
  ∧ cmd_complete (now clock_1) empty_state = (empty_state, NoActiveSession)
  ∧ cmd_interrupt (now clock_1) (Some "phone") empty_state
    = (empty_state, NoActiveSession).
Proof.
  split; [reflexivity|].
  apply (no_marker_no_change empty_state (now clock_1) (Some "phone")).
  reflexivity.
Defined.





(** ** The marker and the open rows *)

Lemma open_of_update k f l :
  (∀ r, Session.end_time (f r) ≠ None) →
  open_of (update_session k f l) = filter (λ i, i ≠ k) (open_of l).
Proof.
  intros Hf. unfold open_of, update_session.
  induction l as [|r l IH]; [done|].
  rewrite fmap_cons, !filter_cons.
  destruct (decide (Session.id r = k)) as [Hk|Hk].
  - destruct (decide (Session.end_time (f r) = None)) as [Hc|_];
      [by destruct (Hf r)|].
    rewrite IH. destruct (decide (Session.end_time r = None)); [|done].
    rewrite fmap_cons, filter_cons, decide_False; [done|]. by intros ?.
  - destruct (decide (Session.end_time r = None)); [|done].
    by rewrite !fmap_cons, filter_cons, decide_True, IH.
Qed.

Lemma complete_tracks now st : tracks st → tracks (fst (cmd_complete now st)).
Proof.
  unfold tracks, cmd_complete.
  destruct (marker st) as [m|] eqn:Hm; cbn; [|by rewrite Hm].
  unfold open_ids. cbn. intros H.
  change (open_of (sessions (database st)) = [Marker.id m]) in H.
  match goal with
  | |- Session.id <$> filter _ ?l = _ => change (open_of l = [])
  end.
  rewrite open_of_update by done. rewrite H.
  rewrite filter_cons, decide_False; [done|]. by intros ?.
Qed.

Lemma interrupt_tracks now reason st :
  tracks st → tracks (fst (cmd_interrupt now reason st)).
Proof.
  unfold tracks, cmd_interrupt.
  destruct (marker st) as [m|] eqn:Hm; cbn; [|by rewrite Hm].
  unfold open_ids. cbn. intros H.
  change (open_of (sessions (database st)) = [Marker.id m]) in H.
  match goal with
  | |- Session.id <$> filter _ ?l = _ => change (open_of l = [])
  end.
  rewrite open_of_update by done. rewrite H.
  rewrite filter_cons, decide_False; [done|]. by intros ?.
Qed.

(** [start_session] writes the marker and adds one open row, whatever the
    marker was. *)
Lemma start_session_opens clk task duration st st1 :
  start_session clk task duration st = Ok st1 →
  Marker.id <$> marker st1 = Some (generate_session_id clk)
  ∧ open_ids st1 = open_ids st ++ [generate_session_id clk]
  ∧ closed_rows st1 = closed_rows st.
Proof.
  intros H.
  apply start_session_ok in H as (tid & tasks' & _ & Hse & _ & _ & Hmk).
  unfold open_ids, closed_rows. rewrite Hmk, Hse, !filter_app, fmap_app.
  split; [done|]. split; [done|].
  rewrite filter_cons, decide_False by (intros H; by apply H).
  apply app_nil_r.
Qed.

Lemma start_tracks clk task duration st st' out :
  marker st = None → tracks st →
  cmd_start clk task duration st = Ok (st', out) → tracks st'.
Proof.
  intros Hm Ht H. apply cmd_start_ok in H as (st1 & Hs & H).
  apply start_session_opens in Hs as (Hmk & Hop & _).
  assert (tracks st1) as H1.
  { unfold tracks in *. rewrite Hop, Ht, Hm.
    destruct (marker st1) as [m|]; [|done]. by injection Hmk as <-. }
  destruct (timed duration).
  - destruct H as (-> & _). by apply complete_tracks.
  - by destruct H as (-> & _).
Qed.

Lemma main_tracks clk c st :
  (match c, marker st with Start _ _, Some _ => False | _, _ => True end) →
  tracks st → tracks (main clk c st).
Proof.
  intros Hd Ht. unfold main.
  set (st0 := mk_state (init_db (database st)) (marker st)).
  assert (tracks st0) as H0 by done.
  assert (marker st0 = marker st) as Hm0 by done.
  clearbody st0.
  destruct c; try exact H0.
  - destruct (cmd_start clk task duration st0) as [[st' out]|e] eqn:E;
      [|done].
    destruct (marker st) eqn:Hm; [done|]. by eapply start_tracks.
  - by apply complete_tracks.
  - by apply interrupt_tracks.
  - unfold cmd_task_add.
    destruct (negb _); [done|]. destruct (insert_task _ _); cbn; done.
  - unfold cmd_config. destruct value as [v|]; [|done].
    destruct (Py.truthy_str v); done.
Qed.

Lemma run_from_tracks tr st :
  starts_when_idle st tr = true → tracks st →
  tracks (foldl (λ st '(clk, c), main clk c st) st tr).
Proof.
  revert st. induction tr as [|[clk c] tr IH]; intros st Hd Ht; [done|].
  cbn. apply IH.
  - cbn in Hd. destruct c, (marker st); done.
  - apply main_tracks; [|done]. cbn in Hd. destruct c, (marker st); done.
Qed.

(** Only an invocation that ends a session gives a row an end timestamp. *)
Lemma main_closed_rows clk c st :
  ends_a_session c = false → closed_rows (main clk c st) = closed_rows st.
Proof.
  intros Hc. unfold main.
  set (st0 := mk_state (init_db (database st)) (marker st)).
  assert (closed_rows st0 = closed_rows st) as <- by done.
  clearbody st0.
  destruct c; try done.
  - cbn in Hc.
    destruct (cmd_start clk task duration st0) as [[st' out]|e] eqn:E;
      [|done].
    apply cmd_start_ok in E as (st1 & Hs & E). rewrite Hc in E.
    destruct E as (-> & _). by apply start_session_opens in Hs as (_ & _ & ?).
  - unfold cmd_task_add.
    destruct (negb _); [done|]. destruct (insert_task _ _); cbn; done.
  - unfold cmd_config. destruct value as [v|]; [|done].
    destruct (Py.truthy_str v); done.
Qed.




(** ** Task totals *)

Lemma completed_for_cons tid r l :
  completed_for tid (r :: l)
  = if decide (Session.task_id r = Some tid ∧ Session.completed r = 1)
    then r :: completed_for tid l else completed_for tid l.
Proof. unfold completed_for. by rewrite filter_cons. Qed.

Lemma completed_for_app tid l1 l2 :
  completed_for tid (l1 ++ l2) = completed_for tid l1 ++ completed_for tid l2.
Proof. apply filter_app. Qed.

Lemma completed_for_complete tid k now d l r :
  NoDup (Session.id <$> l) → r ∈ l → Session.id r = k →
  Session.completed r = 0 →
  let l' := update_session k (complete_row now d) l in
  Z.of_nat (length (completed_for tid l'))
  = Z.of_nat (length (completed_for tid l))
    + (if decide (Session.task_id r = Some tid) then 1 else 0)
  ∧ minutes_sum (completed_for tid l')
    = minutes_sum (completed_for tid l)
      + (if decide (Session.task_id r = Some tid) then d else 0).
Proof.
  intros Hnd Hin Hk Hc. cbn zeta.
  induction l as [|x l IH]; [by destruct (not_elem_of_nil r)|].
  rewrite fmap_cons in Hnd. apply NoDup_cons in Hnd as [Hx Hnd].
  rewrite update_session_cons, !completed_for_cons.
  apply elem_of_cons in Hin as [<-|Hin].
  - rewrite (decide_True (P := Session.id r = k)) by done.
    rewrite update_session_fresh by congruence.
    rewrite (decide_False (P := _ ∧ Session.completed r = 1)) by (rewrite Hc; intros [_ ?]; done).
    cbn [complete_row Session.task_id Session.completed].
    destruct (decide (Session.task_id r = Some tid)) as [Ht|Ht].
    + rewrite decide_True by done. unfold minutes_sum. cbn. lia.
    + rewrite decide_False by (intros [? _]; done). lia.
  - assert (Session.id x ≠ k) as Hne.
    { intros E. apply Hx. rewrite E, <- Hk. by apply list_elem_of_fmap_2. }
    rewrite (decide_False (P := Session.id x = k)) by done.
    destruct (IH Hnd Hin) as [IH1 IH2].
    unfold minutes_sum in *.
    destruct (decide (Session.task_id r = Some tid)); case_decide; cbn; lia.
Qed.

Lemma completed_for_interrupt tid k now d why l r :
  NoDup (Session.id <$> l) → r ∈ l → Session.id r = k →
  Session.completed r = 0 →
  completed_for tid (update_session k (interrupt_row now d why) l)
  = completed_for tid l.
Proof.
  intros Hnd Hin Hk Hc.
  induction l as [|x l IH]; [by destruct (not_elem_of_nil r)|].
  rewrite fmap_cons in Hnd. apply NoDup_cons in Hnd as [Hx Hnd].
  rewrite update_session_cons, !completed_for_cons.
  apply elem_of_cons in Hin as [<-|Hin].
  - rewrite (decide_True (P := Session.id r = k)) by done.
    rewrite update_session_fresh by congruence.
    rewrite (decide_False (P := _ ∧ Session.completed r = 1)) by (rewrite Hc; intros [_ ?]; done).
    rewrite decide_False; [done|]. cbn. intros [_ ?]; done.
  - assert (Session.id x ≠ k) as Hne.
    { intros E. apply Hx. rewrite E, <- Hk. by apply list_elem_of_fmap_2. }
    rewrite (decide_False (P := Session.id x = k)) by done.
    rewrite (IH Hnd Hin). done.
Qed.

Lemma consistent_empty : consistent empty_state.
Proof.
  split; cbn; try done.
  - constructor.
  - intros r tid Hr. by destruct (not_elem_of_nil r).
  - intros t Ht. by destruct (not_elem_of_nil t).
  - intros t Ht. by destruct (not_elem_of_nil t).
Qed.

(** The invariant does not read the configuration. *)
Lemma consistent_config_irrelevant st c :
  consistent st →
  consistent (mk_state (mk_db (sessions (database st)) (tasks (database st)) c)
                (marker st)).
Proof. intros [H1 H2 H3 H4 H5]. by split. Qed.

Lemma completed_for_unknown tid l :
  (∀ r, r ∈ l → Session.task_id r ≠ Some tid) → completed_for tid l = [].
Proof.
  intros H. induction l as [|r l IH]; [done|].
  rewrite completed_for_cons, decide_False.
  - apply IH. intros x Hx. apply H. by right.
  - intros [Ht _]. by apply (H r); [left|].
Qed.

Lemma consistent_complete now st :
  consistent st → consistent (fst (cmd_complete now st)).
Proof.
  intros Hst. unfold cmd_complete.
  destruct (marker st) as [m|] eqn:Hm; [|done].
  destruct Hst as [Hnd Href Htr Htot Hmk].
  destruct (Hmk m Hm) as (r & Hr & Hid & Hc & Ht).
  set (d := elapsed_minutes now (Marker.start_time m)).
  set (tasks' := match Marker.task_id m with Some _ => _ | None => _ end).
  assert (Task.id <$> tasks' = Task.id <$> tasks (database st)) as Hids.
  { subst tasks'. destruct (Marker.task_id m) as [tid|]; [|done].
    destruct (Py.truthy_str tid); [|done]. by apply update_task_ids. }
  split; cbn.
  - by rewrite update_session_ids.
  - intros x tid Hx Hxt. rewrite Hids.
    unfold update_session in Hx.
    apply list_elem_of_fmap in Hx as (y & -> & Hy).
    apply (Href y tid Hy). by case_decide.
  - intros t Hin. apply (list_elem_of_fmap_2 Task.id) in Hin.
    rewrite Hids in Hin. apply list_elem_of_fmap in Hin as (t0 & -> & Ht0).
    by apply Htr.
  - intros t' Hin.
    assert (∃ t, t ∈ tasks (database st)
                 ∧ t' = if decide (Session.task_id r = Some (Task.id t))
                        then credit_task d t else t) as (t & Htin & ->).
    { subst tasks'. destruct (Marker.task_id m) as [tid|] eqn:Hmt.
      - assert (Py.truthy_str tid = true) as Htid.
        { apply (Href r tid Hr) in Ht.
          apply list_elem_of_fmap in Ht as (t0 & -> & Ht0). by apply Htr. }
        rewrite Htid in Hin.
        apply update_task_elem in Hin as (t & Htin & ->).
        exists t. split; [done|]. rewrite Ht.
        destruct (decide (Task.id t = tid)) as [->|Hne].
        + by rewrite decide_True.
        + rewrite decide_False; [done|]. congruence.
      - exists t'. split; [done|]. rewrite Ht. by rewrite decide_False. }
    destruct (Htot t Htin) as [Hn Hs].
    assert (∀ tid, Task.id (if decide (Session.task_id r = Some tid)
                            then credit_task d t else t) = Task.id t) as Hsame.
    { intros tid. destruct (decide (Session.task_id r = Some tid)); reflexivity. }
    unfold totals_ok. rewrite Hsame.
    destruct (completed_for_complete (Task.id t) (Marker.id m) now d
                (sessions (database st)) r Hnd Hr Hid Hc) as [Hn' Hs'].
    rewrite Hn', Hs'.
    destruct (decide (Session.task_id r = Some (Task.id t))); cbn; lia.
  - done.
Qed.

Lemma consistent_interrupt now reason st :
  consistent st → consistent (fst (cmd_interrupt now reason st)).
Proof.
  intros Hst. unfold cmd_interrupt.
  destruct (marker st) as [m|] eqn:Hm; [|done].
  destruct Hst as [Hnd Href Htr Htot Hmk].
  destruct (Hmk m Hm) as (r & Hr & Hid & Hc & Ht).
  split; cbn.
  - by rewrite update_session_ids.
  - intros x tid Hx Hxt. unfold update_session in Hx.
    apply list_elem_of_fmap in Hx as (y & -> & Hy).
    apply (Href y tid Hy). by destruct (decide _).
  - done.
  - intros t Hin. unfold totals_ok.
    rewrite (completed_for_interrupt _ _ _ _ _ _ r) by done.
    by apply Htot.
  - done.
Qed.

Lemma truthy_task_id clk : Py.truthy_str (generate_task_id clk) = true.
Proof. reflexivity. Qed.

Lemma completed_for_last tid l r :
  Session.completed r = 0 → completed_for tid (l ++ [r]) = completed_for tid l.
Proof.
  intros Hc. rewrite completed_for_app, completed_for_cons, decide_False.
  - apply app_nil_r.
  - rewrite Hc. by intros [_ ?].
Qed.

(** Adding a task whose id is new keeps the invariant. *)
Lemma consistent_new_task st t c :
  consistent st →
  Task.id t ∉ (Task.id <$> tasks (database st)) →
  Py.truthy_str (Task.id t) = true →
  Task.completed_pomodoros t = 0 → Task.total_minutes t = 0 →
  consistent (mk_state (mk_db (sessions (database st))
                          (tasks (database st) ++ [t]) c) (marker st)).
Proof.
  intros [Hnd Href Htr Htot Hmk] Hfresh Htruthy Hn Hs. split; cbn.
  - done.
  - intros r tid Hr Hrt. rewrite fmap_app, elem_of_app. left. by eapply Href.
  - intros x Hx. apply elem_of_app in Hx as [Hx|Hx]; [by apply Htr|].
    apply list_elem_of_singleton in Hx as ->. done.
  - intros x Hx. apply elem_of_app in Hx as [Hx|Hx]; [by apply Htot|].
    apply list_elem_of_singleton in Hx as ->. unfold totals_ok.
    rewrite completed_for_unknown, Hn, Hs; [done|].
    intros r Hr Hrt. apply Hfresh. by eapply Href.
  - done.
Qed.

(** Adding an open row that refers to a known task, and pointing the marker
    at it, keeps the invariant. *)
Lemma consistent_new_session st r m :
  consistent st →
  Session.id r ∉ (Session.id <$> sessions (database st)) →
  Session.completed r = 0 →
  (∀ tid, Session.task_id r = Some tid →
          tid ∈ (Task.id <$> tasks (database st))) →
  Marker.id m = Session.id r → Marker.task_id m = Session.task_id r →
  consistent (mk_state (mk_db (sessions (database st) ++ [r])
                          (tasks (database st)) (config (database st)))
                (Some m)).
Proof.
  intros [Hnd Href Htr Htot Hmk] Hfresh Hc Hknown Hmi Hmt. split; cbn.
  - rewrite fmap_app. apply NoDup_app. split; [done|]. split.
    + intros x Hx Hx'. apply list_elem_of_singleton in Hx' as ->. done.
    + apply NoDup_singleton.
  - intros x tid Hx Hxt. apply elem_of_app in Hx as [Hx|Hx]; [by eapply Href|].
    apply list_elem_of_singleton in Hx as ->. by apply Hknown.
  - done.
  - intros t Ht. unfold totals_ok. rewrite completed_for_last by done.
    by apply Htot.
  - intros m' [= <-]. exists r. split; [|done].
    apply elem_of_app. right. by left.
Qed.

Lemma consistent_start_session clk task duration st st1 :
  consistent st → start_session clk task duration st = Ok st1 →
  consistent st1.
Proof.
  intros Hst H. unfold start_session in H.
  destruct (Py.truthy_opt Py.truthy_str task).
  - destruct (select_task_id _ _) as [tid|] eqn:Hsel.
    + cbn in H. unfold insert_session in H. cbn in H.
      case_decide as Hin; [done|]. cbn in H. injection H as <-.
      apply (consistent_new_session st); try done.
      intros ? [= <-]. by eapply select_task_id_elem.
    + cbn in H. unfold insert_task in H. cbn in H.
      case_decide as Hint; [done|]. cbn in H. unfold insert_session in H.
      cbn in H. case_decide as Hin; [done|]. cbn in H. injection H as <-.
      pose proof (consistent_new_task st
         (Task.mk (generate_task_id clk) (default "" task) 0 0)
         (config (database st)) Hst Hint eq_refl eq_refl eq_refl) as Hst'.
      apply (consistent_new_session _ _ _ Hst'); try done.
      intros ? [= <-]. cbn. rewrite fmap_app, elem_of_app. right. by left.
  - cbn in H. unfold insert_session in H. cbn in H.
    case_decide as Hin; [done|]. cbn in H. injection H as <-.
    apply (consistent_new_session st); done.
Qed.

Lemma consistent_main clk c st : consistent st → consistent (main clk c st).
Proof.
  intros Hst. unfold main.
  pose proof (consistent_config_irrelevant st
                (config (init_db (database st))) Hst) as H0.
  change (mk_state _ (marker st))
    with (mk_state (init_db (database st)) (marker st)) in H0.
  set (st0 := mk_state (init_db (database st)) (marker st)) in *.
  clearbody st0.
  destruct c; try exact H0.
  - destruct (cmd_start clk task duration st0) as [[st' out]|e] eqn:E; [|done].
    apply cmd_start_ok in E as (st1 & Hs & E).
    apply (consistent_start_session _ _ _ _ _ H0) in Hs.
    destruct (timed duration).
    + destruct E as (-> & _). by apply consistent_complete.
    + by destruct E as (-> & _).
  - by apply consistent_complete.
  - by apply consistent_interrupt.
  - unfold cmd_task_add. destruct (negb _); [done|].
    unfold insert_task. cbn. case_decide as Hin; [done|]. cbn.
    by apply (consistent_new_task st0).
  - unfold cmd_config. destruct value as [v|]; [|done].
    destruct (Py.truthy_str v); [|done]. cbn.
    by apply consistent_config_irrelevant.
Qed.

Lemma consistent_run tr : consistent (run tr).
Proof.
  unfold run. generalize consistent_empty. generalize empty_state.
  induction tr as [|[clk c] tr IH]; intros st Hst; [done|].
  cbn. apply IH. by apply consistent_main.
Qed.



(** ** Today and the daily goal *)

(** C6.  For a stored goal that parses to a positive integer, [today]
    reports as completed count the number of session rows dated today with
    [completed = 1]; its bar has 20 cells, of which
    [floor(20 * min(count / goal, 1))] are filled. *)
Theorem today_count_and_bar now st g :
  read_daily_goal (database st) = Ok g → 0 < g →
  ∃ rep, cmd_today now st = Ok rep
    ∧ completed_count rep
      = Z.of_nat (length (completed_on (strftime_ymd now) (database st)))
    ∧ daily_goal rep = g
    ∧ length (progress_bar rep) = 20%nat
    ∧ filled_cells (progress_bar rep)
      = Qfloor (inject_Z 20
                * Qmin (inject_Z (completed_count rep) / inject_Z g) 1)%Q
    ∧ filled_cells (progress_bar rep)
      = Z.min 20 (20 * completed_count rep / g).
Proof.
  intros Hgoal Hg. unfold cmd_today. rewrite Hgoal. cbn [mbind result_bind].
  unfold progress. destruct (Z.eqb_spec g 0) as [->|_]; [lia|].
  cbn [mbind result_bind]. eexists. split; [reflexivity|]. cbn.
  fold (completed_on (strftime_ymd now) (database st)).
  set (c := Z.of_nat (length (completed_on (strftime_ymd now) (database st)))).
  destruct (bar_fill 20 c g Hg ltac:(lia) ltac:(lia)) as [Hi Hf].
  fold (Py.truediv c g). rewrite Hi.
  assert (0 ≤ Z.min 20 (20 * c / g) ≤ 20) as Hb.
  { split; [|lia]. apply Z.min_glb; [lia|]. apply Z.div_pos; lia. }
  rewrite <- Hf in Hb. destruct (bar_cells 20 _ Hb) as [Hl Hc].
  rewrite Hl, Hc. done.
Qed.

Lemma today_count_and_bar_witness :
  ∃ rep, cmd_today (now clock_3) (run goal_three_one_done) = Ok rep
         ∧ completed_count rep
           = Z.of_nat (length (completed_on (strftime_ymd (now clock_3))
                                 (database (run goal_three_one_done))))
         ∧ daily_goal rep = 3
         ∧ length (progress_bar rep) = 20%nat
         ∧ filled_cells (progress_bar rep)
           = Qfloor (inject_Z 20
                     * Qmin (inject_Z (completed_count rep) / inject_Z 3) 1)%Q
         ∧ filled_cells (progress_bar rep)
           = Z.min 20 (20 * completed_count rep / 3).
Proof.
  apply (today_count_and_bar (now clock_3) (run goal_three_one_done) 3).
  - vm_compute. reflexivity.
  - lia.
Defined.

(** The example of the specification: goal 10 and 3 completed sessions
    fill 6 of the 20 cells. *)
Example bar_three_of_ten :
  (p ← progress 3 10; Ok (Py.int_of_float (inject_Z 20 * p)%Q)) = Ok 6.
Proof. reflexivity. Qed.




(** ** The week *)

Lemma sumZ_perm l1 l2 : l1 ≡ₚ l2 → sumZ l1 = sumZ l2.
Proof. unfold sumZ. induction 1; cbn in *; lia. Qed.

Lemma sumZ_cons x l : sumZ (x :: l) = x + sumZ l.
Proof. done. Qed.

Section group_sizes.
Context {A K : Type} `{EqDecision K} (f : A → K).

Lemma indicator_absent (ks : list K) (k0 : K) :
  k0 ∉ ks → sumZ ((λ k, if decide (k0 = k) then 1 else 0) <$> ks) = 0.
Proof.
  induction ks as [|k ks IH]; [done|].
  intros [Hne Hk]%not_elem_of_cons.
  by rewrite fmap_cons, sumZ_cons, decide_False, IH.
Qed.

Lemma indicator_sum (ks : list K) (k0 : K) :
  NoDup ks → k0 ∈ ks →
  sumZ ((λ k, if decide (k0 = k) then 1 else 0) <$> ks) = 1.
Proof.
  induction 1 as [|k ks Hk Hnd IH]; intros Hin.
  - by destruct (not_elem_of_nil k0).
  - rewrite fmap_cons, sumZ_cons.
    apply elem_of_cons in Hin as [->|Hin].
    + by rewrite decide_True, indicator_absent.
    + rewrite decide_False by (intros ->; done). by rewrite IH.
Qed.

Lemma group_size_cons x l k :
  group_size f (x :: l) k
  = (if decide (f x = k) then 1 else 0) + group_size f l k.
Proof.
  unfold group_size. rewrite filter_cons.
  destruct (decide (f x = k)); cbn [length]; lia.
Qed.

Lemma group_sizes_sum (ks : list K) (l : list A) :
  NoDup ks → (∀ x, x ∈ l → f x ∈ ks) →
  sumZ (group_size f l <$> ks) = Z.of_nat (length l).
Proof.
  intros Hnd. induction l as [|x l IH]; intros Hin.
  - clear. induction ks as [|k ks IHk]; [done|].
    by rewrite fmap_cons, sumZ_cons, IHk.
  - assert (sumZ (group_size f (x :: l) <$> ks)
            = sumZ ((λ k, if decide (f x = k) then 1 else 0) <$> ks)
              + sumZ (group_size f l <$> ks)) as ->.
    { clear. induction ks as [|k ks IHk]; [done|].
      rewrite !fmap_cons, !sumZ_cons, IHk, group_size_cons. lia. }
    rewrite indicator_sum, IH; [cbn [length]; lia| |done|].
    + intros y Hy. apply Hin. by right.
    + apply Hin. by left.
Qed.
End group_sizes.

Lemma group_by_date_counts l :
  sumZ ((λ row, snd (fst row)) <$> group_by_date l) = Z.of_nat (length l).
Proof.
  unfold group_by_date. rewrite <- list_fmap_compose.
  set (ks := merge_sort str_le (remove_dups (Session.date <$> l))).
  assert (ks ≡ₚ remove_dups (Session.date <$> l)) as Hp
      by apply merge_sort_Permutation.
  erewrite list_fmap_ext; [apply (group_sizes_sum Session.date ks l)|..].
  - rewrite Hp. apply NoDup_remove_dups.
  - intros x Hx. rewrite Hp. apply elem_of_remove_dups.
    by apply list_elem_of_fmap_2.
  - intros i k _. reflexivity.
Qed.

Lemma group_by_date_nil l : group_by_date l = [] ↔ l = [].
Proof.
  split; [|by intros ->].
  intros H. pose proof (group_by_date_counts l) as Hc. rewrite H in Hc.
  cbn in Hc. destruct l; [done|]. cbn in Hc. lia.
Qed.

Lemma week_loop_total g rows tp tm lines tp' tm' lines' :
  week_loop g rows tp tm lines = Ok (tp', tm', lines') →
  tp' = tp + sumZ ((λ row, snd (fst row)) <$> rows).
Proof.
  revert tp tm lines. induction rows as [|[[date count] minutes] rows IH];
    intros tp tm lines H.
  - cbn in H. injection H as <- <- <-. rewrite fmap_nil. unfold sumZ. simpl. lia.
  - cbn in H. destruct (progress count g) as [p|e]; [|done]. cbn in H.
    apply IH in H. rewrite fmap_cons, sumZ_cons. cbn [fst snd]. lia.
Qed.

(** C9.  Whenever [week] reports, the total it reports is the number of
    completed sessions dated on or after the Monday of the week, and the
    daily average is that total divided by 7; with no such session it
    reports that there is none, and no average. *)
Theorem week_average_over_seven now st rep :
  cmd_week now st = Ok rep →
  ∃ week_start,
    plus_days now (- weekday now) = Ok week_start
    ∧ let total := Z.of_nat (length (week_rows week_start (database st))) in
      match rep with
      | NothingThisWeek => total = 0
      | WeekTotals t =>
          0 < total ∧ week_pomodoros t = total
          ∧ daily_average t = (inject_Z total / inject_Z 7)%Q
          ∧ (daily_average t == total # 7)%Q
      end.
Proof.
  unfold cmd_week. intros H.
  destruct (plus_days now (- weekday now)) as [ws|e]; [|done].
  cbn [mbind result_bind] in H. exists ws. split; [done|]. cbn zeta.
  destruct (read_daily_goal (database st)) as [g|e]; [|done].
  cbn [mbind result_bind] in H.
  pose proof (group_by_date_counts (week_rows ws (database st))) as Hc.
  pose proof (group_by_date_nil (week_rows ws (database st))) as Hn.
  destruct (group_by_date (week_rows ws (database st))) as [|row rows] eqn:E.
  - injection H as <-. rewrite (proj1 Hn eq_refl). done.
  - destruct (week_loop g (row :: rows) 0 0 []) as [[[tp tm] lines]|e] eqn:El;
      [|done].
    cbn in H. injection H as <-. cbn.
    apply week_loop_total in El. rewrite Hc in El. rewrite El, Z.add_0_l.
    split.
    + destruct (week_rows ws (database st)); [|cbn; lia].
      by destruct Hn as [_ Hn']; specialize (Hn' eq_refl).
    + split; [done|]. split; [done|].
      unfold Py.truediv, Qeq. cbn. lia.
Qed.

Lemma week_average_over_seven_witness :
  ∃ week_start,
    plus_days (now clock_3) (- weekday (now clock_3)) = Ok week_start
    ∧ let total :=
        Z.of_nat (length (week_rows week_start
                            (database (run goal_three_one_done)))) in
      0 < total ∧ 1 = total
      ∧ (inject_Z 1 / inject_Z 7)%Q = (inject_Z total / inject_Z 7)%Q
      ∧ (inject_Z 1 / inject_Z 7 == total # 7)%Q.
Proof.
  apply (week_average_over_seven (now clock_3) (run goal_three_one_done)
           (WeekTotals
              (mk_week_totals
                 [mk_week_line "2024-03-15" 1 30 (bar 10 3)] 1 30
                 (inject_Z 1 / inject_Z 7)%Q))).
  vm_compute. reflexivity.
Defined.

(** ** Calendar order *)

Lemma days_before_year_succ y :
  days_before_year (y + 1) = days_before_year y + year_length y.
Proof.
  unfold days_before_year, year_length, is_leap. cbv zeta.
  replace (y + 1 - 1) with (y - 1 + 1) by lia.
  destruct (Z.eqb_spec (y mod 4) 0), (Z.eqb_spec (y mod 100) 0),
    (Z.eqb_spec (y mod 400) 0); cbn [andb orb negb];
    Z.div_mod_to_equations; lia.
Qed.

Lemma days_before_year_mono y1 y2 :
  y1 ≤ y2 → days_before_year y1 ≤ days_before_year y2.
Proof.
  unfold days_before_year. cbv zeta. intros H.
  Z.div_mod_to_equations. lia.
Qed.

Lemma month_table_check :
  forallb (λ b, forallb (λ m1, forallb (λ m2,
     (1 <=? in_month b m1) && (1 <=? before_month b m1 + 1)
     && (before_month b m1 + in_month b m1 <=? (if b then 366 else 365))
     && (implb (m1 <? m2)
           (before_month b m1 + in_month b m1 <=? before_month b m2)))
    (seqZ 1 12)) (seqZ 1 12)) [true; false] = true.
Proof. vm_compute. reflexivity. Qed.

Lemma month_table b m1 m2 :
  1 ≤ m1 ≤ 12 → 1 ≤ m2 ≤ 12 →
  0 ≤ before_month b m1
  ∧ before_month b m1 + in_month b m1 ≤ (if b then 366 else 365)
  ∧ (m1 < m2 → before_month b m1 + in_month b m1 ≤ before_month b m2).
Proof.
  intros H1 H2. pose proof month_table_check as H.
  rewrite forallb_forall in H.
  assert (In b [true; false]) as Hb by (destruct b; cbn; tauto).
  specialize (H b Hb). rewrite forallb_forall in H.
  assert (In m1 (seqZ 1 12)) as Hm1 by (apply list_elem_of_In, elem_of_seqZ; lia).
  specialize (H m1 Hm1). rewrite forallb_forall in H.
  assert (In m2 (seqZ 1 12)) as Hm2 by (apply list_elem_of_In, elem_of_seqZ; lia).
  specialize (H m2 Hm2).
  rewrite !andb_true_iff, !Z.leb_le in H. destruct H as (((Ha & Hb') & Hc) & Hd).
  split; [lia|]. split; [done|]. intros Hlt.
  destruct (Z.ltb_spec m1 m2); [|lia]. cbn in Hd. by apply Z.leb_le.
Qed.

(** The ordinal of a valid date grows with (year, month, day). *)
Lemma ymd2ord_order y1 m1 d1 y2 m2 d2 :
  1 ≤ m1 ≤ 12 → 1 ≤ d1 ≤ days_in_month y1 m1 →
  1 ≤ m2 ≤ 12 → 1 ≤ d2 ≤ days_in_month y2 m2 →
  (ymd2ord y1 m1 d1 ?= ymd2ord y2 m2 d2) = lex [y1; m1; d1] [y2; m2; d2].
Proof.
  intros Hm1 Hd1 Hm2 Hd2. unfold ymd2ord. cbn [lex].
  change (days_before_month y1 m1) with (before_month (is_leap y1) m1).
  change (days_before_month y2 m2) with (before_month (is_leap y2) m2).
  change (days_in_month y1 m1) with (in_month (is_leap y1) m1) in Hd1.
  change (days_in_month y2 m2) with (in_month (is_leap y2) m2) in Hd2.
  destruct (month_table (is_leap y1) m1 m2 Hm1 Hm2) as (Ha1 & Hb1 & Hc1).
  destruct (month_table (is_leap y2) m2 m1 Hm2 Hm1) as (Ha2 & Hb2 & Hc2).
  destruct (Z.compare_spec y1 y2) as [->|Hy|Hy].
  - destruct (Z.compare_spec m1 m2) as [->|Hm|Hm].
    + destruct (Z.compare_spec d1 d2) as [->|Hd|Hd].
      * apply Z.compare_refl.
      * apply Z.compare_lt_iff. lia.
      * apply Z.compare_gt_iff. lia.
    + apply Z.compare_lt_iff. specialize (Hc1 Hm). lia.
    + apply Z.compare_gt_iff. specialize (Hc2 Hm). lia.
  - apply Z.compare_lt_iff.
    pose proof (days_before_year_succ y1) as Hs. unfold year_length in Hs.
    pose proof (days_before_year_mono (y1 + 1) y2 ltac:(lia)).
    destruct (is_leap y1); lia.
  - apply Z.compare_gt_iff.
    pose proof (days_before_year_succ y2) as Hs. unfold year_length in Hs.
    pose proof (days_before_year_mono (y2 + 1) y1 ltac:(lia)).
    destruct (is_leap y2); lia.
Qed.

(** Chronological order of valid datetimes is the order of their fields. *)
Lemma to_us_order a b :
  valid a → valid b → (to_us a ?= to_us b) = lex (fields a) (fields b).
Proof.
  intros (Hy1 & Hm1 & Hd1 & Hh1 & Hmi1 & Hs1 & Hu1)
         (Hy2 & Hm2 & Hd2 & Hh2 & Hmi2 & Hs2 & Hu2).
  unfold to_us, toordinal, fields.
  pose proof (ymd2ord_order _ _ _ _ _ _ Hm1 Hd1 Hm2 Hd2) as Ho.
  cbn [lex] in *.
  destruct (Z.compare_spec (year a) (year b)) as [Ey|Hy|Hy];
    [destruct (Z.compare_spec (month a) (month b)) as [Em|Hm|Hm];
     [destruct (Z.compare_spec (day a) (day b)) as [Ed|Hd|Hd]|..]|..].
  - apply Z.compare_eq in Ho. rewrite Ho.
    destruct (Z.compare_spec (hour a) (hour b)) as [->|H|H];
      [destruct (Z.compare_spec (minute a) (minute b)) as [->|H|H];
       [destruct (Z.compare_spec (second a) (second b)) as [->|H|H];
        [destruct (Z.compare_spec (microsecond a) (microsecond b))
           as [->|H|H]|..]|..]|..];
      first [apply Z.compare_refl
            | apply Z.compare_lt_iff; lia
            | apply Z.compare_gt_iff; lia].
  - rewrite Z.compare_lt_iff in Ho. apply Z.compare_lt_iff. lia.
  - rewrite Z.compare_gt_iff in Ho. apply Z.compare_gt_iff. lia.
  - rewrite Z.compare_lt_iff in Ho. apply Z.compare_lt_iff. lia.
  - rewrite Z.compare_gt_iff in Ho. apply Z.compare_gt_iff. lia.
  - rewrite Z.compare_lt_iff in Ho. apply Z.compare_lt_iff. lia.
  - rewrite Z.compare_gt_iff in Ho. apply Z.compare_gt_iff. lia.
Qed.

(** ** Text order *)

Lemma compare_refl s : String.compare s s = Eq.
Proof.
  induction s as [|c s IH]; [done|]. cbn.
  unfold Ascii.compare. by rewrite N.compare_refl.
Qed.

Lemma str_le_refl s : str_le s s.
Proof. unfold str_le, String.leb. by rewrite compare_refl. Qed.

Lemma compare_trans_le a b c :
  String.compare a b ≠ Gt → String.compare b c ≠ Gt →
  String.compare a c ≠ Gt.
Proof.
  revert b c. induction a as [|x a IH]; intros [|y b] [|z c]; cbn; try done.
  unfold Ascii.compare.
  destruct (N.compare_spec (N_of_ascii x) (N_of_ascii y)) as [E1|L1|G1];
    [|clear IH|done];
    (destruct (N.compare_spec (N_of_ascii y) (N_of_ascii z)) as [E2|L2|G2];
     [| |done]);
    destruct (N.compare_spec (N_of_ascii x) (N_of_ascii z)) as [E3|L3|G3];
    try done; try lia.
  apply IH.
Qed.

#[global] Instance str_le_trans : Transitive str_le.
Proof.
  intros a b c. unfold str_le, String.leb. intros H1 H2.
  pose proof (compare_trans_le a b c) as H.
  destruct (String.compare a b), (String.compare b c),
    (String.compare a c); try done; by destruct H.
Qed.

#[global] Instance str_le_total : Total str_le.
Proof. intros a b. apply String.leb_total. Qed.

#[global] Instance later_first_trans : Transitive later_first.
Proof. intros a b c H1 H2. unfold later_first in *. by etrans. Qed.

#[global] Instance later_first_total : Total later_first.
Proof. intros a b. unfold later_first. apply str_le_total. Qed.

Lemma length_append a b :
  String.length (a +:+ b) = (String.length a + String.length b)%nat.
Proof.
  induction a as [|c a IH]; [done|].
  change (String c a +:+ b) with (String c (a +:+ b)). cbn. by rewrite IH.
Qed.

Lemma append_assoc (a b c : string) : (a +:+ b) +:+ c = a +:+ (b +:+ c).
Proof.
  induction a as [|x a IH]; [done|].
  change (String x ((a +:+ b) +:+ c) = String x (a +:+ (b +:+ c))).
  by rewrite IH.
Qed.

(** Comparison goes through a pair of prefixes of the same length. *)
Lemma compare_app a b s t :
  String.length a = String.length b →
  String.compare (a +:+ s) (b +:+ t)
  = match String.compare a b with Eq => String.compare s t | c => c end.
Proof.
  revert b. induction a as [|x a IH]; intros [|y b] Hl; try done.
  change (String x a +:+ s) with (String x (a +:+ s)).
  change (String y b +:+ t) with (String y (b +:+ t)).
  cbn. destruct (Ascii.compare x y); [|done..].
  apply IH. cbn in Hl. lia.
Qed.

Lemma pad_length w n : String.length (pad w n) = w.
Proof.
  revert n. induction w as [|w IH]; intros n; [done|].
  cbn [pad]. rewrite length_append, IH. cbn. lia.
Qed.

Lemma zeros_snoc k : Py.zeros k +:+ "0" = String "0" (Py.zeros k).
Proof.
  induction k as [|k IH]; [done|].
  change (String "0" (Py.zeros k +:+ "0") = String "0" (Py.zeros (S k))).
  by rewrite IH.
Qed.

Lemma pad_zero w : pad w 0 = Py.zeros w.
Proof.
  induction w as [|w IH]; [done|].
  cbn [pad]. change (0 / 10) with 0. change (0 mod 10) with 0.
  rewrite IH. apply zeros_snoc.
Qed.

(** The digits of [n], with zeros up to width [S w], are [pad (S w) n]. *)
Lemma decimal_pad w : ∀ n f,
  0 ≤ n → n < 10 ^ Z.of_nat (S w) → n < 10 ^ Z.of_nat (S f) →
  Py.zeros (S w - String.length (Py.decimal (S f) n)) +:+ Py.decimal (S f) n
  = pad (S w) n.
Proof.
  assert (∀ k, 10 ^ Z.of_nat (S k) = 10 * 10 ^ Z.of_nat k) as Hpow.
  { intros k. rewrite Nat2Z.inj_succ, Z.pow_succ_r; [done|lia]. }
  induction w as [|w IH]; intros n f Hn0 Hn Hf.
  - rewrite Hpow in Hn. change (10 ^ Z.of_nat 0) with 1 in Hn. clear Hf.
    cbn [Py.decimal pad]. destruct (Z.ltb_spec n 10); [|lia].
    cbn. rewrite Z.mod_small by lia. done.
  - cbn [Py.decimal].
    change (pad (S (S w)) n)
      with (pad (S w) (n / 10) +:+ String (Py.digit (n mod 10)) "").
    destruct (Z.ltb_spec n 10) as [H10|H10].
    + clear Hn Hf. rewrite Z.div_small by lia. rewrite Z.mod_small by lia.
      rewrite pad_zero. cbn. done.
    + destruct f as [|f].
      { rewrite Hpow in Hf. change (10 ^ Z.of_nat 0) with 1 in Hf. lia. }
      rewrite length_append. cbn [String.length].
      replace (S (S w) - (String.length (Py.decimal (S f) (n / 10)) + 1))%nat
        with (S w - String.length (Py.decimal (S f) (n / 10)))%nat by lia.
      rewrite <- append_assoc. rewrite IH; [done| | |].
      * apply Z.div_pos; lia.
      * rewrite Hpow in Hn. apply Z.div_lt_upper_bound; [lia|exact Hn].
      * rewrite Hpow in Hf. apply Z.div_lt_upper_bound; [lia|exact Hf].
Qed.

Lemma fuel_suffices n : 0 ≤ n → n < 10 ^ Z.of_nat (S (Z.to_nat (Z.log2 n))).
Proof.
  intros Hn. rewrite Nat2Z.inj_succ, Z2Nat.id by apply Z.log2_nonneg.
  destruct (Z.eq_dec n 0) as [->|Hne]; [done|].
  pose proof (Z.log2_spec n ltac:(lia)) as [_ H].
  eapply Z.lt_le_trans; [exact H|].
  apply Z.pow_le_mono_l. pose proof (Z.log2_nonneg n). lia.
Qed.

(** [f"{n:0wd}"] of a number that fits in [w] digits. *)
Lemma fmt_d_pad w n :
  (0 < w)%nat → 0 ≤ n < 10 ^ Z.of_nat w → Py.fmt_d w n = pad w n.
Proof.
  intros Hw Hn. destruct w as [|w]; [lia|].
  unfold Py.fmt_d, Py.digits. destruct (Z.ltb_spec n 0); [lia|].
  rewrite Z.abs_eq by lia.
  change ("" +:+ ?s) with s. rewrite Nat.sub_0_r.
  apply decimal_pad; [lia|apply Hn|]. apply fuel_suffices. lia.
Qed.

Lemma digit_compare i j :
  0 ≤ i < 10 → 0 ≤ j < 10 →
  Ascii.compare (Py.digit i) (Py.digit j) = (i ?= j).
Proof.
  intros Hi Hj. unfold Ascii.compare, Py.digit.
  rewrite !N_ascii_embedding by lia.
  destruct (Z.compare_spec i j) as [->|H|H].
  - apply N.compare_refl.
  - apply N.compare_lt_iff. lia.
  - apply N.compare_gt_iff. lia.
Qed.

Lemma compare_pad w x y :
  0 ≤ x < 10 ^ Z.of_nat w → 0 ≤ y < 10 ^ Z.of_nat w →
  String.compare (pad w x) (pad w y) = (x ?= y).
Proof.
  revert x y. induction w as [|w IH]; intros x y Hx Hy.
  - change (10 ^ Z.of_nat 0) with 1 in *.
    assert (x = 0) as -> by lia. assert (y = 0) as -> by lia. done.
  - rewrite Nat2Z.inj_succ, Z.pow_succ_r in Hx, Hy by lia.
    cbn [pad]. rewrite compare_app by (by rewrite !pad_length).
    rewrite IH by (split; [apply Z.div_pos; lia
                          |apply Z.div_lt_upper_bound; lia]).
    cbn. rewrite digit_compare by (apply Z.mod_pos_bound; lia).
    destruct (Z.compare_spec (x / 10) (y / 10)) as [E|L|G].
    + destruct (Z.compare_spec (x mod 10) (y mod 10)) as [E'|L'|G'].
      * symmetry. apply Z.compare_eq_iff. Z.div_mod_to_equations. lia.
      * symmetry. apply Z.compare_lt_iff. Z.div_mod_to_equations. lia.
      * symmetry. apply Z.compare_gt_iff. Z.div_mod_to_equations. lia.
    + symmetry. apply Z.compare_lt_iff. Z.div_mod_to_equations. lia.
    + symmetry. apply Z.compare_gt_iff. Z.div_mod_to_equations. lia.
Qed.

Lemma compare_cons c s t :
  String.compare (String c s) (String c t) = String.compare s t.
Proof. cbn. unfold Ascii.compare. by rewrite N.compare_refl. Qed.

(** A field of width [w], a separator, and the rest. *)
Lemma compare_field w x y c s t :
  0 ≤ x < 10 ^ Z.of_nat w → 0 ≤ y < 10 ^ Z.of_nat w →
  String.compare (pad w x +:+ String c s) (pad w y +:+ String c t)
  = match x ?= y with Eq => String.compare s t | r => r end.
Proof.
  intros Hx Hy. rewrite compare_app by (by rewrite !pad_length).
  by rewrite compare_pad, compare_cons.
Qed.

Lemma compare_fraction u1 u2 :
  0 ≤ u1 < 1000000 → 0 ≤ u2 < 1000000 →
  String.compare (if u1 =? 0 then "" else "." +:+ pad 6 u1)
    (if u2 =? 0 then "" else "." +:+ pad 6 u2)
  = (u1 ?= u2).
Proof.
  intros H1 H2.
  destruct (Z.eqb_spec u1 0) as [->|N1], (Z.eqb_spec u2 0) as [->|N2].
  - done.
  - symmetry. apply Z.compare_lt_iff. lia.
  - symmetry. apply Z.compare_gt_iff. lia.
  - change ("." +:+ ?s) with (String "." s). rewrite compare_cons.
    by apply (compare_pad 6).
Qed.

Lemma days_in_month_le y m : 1 ≤ m ≤ 12 → days_in_month y m ≤ 31.
Proof.
  intros Hm. change (days_in_month y m) with (in_month (is_leap y) m).
  generalize (is_leap y). intros b.
  assert (forallb (λ b, forallb (λ m, in_month b m <=? 31) (seqZ 1 12))
            [true; false] = true) as H by (vm_compute; reflexivity).
  rewrite forallb_forall in H.
  assert (In b [true; false]) as Hb by (destruct b; cbn; tauto).
  specialize (H b Hb). rewrite forallb_forall in H.
  apply Z.leb_le, H, list_elem_of_In, elem_of_seqZ. lia.
Qed.

Lemma isoformat_pad d :
  valid d →
  isoformat d
  = pad 4 (year d) +:+ String "-" (pad 2 (month d) +:+ String "-"
      (pad 2 (day d) +:+ String "T" (pad 2 (hour d) +:+ String ":"
         (pad 2 (minute d) +:+ String ":" (pad 2 (second d) +:+
            (if microsecond d =? 0 then ""
             else "." +:+ pad 6 (microsecond d))))))).
Proof.
  intros (Hy & Hm & Hd & Hh & Hmi & Hs & Hu). unfold isoformat.
  pose proof (days_in_month_le (year d) (month d) Hm) as Hd31.
  rewrite (fmt_d_pad 4 (year d)) by (change (10 ^ Z.of_nat 4) with 10000; lia).
  rewrite (fmt_d_pad 2 (month d)) by (change (10 ^ Z.of_nat 2) with 100; lia).
  rewrite (fmt_d_pad 2 (day d)) by (change (10 ^ Z.of_nat 2) with 100; lia).
  rewrite (fmt_d_pad 2 (hour d)) by (change (10 ^ Z.of_nat 2) with 100; lia).
  rewrite (fmt_d_pad 2 (minute d)) by (change (10 ^ Z.of_nat 2) with 100; lia).
  rewrite (fmt_d_pad 2 (second d)) by (change (10 ^ Z.of_nat 2) with 100; lia).
  destruct (Z.eqb_spec (microsecond d) 0) as [E|N]; [done|].
  rewrite (fmt_d_pad 6 (microsecond d))
    by (change (10 ^ Z.of_nat 6) with 1000000; lia).
  done.
Qed.

Lemma strftime_pad d :
  valid d →
  strftime_ymd d
  = pad 4 (year d) +:+ String "-" (pad 2 (month d) +:+ String "-"
      (pad 2 (day d) +:+ "")).
Proof.
  intros (Hy & Hm & Hd & _). unfold strftime_ymd.
  pose proof (days_in_month_le (year d) (month d) Hm) as Hd31.
  rewrite (fmt_d_pad 4 (year d)) by (change (10 ^ Z.of_nat 4) with 10000; lia).
  rewrite (fmt_d_pad 2 (month d)) by (change (10 ^ Z.of_nat 2) with 100; lia).
  rewrite (fmt_d_pad 2 (day d)) by (change (10 ^ Z.of_nat 2) with 100; lia).
  assert (∀ s, s +:+ "" = s) as Hnil.
  { induction s as [|c s IH]; [done|].
    change (String c (s +:+ "") = String c s). by rewrite IH. }
  by rewrite Hnil.
Qed.

Lemma field_ranges d :
  valid d →
  0 ≤ year d < 10 ^ Z.of_nat 4 ∧ 0 ≤ month d < 10 ^ Z.of_nat 2
  ∧ 0 ≤ day d < 10 ^ Z.of_nat 2 ∧ 0 ≤ hour d < 10 ^ Z.of_nat 2
  ∧ 0 ≤ minute d < 10 ^ Z.of_nat 2 ∧ 0 ≤ second d < 10 ^ Z.of_nat 2
  ∧ 0 ≤ microsecond d < 1000000.
Proof.
  intros (Hy & Hm & Hd & Hh & Hmi & Hs & Hu).
  pose proof (days_in_month_le (year d) (month d) Hm) as Hd31.
  change (10 ^ Z.of_nat 4) with 10000. change (10 ^ Z.of_nat 2) with 100.
  lia.
Qed.

(** The ISO texts of two valid datetimes compare as the datetimes do. *)
Theorem isoformat_order a b :
  valid a → valid b →
  String.compare (isoformat a) (isoformat b) = (to_us a ?= to_us b).
Proof.
  intros Ha Hb. rewrite to_us_order by done.
  rewrite !isoformat_pad by done.
  destruct (field_ranges a Ha) as (Ay & Am & Ad & Ah & Ami & As & Au).
  destruct (field_ranges b Hb) as (By & Bm & Bd & Bh & Bmi & Bs & Bu).
  unfold fields. cbn [lex].
  rewrite !compare_field by done.
  rewrite compare_app by (by rewrite !pad_length).
  rewrite compare_pad by done.
  rewrite compare_fraction by done.
  destruct (microsecond a ?= microsecond b); done.
Qed.

(** The texts of two valid dates compare as the dates do. *)
Theorem strftime_order a b :
  valid a → valid b →
  String.compare (strftime_ymd a) (strftime_ymd b)
  = (toordinal a ?= toordinal b).
Proof.
  intros Ha Hb. rewrite !strftime_pad by done.
  destruct (field_ranges a Ha) as (Ay & Am & Ad & _).
  destruct (field_ranges b Hb) as (By & Bm & Bd & _).
  destruct Ha as (_ & Hm1 & Hd1 & _), Hb as (_ & Hm2 & Hd2 & _).
  unfold toordinal. rewrite ymd2ord_order by done. cbn [lex].
  rewrite !compare_field by done.
  rewrite compare_app by (by rewrite !pad_length).
  rewrite compare_pad by done.
  destruct (day a ?= day b); done.
Qed.

(** ** The calendar grid *)

Lemma month_and_day_bound n b :
  0 ≤ n < 365 → 1 ≤ snd (month_and_day n b) ≤ 31.
Proof.
  intros Hn.
  assert (forallb (λ n, forallb (λ b, let d := snd (month_and_day n b) in
                                      (1 <=? d) && (d <=? 31)) [true; false])
            (seqZ 0 365) = true) as H by (vm_compute; reflexivity).
  rewrite forallb_forall in H.
  assert (In n (seqZ 0 365)) as Hin.
  { apply list_elem_of_In, elem_of_seqZ. lia. }
  specialize (H n Hin). cbn [forallb] in H.
  destruct b; lia.
Qed.

Lemma ord2ymd_day_bound n : 1 ≤ snd (ord2ymd n) ≤ 31.
Proof.
  unfold ord2ymd. cbv zeta.
  destruct (_ || _); [cbn; lia|].
  set (k := _ mod 365). set (b := _ && _).
  pose proof (month_and_day_bound k b) as H.
  destruct (month_and_day k b) as [m d]. cbn in *. apply H.
  subst k. apply Z.mod_pos_bound. lia.
Qed.

Lemma month_frame_ok y m sw md :
  month_frame y m = Ok (sw, md) →
  sw = weekday (at_midnight y m 1) ∧ 0 ≤ sw < 7 ∧ 1 ≤ md ≤ 31.
Proof.
  unfold month_frame, first_of_month. intros H.
  destruct (_ && _); [|done]. cbn [mbind result_bind] in H.
  destruct (plus_days _ 32) as [later|]; [|done]. cbn [mbind result_bind] in H.
  unfold plus_days in H. destruct (_ && _); [|done].
  cbn [mbind result_bind] in H. injection H as <- <-.
  split; [done|]. split; [unfold weekday; apply Z.mod_pos_bound; lia|].
  unfold add_days. pose proof (ord2ymd_day_bound (toordinal (replace_day later 1) + -1)) as Hb.
  destruct (ord2ymd _) as [[y' m'] d']. exact Hb.
Qed.

Lemma rows_then_days {A} (f : nat → nat → A → A) (a : A) :
  foldl (λ acc week, foldl (λ acc day, f week day acc) acc (seq 0 7)) a
    (seq 0 6)
  = foldl (λ acc i, f (i `div` 7)%nat (i `mod` 7)%nat acc) a (seq 0 42).
Proof. reflexivity. Qed.

Lemma same_position (j k : nat) :
  (j `div` 7 = k `div` 7)%nat → (j `mod` 7 = k `mod` 7)%nat → j = k.
Proof.
  intros Hd Hm. rewrite (Nat.div_mod_eq j 7), (Nat.div_mod_eq k 7). lia.
Qed.

Lemma flat_get_alter g k c j :
  is_Some (flat_get g k) →
  flat_get (alter (<[(k `mod` 7)%nat := c]>) (k `div` 7)%nat g) j
  = if decide (j = k) then Some c else flat_get g j.
Proof.
  unfold flat_get. intros [x Hx].
  destruct (g !! (k `div` 7)%nat) as [row|] eqn:Hrow; [|done]. cbn in Hx.
  apply lookup_lt_Some in Hx as Hlen.
  destruct (decide (j = k)) as [->|Hne].
  - rewrite list_lookup_alter_eq, Hrow. cbn [fmap option_fmap option_map mbind option_bind].
    by apply list_lookup_insert_eq.
  - destruct (decide (k `div` 7 = j `div` 7)%nat) as [Hd|Hd].
    + rewrite <- Hd, list_lookup_alter_eq, Hrow.
      cbn [fmap option_fmap option_map mbind option_bind].
      apply list_lookup_insert_ne. intros Hm. apply Hne.
      by apply same_position.
    + by rewrite list_lookup_alter_ne.
Qed.

Lemma flat_get_blank j :
  (j < 42)%nat → flat_get (replicate 6 (replicate 7 Blank)) j = Some Blank.
Proof.
  intros H. unfold flat_get.
  rewrite lookup_replicate_2 by (apply Nat.Div0.div_lt_upper_bound; lia).
  cbn [mbind option_bind]. apply lookup_replicate_2. apply Nat.mod_upper_bound. lia.
Qed.

Lemma grid_cell_flat g sw d :
  grid_cell g sw d = flat_get g (Z.to_nat (sw + d - 1)).
Proof. reflexivity. Qed.

Section grid.
Context (cell_of : Z → cell) (start_weekday max_day : Z).

Lemma grid_fold_invariant (k : nat) :
  0 ≤ start_weekday → (k ≤ 42)%nat →
  let acc := foldl (λ acc i, grid_step cell_of start_weekday max_day
                               (i `div` 7)%nat (i `mod` 7)%nat acc)
               (replicate 6 (replicate 7 Blank), 1) (seq 0 k) in
  snd acc = 1 + placed start_weekday max_day k
  ∧ ∀ j, (j < 42)%nat → flat_get (fst acc) j = Some (expected cell_of start_weekday max_day k j).
Proof.
  intros Hsw. induction k as [|k IH]; intros Hk; cbn zeta.
  - split; [unfold placed; cbn; lia|].
    intros j Hj. rewrite flat_get_blank by done. unfold expected.
    rewrite decide_False; [done|lia].
  - rewrite seq_S, foldl_snoc. cbn [Nat.add].
    destruct IH as [Hdn Hg]; [lia|].
    destruct (foldl _ _ (seq 0 k)) as [g dn]. cbn [fst snd] in *.
    unfold grid_step.
    assert ((k `div` 7 * 7 + k `mod` 7)%nat = k) as ->.
    { rewrite (Nat.div_mod_eq k 7) at 3. lia. }
    destruct ((start_weekday <=? Z.of_nat k) && (dn <=? max_day)) eqn:E.
    + apply andb_true_iff in E as [E1 E2].
      apply Z.leb_le in E1. apply Z.leb_le in E2. cbn [fst snd].
      split; [unfold placed in *; lia|].
      intros j Hj. rewrite flat_get_alter by (rewrite Hg; [done|lia]).
      unfold expected. destruct (decide (j = k)) as [->|Hne].
      * rewrite decide_True by (unfold placed in *; lia).
        do 2 f_equal. unfold placed in *. lia.
      * rewrite Hg by done. unfold expected.
        destruct (decide _) as [H1|H1]; destruct (decide _) as [H2|H2];
          try done; lia.
    + apply andb_false_iff in E. cbn [fst snd].
      rewrite Z.leb_gt, Z.leb_gt in E.
      split; [unfold placed in *; lia|].
      intros j Hj. rewrite Hg by done. unfold expected.
      destruct (decide _) as [H1|H1]; destruct (decide _) as [H2|H2];
        try done; unfold placed in *; lia.
Qed.

Lemma grid_loops_flat :
  foldl (λ acc week, foldl (λ acc day, grid_step cell_of start_weekday max_day week day acc) acc (seq 0 7))
     (replicate 6 (replicate 7 Blank), 1) (seq 0 6)
  = foldl (λ acc i, grid_step cell_of start_weekday max_day
                           (i `div` 7)%nat (i `mod` 7)%nat acc)
           (replicate 6 (replicate 7 Blank), 1) (seq 0 42).
Proof.
  exact (rows_then_days (grid_step cell_of start_weekday max_day)
              (replicate 6 (replicate 7 Blank), 1)).
Qed.

Lemma build_grid_flat :
  build_grid cell_of start_weekday max_day
  = fst (foldl (λ acc i, grid_step cell_of start_weekday max_day
                           (i `div` 7)%nat (i `mod` 7)%nat acc)
           (replicate 6 (replicate 7 Blank), 1) (seq 0 42)).
Proof. unfold build_grid. rewrite grid_loops_flat. reflexivity. Qed.

Lemma build_grid_cell (day_num : Z) :
  0 ≤ start_weekday → start_weekday + max_day ≤ 42 →
  1 ≤ day_num ≤ max_day →
  grid_cell (build_grid cell_of start_weekday max_day) start_weekday day_num
  = Some (cell_of day_num).
Proof.
  intros Hsw Hfit Hd. rewrite build_grid_flat, grid_cell_flat.
  pose proof (grid_fold_invariant 42 Hsw (le_n 42)) as H.
  cbv zeta in H. revert H.
  generalize (foldl (λ acc i, grid_step cell_of start_weekday max_day
                                (i `div` 7)%nat (i `mod` 7)%nat acc)
                (replicate 6 (replicate 7 Blank), 1) (seq 0 42)).
  intros acc [_ Hg]. rewrite Hg by lia. unfold expected.
  rewrite decide_True by lia. do 2 f_equal. lia.
Qed.
End grid.

(** ** The heatmap *)

Lemma count_cell_cases g c :
  count_cell g c
  = if g <=? c then GoalAchieved
    else if g <=? 2 * c then Halfway
    else if 0 <? c then Started else NoData.
Proof.
  unfold count_cell. destruct (g <=? c); [done|].
  assert (Qle_bool (inject_Z g * (1 # 2)) (inject_Z c) = (g <=? 2 * c)) as ->; [|done].
  unfold Qle_bool, inject_Z. cbn.
  apply eq_true_iff_eq. rewrite !Z.leb_le. lia.
Qed.

Lemma count_cell_monotone g c1 c2 :
  0 < g → c1 ≤ c2 → cell_rank (count_cell g c1) ≤ cell_rank (count_cell g c2).
Proof.
  intros Hg Hc. rewrite !count_cell_cases.
  destruct (Z.leb_spec g c1), (Z.leb_spec g c2), (Z.leb_spec g (2 * c1)),
    (Z.leb_spec g (2 * c2)), (Z.ltb_spec 0 c1), (Z.ltb_spec 0 c2);
    cbn; lia.
Qed.

Lemma prefix_app a b : String.prefix a (a +:+ b) = true.
Proof.
  induction a as [|c a IH]; [by destruct b|].
  change (String c a +:+ b) with (String c (a +:+ b)).
  cbn [String.prefix]. destruct (Ascii.ascii_dec c c); [exact IH|congruence].
Qed.

Lemma date_str_prefix y m d :
  String.prefix (Py.str y +:+ "-" +:+ Py.fmt_d 2 m) (date_str y m d) = true.
Proof.
  unfold date_str.
  replace (Py.str y +:+ "-" +:+ Py.fmt_d 2 m +:+ "-" +:+ Py.fmt_d 2 d)
    with ((Py.str y +:+ "-" +:+ Py.fmt_d 2 m) +:+ ("-" +:+ Py.fmt_d 2 d)).
  - apply prefix_app.
  - by rewrite !append_assoc.
Qed.

(** The dictionary maps each date of the rows to its group. *)
Lemma build_date_map_lookup (l : list Session.row) (k : string) :
  build_date_map (group_by_date l) !! k
  = if decide (filter (λ r, Session.date r = k) l = []) then None
    else Some (Z.of_nat (length (filter (λ r, Session.date r = k) l)),
               Py.or_else Py.truthy_int
                 (sql_sum (Session.actual_duration
                             <$> filter (λ r, Session.date r = k) l)) 0).
Proof.
  unfold group_by_date, build_date_map.
  set (v := λ k : string, (k, Z.of_nat (length (filter (λ r, Session.date r = k) l)),
                   sql_sum (Session.actual_duration <$> filter (λ r, Session.date r = k) l))).
  set (ks := merge_sort str_le (remove_dups (Session.date <$> l))).
  assert (∀ (m : gmap string (Z * Z)) ks,
            foldl (λ m '(date, count, minutes),
                     <[date := (count, Py.or_else Py.truthy_int minutes 0)]> m)
              m (v <$> ks) !! k
            = if decide (k ∈ ks)
              then Some ((v k).1.2, Py.or_else Py.truthy_int (v k).2 0)
              else m !! k) as Hfold.
  { intros m ks'. revert m. induction ks' as [|k' ks' IH]; intros m; [done|].
    rewrite fmap_cons. cbn [foldl]. rewrite IH.
    destruct (decide (k ∈ ks')) as [Hin|Hin].
    - rewrite decide_True; [done|by right].
    - destruct (decide (k = k')) as [->|Hne].
      + rewrite decide_True by by left. unfold v at 1. by rewrite lookup_insert_eq.
      + rewrite decide_False by (intros [?|?]%elem_of_cons; done).
        unfold v at 1. by rewrite lookup_insert_ne. }
  rewrite Hfold, lookup_empty. subst v. cbn [fst snd].
  assert (k ∈ ks ↔ filter (λ r, Session.date r = k) l ≠ []) as Hk.
  { subst ks. rewrite merge_sort_Permutation, elem_of_remove_dups.
    rewrite list_elem_of_fmap. split.
    - intros (r & -> & Hr) E.
      assert (r ∈ filter (λ r0, Session.date r0 = Session.date r) l) as Hin
          by by apply list_elem_of_filter.
      rewrite E in Hin. by apply not_elem_of_nil in Hin.
    - intros Hne. destruct (filter _ l) as [|r rest] eqn:E; [done|].
      assert (r ∈ filter (λ r0, Session.date r0 = k) l) as Hin
          by (rewrite E; by left).
      apply list_elem_of_filter in Hin as [Hd Hin]. by exists r. }
  destruct (decide (k ∈ ks)) as [Hin|Hin].
  - rewrite decide_False; [done|by apply Hk].
  - rewrite decide_True; [done|].
    destruct (decide (filter (λ r, Session.date r = k) l = [])); [done|].
    by destruct Hin; apply Hk.
Qed.

Lemma month_rows_on y m d db :
  filter (λ r, Session.date r = date_str y m d) (month_rows y m db)
  = completed_on (date_str y m d) db.
Proof.
  unfold month_rows, completed_on. rewrite list_filter_filter.
  apply list_filter_iff. intros r. split.
  - intros (Hd & _ & Hc). done.
  - intros (Hd & Hc). split; [done|]. split; [|done].
    rewrite Hd. apply date_str_prefix.
Qed.

(** C2, as the code has it.  For a positive daily goal [g] and a day of the
    month shown, the cell of that day holds: the no-session marker when no
    completed session has that date; otherwise, with [c] the number of
    completed sessions of the date, "goal achieved" when [c >= g],
    "halfway" when [g <= 2c] and [c < g], "started" when [2c < g].  The
    half is the exact half of the goal, not its floor.  The marker is
    monotone in [c]. *)
Theorem heatmap_marker_by_count now year month st rep day_num :
  cmd_heatmap now year month st = Ok rep →
  0 < legend_goal rep →
  1 ≤ day_num ≤ month_days rep →
  let y := Py.or_else Py.truthy_int year (Datetime.year now) in
  let m := Py.or_else Py.truthy_int month (Datetime.month now) in
  let g := legend_goal rep in
  let c := Z.of_nat (length (completed_on (date_str y m day_num)
                               (database st))) in
  read_daily_goal (database st) = Ok g
  ∧ grid_cell (grid rep) (weekday (at_midnight y m 1)) day_num
    = Some (if c =? 0 then NoSession
            else if g <=? c then GoalAchieved
            else if g <=? 2 * c then Halfway
            else Started)
  ∧ ∀ c1 c2, c1 ≤ c2 →
             cell_rank (count_cell g c1) ≤ cell_rank (count_cell g c2).
Proof.
  unfold cmd_heatmap. intros H.
  destruct (read_daily_goal (database st)) as [g|e]; [|done].
  cbn [mbind result_bind] in H.
  destruct (month_frame _ _) as [[sw md]|e] eqn:Hf; [|done].
  cbn [mbind result_bind] in H. injection H as <-. cbn [legend_goal month_days grid].
  intros Hg Hd. cbv zeta.
  apply month_frame_ok in Hf as (<- & Hsw & Hmd).
  split; [done|]. split; [|intros c1 c2; by apply count_cell_monotone].
  rewrite build_grid_cell by lia. f_equal.
  unfold day_cell. rewrite build_date_map_lookup, month_rows_on.
  destruct (completed_on _ _) as [|r rest] eqn:E.
  - by rewrite decide_True.
  - rewrite decide_False by done.
    set (c := Z.of_nat (length (r :: rest))).
    assert (0 < c) as Hc by (subst c; cbn [length]; lia).
    rewrite count_cell_cases.
    destruct (Z.eqb_spec c 0); [lia|].
    destruct (g <=? c); [done|]. destruct (g <=? 2 * c); [done|].
    destruct (Z.ltb_spec 0 c); [done|lia].
Qed.

Lemma heatmap_marker_by_count_witness :
  grid_cell (grid sample_heatmap) (weekday (at_midnight 2024 3 1)) 15
  = Some Started.
Proof.
  destruct (heatmap_marker_by_count (now clock_3) None None
              (run goal_three_one_done) sample_heatmap 15)
    as (_ & H & _).
  - vm_compute. reflexivity.
  - vm_compute. reflexivity.
  - vm_compute. split; discriminate.
  - exact H.
Defined.

(** C2 as stated fails for an odd goal: with goal 3 and one completed
    session, [3 // 2 <= 1 < 3], yet the marker is "started". *)
Lemma odd_goal_half_is_started :
  3 / 2 ≤ 1 < 3 ∧ count_cell 3 1 = Started
  ∧ (rep ← cmd_heatmap (now clock_3) None None (run goal_three_one_done);
     Ok (grid_cell (grid rep) (weekday (at_midnight 2024 3 1)) 15))
    = Ok (Some Started).
Proof.
  split; [change (3 / 2) with 1; lia|]. split; vm_compute; reflexivity.
Qed.

(** ** Export *)

Lemma StronglySorted_lookup {A} (R : relation A) l i j x y :
  StronglySorted R l → (i < j)%nat → l !! i = Some x → l !! j = Some y →
  R x y.
Proof.
  intros Hs. revert i j x y.
  induction Hs as [|a l Hs IH Hall]; intros i j x y Hij Hi Hj; [done|].
  destruct j as [|j]; [lia|]. destruct i as [|i].
  - cbn in Hi, Hj. injection Hi as <-.
    rewrite Forall_forall in Hall. apply Hall.
    by eapply list_elem_of_lookup_2.
  - cbn in Hi, Hj. apply (IH i j); [lia|done..].
Qed.


(** ** Sanity checks of the Python and datetime helpers *)

Example str_ex : Py.str 1700000000123 = "1700000000123" ∧ Py.str (-42) = "-42"
                 ∧ Py.str 0 = "0".
Proof. repeat split; reflexivity. Qed.

Example fmt_d_ex :
  Py.fmt_d 2 7 = "07" ∧ Py.fmt_d 2 12 = "12" ∧ Py.fmt_d 2 123 = "123"
  ∧ Py.fmt_d 4 33 = "0033" ∧ Py.fmt_d 3 (-5) = "-05".
Proof. repeat split; reflexivity. Qed.

Example int_of_str_ex :
  Py.int_of_str "10" = Some 10 ∧ Py.int_of_str " -1_0 " = Some (-10)
  ∧ Py.int_of_str "+5" = Some 5 ∧ Py.int_of_str "007" = Some 7
  ∧ Py.int_of_str "eight" = None ∧ Py.int_of_str "1__0" = None
  ∧ Py.int_of_str "_1" = None ∧ Py.int_of_str "1_" = None
  ∧ Py.int_of_str "5.0" = None ∧ Py.int_of_str " " = None
  ∧ Py.int_of_str "" = None ∧ Py.int_of_str "0" = Some 0.
Proof. repeat split; reflexivity. Qed.

Example calendar_ex :
  ymd2ord 2024 3 15 = 738960 ∧ ord2ymd 738960 = (2024, 3, 15)
  ∧ weekday (at_midnight 2024 3 15) = 4
  ∧ ord2ymd (ymd2ord 2024 2 29) = (2024, 2, 29)
  ∧ ord2ymd (ymd2ord 2023 12 31) = (2023, 12, 31)
  ∧ ord2ymd (ymd2ord 2000 12 31) = (2000, 12, 31)
  ∧ add_days (at_midnight 2024 3 1) (-1) = at_midnight 2024 2 29.
Proof. repeat split; reflexivity. Qed.

Example isoformat_ex :
  isoformat (mk 2024 3 5 9 7 0 0) = "2024-03-05T09:07:00"
  ∧ isoformat (mk 2024 3 5 9 7 0 120) = "2024-03-05T09:07:00.000120"
  ∧ strftime_ymd (mk 2024 3 5 9 7 0 120) = "2024-03-05".
Proof. repeat split; reflexivity. Qed.

(** * Further properties *)

(** ** The shapes of session rows *)

Lemma strftime_prefix_isoformat d :
  String.prefix (strftime_ymd d) (isoformat d) = true.
Proof.
  unfold isoformat, strftime_ymd.
  set (rest := "T" +:+ _).
  replace (Py.fmt_d 4 (year d) +:+ "-" +:+ Py.fmt_d 2 (month d) +:+ "-"
             +:+ Py.fmt_d 2 (day d) +:+ rest)
    with ((Py.fmt_d 4 (year d) +:+ "-" +:+ Py.fmt_d 2 (month d) +:+ "-"
             +:+ Py.fmt_d 2 (day d)) +:+ rest).
  - apply prefix_app.
  - by rewrite !append_assoc.
Qed.

Lemma or_else_truthy_int o d : d ≠ 0 → Py.or_else Py.truthy_int o d ≠ 0.
Proof.
  intros Hd. destruct o as [n|]; [|done]. cbn. unfold Py.truthy_int.
  destruct (Z.eqb_spec n 0); cbn; done.
Qed.

Lemma or_else_truthy_str o d : d ≠ "" → Py.or_else Py.truthy_str o d ≠ "".
Proof.
  intros Hd. destruct o as [s|]; [|done]. cbn. unfold Py.truthy_str.
  destruct (String.eqb_spec s ""); cbn; done.
Qed.

Lemma started_row_shape clk duration tid :
  row_shape (started_row clk duration tid) ∧ row_open (started_row clk duration tid).
Proof.
  split; [|done]. split; [by apply or_else_truthy_int|].
  split; [apply strftime_prefix_isoformat|]. by left.
Qed.

Lemma shaped_complete now st : shaped st → shaped (fst (cmd_complete now st)).
Proof.
  intros Hst. unfold cmd_complete.
  destruct (marker st) as [m|] eqn:Hm; [|done].
  destruct Hst as [Hall Hmk].
  split; [|done]. cbn. intros r' Hr'.
  unfold update_session in Hr'.
  apply list_elem_of_fmap in Hr' as (r & -> & Hr).
  destruct (decide (Session.id r = Marker.id m)) as [Hid|_]; [|by apply Hall].
  destruct (Hall r Hr) as (Hp & Hd & _).
  destruct (Hmk m r Hm Hr Hid) as (_ & _ & _ & Hwhy).
  split; [done|]. split; [done|]. right. left.
  split; [by eexists|]. split; [by eexists|]. done.
Qed.

Lemma shaped_interrupt now reason st :
  shaped st → shaped (fst (cmd_interrupt now reason st)).
Proof.
  intros Hst. unfold cmd_interrupt.
  destruct (marker st) as [m|] eqn:Hm; [|done].
  destruct Hst as [Hall Hmk].
  split; [|done]. cbn. intros r' Hr'.
  unfold update_session in Hr'.
  apply list_elem_of_fmap in Hr' as (r & -> & Hr).
  destruct (decide (Session.id r = Marker.id m)) as [Hid|_]; [|by apply Hall].
  destruct (Hall r Hr) as (Hp & Hd & _).
  split; [done|]. split; [done|]. right. right.
  split; [by eexists|]. split; [by eexists|]. split; [done|].
  eexists. split; [reflexivity|]. by apply or_else_truthy_str.
Qed.

Lemma shaped_start_session clk task duration st st1 :
  shaped st → start_session clk task duration st = Ok st1 → shaped st1.
Proof.
  intros [Hall Hmk] H.
  apply start_session_ok in H as (tid & tasks' & Hfresh & Hse & _ & _ & Hm).
  fold (started_row clk duration tid) in Hse.
  destruct (started_row_shape clk duration tid) as [Hs Ho].
  split.
  - intros r Hr. rewrite Hse in Hr. apply elem_of_app in Hr as [Hr|Hr].
    + by apply Hall.
    + by apply list_elem_of_singleton in Hr as ->.
  - intros m r Hmr Hr Hid. rewrite Hm in Hmr. injection Hmr as <-.
    rewrite Hse in Hr. apply elem_of_app in Hr as [Hr|Hr].
    + destruct Hfresh. cbn in Hid. rewrite <- Hid.
      by apply list_elem_of_fmap_2.
    + by apply list_elem_of_singleton in Hr as ->.
Qed.

Lemma shaped_main clk c st : shaped st → shaped (main clk c st).
Proof.
  intros Hst. unfold main.
  set (st0 := mk_state (init_db (database st)) (marker st)).
  assert (shaped st0) as H0 by done. clearbody st0.
  destruct c; try exact H0.
  - destruct (cmd_start clk task duration st0) as [[st' out]|e] eqn:E;
      [|done].
    apply cmd_start_ok in E as (st1 & Hs & E).
    apply (shaped_start_session _ _ _ _ _ H0) in Hs.
    destruct (timed duration).
    + destruct E as (-> & _). by apply shaped_complete.
    + by destruct E as (-> & _).
  - by apply shaped_complete.
  - by apply shaped_interrupt.
  - unfold cmd_task_add. destruct (negb _); [done|].
    destruct (insert_task _ _); cbn; done.
  - unfold cmd_config. destruct value as [v|]; [|done].
    destruct (Py.truthy_str v); done.
Qed.

Lemma shaped_run_from st tr : shaped st → shaped (run_from st tr).
Proof.
  revert st. induction tr as [|[clk c] tr IH]; intros st Hst; [done|].
  cbn. apply IH. by apply shaped_main.
Qed.

Lemma shaped_empty : shaped empty_state.
Proof.
  split.
  - intros r Hr. by destruct (not_elem_of_nil r).
  - done.
Qed.



(** ** Referential integrity *)


(** ** Task names *)

Lemma select_task_id_cons n t l :
  select_task_id n (t :: l)
  = if decide (Task.name t = n) then Some (Task.id t)
    else select_task_id n l.
Proof.
  unfold select_task_id. cbn [list_find].
  destruct (decide (Task.name t = n)); [done|].
  by destruct (list_find _ l) as [[i x]|].
Qed.

Lemma select_task_id_app n l l' tid :
  select_task_id n l = Some tid → select_task_id n (l ++ l') = Some tid.
Proof.
  induction l as [|t l IH]; [done|].
  change ((t :: l) ++ l') with (t :: (l ++ l')).
  rewrite !select_task_id_cons. by destruct (decide _).
Qed.

Lemma select_task_id_credit n k d l :
  select_task_id n (update_task k (credit_task d) l) = select_task_id n l.
Proof.
  induction l as [|t l IH]; [done|].
  change (update_task k (credit_task d) (t :: l))
    with ((if decide (Task.id t = k) then credit_task d t else t)
            :: update_task k (credit_task d) l).
  rewrite !select_task_id_cons, IH.
  by destruct (decide (Task.id t = k)).
Qed.

Lemma complete_keeps_names now st n :
  select_task_id n (tasks (database (fst (cmd_complete now st))))
  = select_task_id n (tasks (database st)).
Proof.
  unfold cmd_complete. destruct (marker st) as [m|]; [|done]. cbn.
  destruct (Marker.task_id m) as [tid|]; [|done].
  destruct (Py.truthy_str tid); [|done]. apply select_task_id_credit.
Qed.

(** What [start_session] does to the tasks table and which task the new
    row refers to. *)
Lemma start_session_task clk task duration st st1 :
  start_session clk task duration st = Ok st1 →
  ∃ tid,
    sessions (database st1)
    = sessions (database st) ++ [started_row clk duration tid]
    ∧ Marker.task_id <$> marker st1 = Some tid
    ∧ if Py.truthy_opt Py.truthy_str task then
        match select_task_id (default "" task) (tasks (database st)) with
        | Some known => tid = Some known
                        ∧ tasks (database st1) = tasks (database st)
        | None =>
            tid = Some (generate_task_id clk)
            ∧ (generate_task_id clk ∉ (Task.id <$> tasks (database st)))
            ∧ tasks (database st1)
              = tasks (database st)
                  ++ [Task.mk (generate_task_id clk) (default "" task) 0 0]
        end
      else tid = None ∧ tasks (database st1) = tasks (database st).
Proof.
  unfold start_session. intros H.
  destruct (Py.truthy_opt Py.truthy_str task).
  - destruct (select_task_id _ _) as [known|].
    + cbn in H. unfold insert_session in H. cbn in H.
      case_decide; [done|]. cbn in H. injection H as <-.
      by exists (Some known).
    + cbn in H. unfold insert_task in H. cbn in H.
      case_decide as Hint; [done|]. cbn in H. unfold insert_session in H.
      cbn in H. case_decide; [done|]. cbn in H. injection H as <-.
      by exists (Some (generate_task_id clk)).
  - cbn in H. unfold insert_session in H. cbn in H.
    case_decide; [done|]. cbn in H. injection H as <-. by exists None.
Qed.

Lemma main_keeps_names clk c st n tid :
  select_task_id n (tasks (database st)) = Some tid →
  select_task_id n (tasks (database (main clk c st))) = Some tid.
Proof.
  intros Hn. unfold main.
  set (st0 := mk_state (init_db (database st)) (marker st)).
  assert (select_task_id n (tasks (database st0)) = Some tid) as H0 by done.
  clearbody st0.
  destruct c; try exact H0.
  - destruct (cmd_start clk task duration st0) as [[st' out]|e] eqn:E;
      [|done].
    apply cmd_start_ok in E as (st1 & Hs & E).
    assert (select_task_id n (tasks (database st1)) = Some tid) as H1.
    { apply start_session_task in Hs as (t & _ & _ & Hs).
      destruct (Py.truthy_opt _ _).
      - destruct (select_task_id (default "" task) _).
        + destruct Hs as (_ & ->). done.
        + destruct Hs as (_ & _ & ->). by apply select_task_id_app.
      - destruct Hs as (_ & ->). done. }
    destruct (timed duration).
    + destruct E as (-> & _). by rewrite complete_keeps_names.
    + by destruct E as (-> & _).
  - by rewrite complete_keeps_names.
  - unfold cmd_interrupt. by destruct (marker st0).
  - unfold cmd_task_add. destruct (negb _); [done|].
    unfold insert_task. cbn. case_decide; [done|]. cbn.
    by apply select_task_id_app.
  - unfold cmd_config. destruct value as [v|]; [|done].
    by destruct (Py.truthy_str v).
Qed.



(** ** Rejected starts *)


(** ** Interrupting *)



(** X6.  Once [complete] or [interrupt] has run, a further [complete] or
    [interrupt] changes nothing: the finished row keeps its end time,
    duration, flag and reason, and the tasks are not credited again. *)
Theorem finished_session_stays_finished st now1 now2 reason1 reason2 :
  let done := fst (cmd_complete now1 st) in
  let broken := fst (cmd_interrupt now1 reason1 st) in
  cmd_complete now2 done = (done, NoActiveSession)
  ∧ cmd_interrupt now2 reason2 done = (done, NoActiveSession)
  ∧ cmd_complete now2 broken = (broken, NoActiveSession)
  ∧ cmd_interrupt now2 reason2 broken = (broken, NoActiveSession).
Proof.
  cbv zeta.
  assert (marker (fst (cmd_complete now1 st)) = None
          ∨ fst (cmd_complete now1 st) = st ∧ marker st = None) as Hc.
  { unfold cmd_complete. destruct (marker st) eqn:E; [by left|by right]. }
  assert (marker (fst (cmd_interrupt now1 reason1 st)) = None
          ∨ fst (cmd_interrupt now1 reason1 st) = st ∧ marker st = None) as Hi.
  { unfold cmd_interrupt. destruct (marker st) eqn:E; [by left|by right]. }
  assert (marker (fst (cmd_complete now1 st)) = None) as Hc'.
  { destruct Hc as [?|[-> ?]]; done. }
  assert (marker (fst (cmd_interrupt now1 reason1 st)) = None) as Hi'.
  { destruct Hi as [?|[-> ?]]; done. }
  assert (∀ s n r, marker s = None →
            cmd_complete n s = (s, NoActiveSession)
            ∧ cmd_interrupt n r s = (s, NoActiveSession)) as Hidle.
  { intros s n r Hs. unfold cmd_complete, cmd_interrupt. by rewrite Hs. }
  repeat split; by apply Hidle.
Qed.

(** ** Durations when the clock goes back *)

(** X7.  The stored duration truncates toward zero: it is the floor of the
    elapsed minutes when the clock has not gone back, and minus the floor
    of the minutes by which it has gone back otherwise, so it is negative
    as soon as the clock is a full minute behind the start. *)
Theorem elapsed_minutes_truncates (now start : datetime) :
  (to_us start ≤ to_us now →
   elapsed_minutes now start = (to_us now - to_us start) / 60000000)
  ∧ (to_us now < to_us start →
     elapsed_minutes now start = - ((to_us start - to_us now) / 60000000))
  ∧ (elapsed_minutes now start < 0
     ↔ to_us now + 60000000 ≤ to_us start).
Proof.
  rewrite elapsed_minutes_quot. unfold Datetime.sub.
  assert (to_us now < to_us start →
          Z.quot (to_us now - to_us start) 60000000
          = - ((to_us start - to_us now) / 60000000)) as Hneg.
  { intros H.
    replace (to_us now - to_us start) with (- (to_us start - to_us now))
      by lia.
    rewrite Z.quot_opp_l by lia. rewrite Z.quot_div_nonneg by lia. done. }
  split; [intros H; apply Z.quot_div_nonneg; lia|]. split; [done|].
  destruct (Z.le_gt_cases (to_us start) (to_us now)) as [H|H].
  - rewrite Z.quot_div_nonneg by lia.
    pose proof (Z.div_pos (to_us now - to_us start) 60000000). lia.
  - rewrite Hneg by lia.
    pose proof (Z.div_pos (to_us start - to_us now) 60000000).
    split; intros H1.
    + destruct (Z.le_gt_cases 60000000 (to_us start - to_us now)); [lia|].
      rewrite Z.div_small in H1 by lia. lia.
    + assert (1 ≤ (to_us start - to_us now) / 60000000); [|lia].
      apply Z.div_le_lower_bound; lia.
Qed.

Lemma elapsed_minutes_truncates_witness :
  elapsed_minutes (now clock_2) (now clock_1)
  = (to_us (now clock_2) - to_us (now clock_1)) / 60000000.
Proof.
  apply (elapsed_minutes_truncates (now clock_2) (now clock_1)).
  vm_compute. discriminate.
Defined.

(** ** The countdown *)

Lemma countdown_length n : length (countdown n) = n.
Proof. induction n as [|n IH]; [done|]. cbn [countdown length]. by rewrite IH. Qed.

Lemma countdown_lookup n i :
  (i < n)%nat →
  countdown n !! i
  = Some (Z.of_nat (n - i) / 60, Z.of_nat (n - i) mod 60).
Proof.
  revert i. induction n as [|n IH]; intros i Hi; [lia|].
  destruct i as [|i].
  - done.
  - cbn [countdown]. rewrite lookup_cons. rewrite IH by lia.
    by replace (S n - S i)%nat with (n - i)%nat by lia.
Qed.



(** ** The calendar: ordinals and dates *)

Lemma days_before_year_decomposed a b c e :
  0 ≤ b ≤ 3 → 0 ≤ c ≤ 24 → 0 ≤ e ≤ 3 →
  days_before_year (400 * a + 100 * b + 4 * c + e + 1)
  = 146097 * a + 36524 * b + 1461 * c + 365 * e.
Proof.
  intros Hb Hc He. unfold days_before_year. cbv zeta.
  replace (400 * a + 100 * b + 4 * c + e + 1 - 1)
    with (400 * a + 100 * b + 4 * c + e) by lia.
  Z.div_mod_to_equations. lia.
Qed.

Lemma is_leap_decomposed a b c e :
  0 ≤ b ≤ 3 → 0 ≤ c ≤ 24 → 0 ≤ e ≤ 3 →
  is_leap (400 * a + 100 * b + 4 * c + e + 1)
  = (e =? 3) && (negb (c =? 24) || (b =? 3)).
Proof.
  intros Hb Hc He. unfold is_leap.
  destruct (Z.eqb_spec ((400 * a + 100 * b + 4 * c + e + 1) mod 4) 0) as [H4|H4],
    (Z.eqb_spec ((400 * a + 100 * b + 4 * c + e + 1) mod 100) 0) as [H100|H100],
    (Z.eqb_spec ((400 * a + 100 * b + 4 * c + e + 1) mod 400) 0) as [H400|H400],
    (Z.eqb_spec e 3), (Z.eqb_spec c 24), (Z.eqb_spec b 3);
    cbn [andb orb negb]; try reflexivity; exfalso;
    Z.div_mod_to_equations; lia.
Qed.

Lemma month_and_day_check :
  forallb (λ b, forallb (λ n,
     let '(m, d) := month_and_day n b in
     (1 <=? m) && (m <=? 12) && (1 <=? d) && (d <=? in_month b m)
     && (before_month b m + d =? n + 1))
    (seqZ 0 365)) [true; false] = true.
Proof. vm_compute. reflexivity. Qed.

Lemma month_and_day_spec n b :
  0 ≤ n < 365 →
  let '(m, d) := month_and_day n b in
  1 ≤ m ≤ 12 ∧ 1 ≤ d ≤ in_month b m ∧ before_month b m + d = n + 1.
Proof.
  intros Hn. pose proof month_and_day_check as H.
  rewrite forallb_forall in H.
  assert (In b [true; false]) as Hb by (destruct b; cbn; tauto).
  specialize (H b Hb). rewrite forallb_forall in H.
  assert (In n (seqZ 0 365)) as Hin
      by (apply list_elem_of_In, elem_of_seqZ; lia).
  specialize (H n Hin). destruct (month_and_day n b) as [m d].
  rewrite !andb_true_iff, !Z.leb_le, Z.eqb_eq in H. lia.
Qed.

(** [ord2ymd] gives a date of the calendar whose ordinal is its argument. *)
Lemma ord2ymd_spec n :
  let '(y, m, d) := ord2ymd n in
  1 ≤ m ≤ 12 ∧ 1 ≤ d ≤ days_in_month y m ∧ ymd2ord y m d = n.
Proof.
  unfold ord2ymd. cbv zeta.
  pose proof (Z.div_mod (n - 1) 146097 ltac:(lia)) as E1.
  pose proof (Z.mod_pos_bound (n - 1) 146097 ltac:(lia)) as B1.
  set (a := (n - 1) / 146097) in *. set (r1 := (n - 1) mod 146097) in *.
  pose proof (Z.div_mod r1 36524 ltac:(lia)) as E2.
  pose proof (Z.mod_pos_bound r1 36524 ltac:(lia)) as B2.
  set (b := r1 / 36524) in *. set (r2 := r1 mod 36524) in *.
  pose proof (Z.div_mod r2 1461 ltac:(lia)) as E3.
  pose proof (Z.mod_pos_bound r2 1461 ltac:(lia)) as B3.
  set (c := r2 / 1461) in *. set (r3 := r2 mod 1461) in *.
  pose proof (Z.div_mod r3 365 ltac:(lia)) as E4.
  pose proof (Z.mod_pos_bound r3 365 ltac:(lia)) as B4.
  set (e := r3 / 365) in *. set (r4 := r3 mod 365) in *.
  clearbody a r1 b r2 c r3 e r4.
  assert (0 ≤ b ≤ 4) as Hb by lia.
  assert (0 ≤ c ≤ 24) as Hc by lia.
  assert (0 ≤ e ≤ 4) as He by lia.
  destruct (Z.eqb_spec e 4) as [He4|He4]; cbn [orb].
  - (* the last day of a four-year cycle *)
    assert (c ≤ 23) as Hc23 by lia. assert (b ≤ 3) as Hb3 by lia.
    split; [lia|].
    replace (a * 400 + 1 + b * 100 + c * 4 + e - 1)
      with (400 * a + 100 * b + 4 * c + 3 + 1) by lia.
    unfold ymd2ord, days_in_month, days_before_month.
    rewrite is_leap_decomposed, days_before_year_decomposed by lia.
    destruct (Z.eqb_spec c 24); [lia|]. cbn.
    change (default 0 (DAYS_IN_MONTH !! Z.to_nat 12)) with 31.
    change (default 0 (DAYS_BEFORE_MONTH !! Z.to_nat 12)) with 334. lia.
  - destruct (Z.eqb_spec b 4) as [Hb4|Hb4].
    + (* the last day of a four-hundred-year cycle *)
      assert (c = 0 ∧ e = 0 ∧ r4 = 0) as (-> & -> & ->) by lia.
      split; [lia|].
      replace (a * 400 + 1 + b * 100 + 0 * 4 + 0 - 1)
        with (400 * a + 100 * 3 + 4 * 24 + 3 + 1) by lia.
      unfold ymd2ord, days_in_month, days_before_month.
      rewrite is_leap_decomposed, days_before_year_decomposed by lia.
      cbn.
  change (default 0 (DAYS_IN_MONTH !! Z.to_nat 12)) with 31.
      change (default 0 (DAYS_BEFORE_MONTH !! Z.to_nat 12)) with 334. lia.
    + assert (0 ≤ b ≤ 3) as Hb3 by lia. assert (0 ≤ e ≤ 3) as He3 by lia.
      pose proof (month_and_day_spec r4
                    ((e =? 3) && (negb (c =? 24) || (b =? 3))) B4) as Hmd.
      destruct (month_and_day r4 _) as [m d].
      destruct Hmd as (Hm & Hd & Hsum).
      replace (a * 400 + 1 + b * 100 + c * 4 + e)
        with (400 * a + 100 * b + 4 * c + e + 1) by lia.
      unfold ymd2ord.
      change (days_in_month ?y m) with (in_month (is_leap y) m).
      change (days_before_month ?y m) with (before_month (is_leap y) m).
      rewrite is_leap_decomposed, days_before_year_decomposed by lia.
      split; [done|]. split; [done|]. lia.
Qed.

(** Two dates of the calendar with the same ordinal are the same date. *)
Lemma ymd2ord_inj y1 m1 d1 y2 m2 d2 :
  1 ≤ m1 ≤ 12 → 1 ≤ d1 ≤ days_in_month y1 m1 →
  1 ≤ m2 ≤ 12 → 1 ≤ d2 ≤ days_in_month y2 m2 →
  ymd2ord y1 m1 d1 = ymd2ord y2 m2 d2 → (y1, m1, d1) = (y2, m2, d2).
Proof.
  intros Hm1 Hd1 Hm2 Hd2 E.
  pose proof (ymd2ord_order _ _ _ _ _ _ Hm1 Hd1 Hm2 Hd2) as H.
  rewrite E, Z.compare_refl in H. cbn [lex] in H.
  destruct (Z.compare_spec y1 y2) as [->|?|?]; [|done..].
  destruct (Z.compare_spec m1 m2) as [->|?|?]; [|done..].
  destruct (Z.compare_spec d1 d2) as [->|?|?]; [|done..]. done.
Qed.

Lemma ord2ymd_ymd2ord y m d :
  1 ≤ m ≤ 12 → 1 ≤ d ≤ days_in_month y m →
  ord2ymd (ymd2ord y m d) = (y, m, d).
Proof.
  intros Hm Hd. pose proof (ord2ymd_spec (ymd2ord y m d)) as H.
  destruct (ord2ymd (ymd2ord y m d)) as [[y' m'] d'].
  destruct H as (Hm' & Hd' & E). by apply ymd2ord_inj.
Qed.

(** [d + timedelta(days=k)] moves the ordinal by [k] and keeps the time. *)
Lemma add_days_spec d k :
  let d' := add_days d k in
  toordinal d' = toordinal d + k
  ∧ 1 ≤ month d' ≤ 12 ∧ 1 ≤ day d' ≤ days_in_month (year d') (month d')
  ∧ hour d' = hour d ∧ minute d' = minute d ∧ second d' = second d
  ∧ microsecond d' = microsecond d.
Proof.
  unfold add_days. pose proof (ord2ymd_spec (toordinal d + k)) as H.
  destruct (ord2ymd (toordinal d + k)) as [[y m] dd].
  destruct H as (Hm & Hd & E). cbn. unfold toordinal. cbn. done.
Qed.

Lemma ordinal_year_range y m d :
  1 ≤ m ≤ 12 → 1 ≤ d ≤ days_in_month y m →
  1 ≤ ymd2ord y m d ≤ MAX_ORDINAL → 1 ≤ y ≤ 9999.
Proof.
  intros Hm Hd Hn. unfold ymd2ord in Hn.
  change (days_before_month y m) with (before_month (is_leap y) m) in Hn.
  change (days_in_month y m) with (in_month (is_leap y) m) in Hd.
  destruct (month_table (is_leap y) m m Hm Hm) as (H0 & H1 & _).
  unfold MAX_ORDINAL in Hn.
  destruct (Z.le_gt_cases y 0) as [Hy|Hy].
  - pose proof (days_before_year_mono (y + 1) 1 ltac:(lia)) as Hmono.
    rewrite days_before_year_succ in Hmono. unfold year_length in Hmono.
    change (days_before_year 1) with 0 in Hmono.
    destruct (is_leap y); lia.
  - split; [lia|]. destruct (Z.le_gt_cases y 9999) as [?|Hbig]; [done|].
    pose proof (days_before_year_mono 10000 y ltac:(lia)) as Hmono.
    change (days_before_year 10000) with 3652059 in Hmono. lia.
Qed.

Lemma toordinal_range d : valid d → 1 ≤ toordinal d ≤ MAX_ORDINAL.
Proof.
  intros (Hy & Hm & Hd & _). unfold toordinal.
  pose proof (days_in_month_le (year d) (month d) Hm) as H31.
  pose proof (ymd2ord_order (year d) (month d) (day d) 9999 12 31
                Hm Hd ltac:(lia) ltac:(by vm_compute)) as Hhi.
  pose proof (ymd2ord_order 1 1 1 (year d) (month d) (day d)
                ltac:(lia) ltac:(by vm_compute) Hm Hd) as Hlo.
  change (ymd2ord 9999 12 31) with MAX_ORDINAL in Hhi.
  change (ymd2ord 1 1 1) with 1 in Hlo. cbn [lex] in Hhi, Hlo.
  split.
  - unfold Z.le. rewrite Hlo.
    destruct (Z.compare_spec 1 (year d)); [|done|lia].
    destruct (Z.compare_spec 1 (month d)); [|done|lia].
    destruct (Z.compare_spec 1 (day d)); [done|done|lia].
  - unfold Z.le. rewrite Hhi.
    destruct (Z.compare_spec (year d) 9999); [|done|lia].
    destruct (Z.compare_spec (month d) 12); [|done|lia].
    destruct (Z.compare_spec (day d) 31); [done|done|lia].
Qed.

Lemma toordinal_year_range d :
  1 ≤ month d ≤ 12 → 1 ≤ day d ≤ days_in_month (year d) (month d) →
  1 ≤ toordinal d ≤ MAX_ORDINAL → 1 ≤ year d ≤ 9999.
Proof. apply ordinal_year_range. Qed.

Lemma add_days_valid d k :
  valid d → 1 ≤ toordinal d + k ≤ MAX_ORDINAL →
  valid (add_days d k) ∧ toordinal (add_days d k) = toordinal d + k.
Proof.
  intros Hv Hr.
  destruct (add_days_spec d k) as (Ho & Hm & Hd & Hh & Hmi & Hs & Hu).
  split; [|exact Ho]. destruct Hv as (_ & _ & _ & Vh & Vmi & Vs & Vu).
  unfold valid. rewrite Hh, Hmi, Hs, Hu.
  split; [|exact (conj Hm (conj Hd (conj Vh (conj Vmi (conj Vs Vu)))))].
  apply (toordinal_year_range _ Hm Hd).
  rewrite Ho. exact Hr.
Qed.

(** Moving a valid datetime by whole days within the calendar gives a valid
    datetime, that many days away. *)
Lemma plus_days_spec d k :
  valid d → 1 ≤ toordinal d + k ≤ MAX_ORDINAL →
  ∃ d', plus_days d k = Ok d' ∧ valid d'
        ∧ toordinal d' = toordinal d + k.
Proof.
  intros Hv Hr. exists (add_days d k).
  split; [|by apply add_days_valid].
  unfold plus_days.
  destruct (Z.leb_spec 1 (toordinal d + k)); [|lia].
  destruct (Z.leb_spec (toordinal d + k) MAX_ORDINAL); [|lia].
  reflexivity.
Qed.

Lemma plus_days_overflow d k :
  ¬ 1 ≤ toordinal d + k ≤ MAX_ORDINAL → plus_days d k = Raise OverflowError.
Proof.
  intros Hr. unfold plus_days.
  destruct (Z.leb_spec 1 (toordinal d + k)),
    (Z.leb_spec (toordinal d + k) MAX_ORDINAL); cbn [andb]; try done; lia.
Qed.

Lemma str_le_order a b :
  valid a → valid b →
  str_le (strftime_ymd a) (strftime_ymd b) ↔ toordinal a ≤ toordinal b.
Proof.
  intros Ha Hb. unfold str_le, String.leb.
  rewrite strftime_order by done.
  destruct (Z.compare_spec (toordinal a) (toordinal b)); split; (done || lia).
Qed.

(** The first day of the month after month [m] of year [y] comes
    [days_in_month y m] days after the first day of that month. *)
Lemma next_month_check :
  forallb (λ b, forallb (λ m,
     before_month b (m + 1) =? before_month b m + in_month b m)
    (seqZ 1 11)
    && (before_month b 12 + in_month b 12 =? (if b then 366 else 365)))
    [true; false] = true.
Proof. vm_compute. reflexivity. Qed.

Lemma next_month_ordinal y m :
  1 ≤ m ≤ 12 →
  let '(y', m') := next_month y m in
  1 ≤ m' ≤ 12 ∧ ymd2ord y' m' 1 = ymd2ord y m 1 + days_in_month y m.
Proof.
  intros Hm. unfold next_month, ymd2ord.
  change (days_in_month y m) with (in_month (is_leap y) m).
  change (days_before_month ?yy ?mm) with (before_month (is_leap yy) mm).
  pose proof next_month_check as H. rewrite forallb_forall in H.
  assert (In (is_leap y) [true; false]) as Hb
      by (destruct (is_leap y); cbn; tauto).
  specialize (H _ Hb). rewrite andb_true_iff, Z.eqb_eq in H.
  destruct H as [H H12]. rewrite forallb_forall in H.
  destruct (Z.eqb_spec m 12) as [->|Hne].
  - split; [lia|]. rewrite days_before_year_succ. unfold year_length.
    change (before_month (is_leap (y + 1)) 1) with 0.
    destruct (is_leap y); lia.
  - split; [lia|].
    assert (In m (seqZ 1 11)) as Hin
        by (apply list_elem_of_In, elem_of_seqZ; lia).
    specialize (H m Hin). rewrite Z.eqb_eq in H. lia.
Qed.

Lemma days_in_month_range y m : 1 ≤ m ≤ 12 → 28 ≤ days_in_month y m ≤ 31.
Proof.
  intros Hm.
  assert (forallb (λ b, forallb (λ m, (28 <=? in_month b m)
                                      && (in_month b m <=? 31))
                          (seqZ 1 12)) [true; false] = true) as H
      by (vm_compute; reflexivity).
  rewrite forallb_forall in H.
  assert (In (is_leap y) [true; false]) as Hb
      by (destruct (is_leap y); cbn; tauto).
  specialize (H _ Hb). rewrite forallb_forall in H.
  assert (In m (seqZ 1 12)) as Hin
      by (apply list_elem_of_In, elem_of_seqZ; lia).
  specialize (H m Hin). rewrite andb_true_iff, !Z.leb_le in H.
  exact H.
Qed.

(** What [month_frame] computes, and when it fails. *)
Lemma month_frame_spec y m :
  month_frame y m
  = if decide (1 ≤ y ≤ 9999 ∧ 1 ≤ m ≤ 12)
    then if decide (y = 9999 ∧ m = 12) then Raise OverflowError
         else Ok (weekday (at_midnight y m 1), days_in_month y m)
    else Raise ValueError.
Proof.
  unfold month_frame, first_of_month.
  destruct (decide (1 ≤ y ≤ 9999 ∧ 1 ≤ m ≤ 12)) as [[Hy Hm]|Hout].
  2: { destruct (Z.leb_spec 1 y), (Z.leb_spec y 9999), (Z.leb_spec 1 m),
         (Z.leb_spec m 12); cbn [andb]; try done; lia. }
  destruct (Z.leb_spec 1 y), (Z.leb_spec y 9999), (Z.leb_spec 1 m),
    (Z.leb_spec m 12); try lia. cbn [andb mbind result_bind].
  pose proof (days_in_month_range y m Hm) as Hdim.
  assert (valid (at_midnight y m 1)) as Hv.
  { unfold valid, at_midnight. cbn. lia. }
  pose proof (next_month_ordinal y m Hm) as Hnext.
  destruct (next_month y m) as [y' m'] eqn:En. destruct Hnext as [Hm' Hnext].
  pose proof (days_in_month_range y' m' Hm') as Hdim'.
  assert (toordinal (at_midnight y m 1) = ymd2ord y m 1) as Hord by done.
  destruct (decide (y = 9999 ∧ m = 12)) as [[-> ->]|Hne].
  - rewrite plus_days_overflow; [done|]. rewrite Hord.
    change (ymd2ord 9999 12 1) with 3652029. unfold MAX_ORDINAL. lia.
  - (* the first day of the next month is within the calendar *)
    assert (ymd2ord y' m' 1 ≤ MAX_ORDINAL - 30) as Hfits.
    { pose proof (ymd2ord_order y' m' 1 9999 12 1 Hm' ltac:(lia)
                    ltac:(lia) ltac:(by vm_compute)) as Ho.
      change (ymd2ord 9999 12 1) with (MAX_ORDINAL - 30) in Ho.
      unfold Z.le. rewrite Ho. cbn [lex].
      unfold next_month in En.
      destruct (Z.eqb_spec m 12); injection En as <- <-.
      - destruct (Z.compare_spec (y + 1) 9999); [|done|lia].
        done.
      - destruct (Z.compare_spec y 9999); [|done|lia].
        destruct (Z.compare_spec (m + 1) 12); [done|done|lia]. }
    pose proof (toordinal_range _ Hv) as Hr1.
    destruct (plus_days_spec (at_midnight y m 1) 32 Hv) as (later & -> & Hvl & Hol).
    { rewrite Hord in *. lia. }
    cbn [mbind result_bind].
    (* the 33rd day from the first is in the next month *)
    assert ((year later, month later) = (y', m')) as Hlater.
    { destruct Hvl as (_ & Hml & Hdl & _).
      assert (ymd2ord (year later) (month later) (day later)
              = ymd2ord y' m' (33 - days_in_month y m)) as E.
      { fold (toordinal later). rewrite Hol, Hord.
        unfold ymd2ord in *. lia. }
      apply ymd2ord_inj in E; [by injection E as -> -> _|done..|lia]. }
    injection Hlater as Hyl Hml.
    assert (valid (replace_day later 1)) as Hvr.
    { destruct Hvl as (V1 & V2 & V3 & V4). unfold valid, replace_day. cbn.
      rewrite Hyl, Hml in *. split; [done|]. split; [done|]. split; [lia|done]. }
    assert (toordinal (replace_day later 1) = ymd2ord y' m' 1) as Hor
        by (unfold toordinal, replace_day; cbn; by rewrite Hyl, Hml).
    destruct (plus_days_spec (replace_day later 1) (-1) Hvr)
      as (last & -> & Hvlast & Holast).
    { rewrite Hor, Hnext. rewrite Hord in Hr1. lia. }
    cbn [mbind result_bind]. do 2 f_equal.
    destruct Hvlast as (_ & Hmla & Hdla & _).
    assert (ymd2ord (year last) (month last) (day last)
            = ymd2ord y m (days_in_month y m)) as E.
    { fold (toordinal last). rewrite Holast, Hor, Hnext.
      unfold ymd2ord. lia. }
    apply ymd2ord_inj in E; [by injection E as _ _ ->|done..|lia].
Qed.

(** ** The week starts on Monday *)

Lemma week_start_exists now :
  valid now → ∃ ws, plus_days now (- weekday now) = Ok ws.
Proof.
  intros Hv. pose proof (toordinal_range now Hv) as Hr.
  assert (1 ≤ toordinal now + - weekday now ≤ MAX_ORDINAL) as Hin.
  { unfold weekday in *. Z.div_mod_to_equations. lia. }
  destruct (plus_days_spec now (- weekday now) Hv Hin) as (ws & Hp & _).
  by exists ws.
Qed.

(** X9.  For a valid clock reading, [week] never fails on the date arithmetic;
    the day it counts from is a Monday, at most six days before today; and
    a row with a calendar date is counted exactly when it is completed and
    dated on or after that Monday.  No upper limit applies: completed rows
    dated after today are counted too. *)
Theorem week_counts_from_monday now st :
  valid now →
  ∃ week_start,
    plus_days now (- weekday now) = Ok week_start
    ∧ weekday week_start = 0
    ∧ toordinal now - 6 ≤ toordinal week_start ≤ toordinal now
    ∧ ∀ r d, Session.date r = strftime_ymd d → valid d →
        (r ∈ week_rows week_start (database st)
         ↔ r ∈ sessions (database st) ∧ Session.completed r = 1
           ∧ toordinal week_start ≤ toordinal d).
Proof.
  intros Hv. pose proof (toordinal_range now Hv) as Hr.
  assert (0 ≤ weekday now < 7) as Hw
      by (unfold weekday; apply Z.mod_pos_bound; lia).
  assert (1 ≤ toordinal now + - weekday now ≤ MAX_ORDINAL) as Hin.
  { unfold weekday in *. Z.div_mod_to_equations. lia. }
  destruct (plus_days_spec now (- weekday now) Hv Hin) as (ws & Hp & Hvw & Ho).
  exists ws. split; [exact Hp|]. split.
  { unfold weekday in *. rewrite Ho. Z.div_mod_to_equations. lia. }
  split; [lia|].
  intros r d Hd Hvd. unfold week_rows. rewrite list_elem_of_filter, Hd.
  rewrite (str_le_order ws d Hvw Hvd). tauto.
Qed.

Lemma week_counts_from_monday_witness :
  ∃ week_start,
    plus_days (now clock_1) (- weekday (now clock_1)) = Ok week_start
    ∧ weekday week_start = 0.
Proof.
  destruct (week_counts_from_monday (now clock_1) empty_state)
    as (ws & Hp & Hw & _).
  - apply (bool_decide_unpack _). vm_compute. exact I.
  - exists ws. split; [exact Hp|exact Hw].
Defined.

(** ** The month of the heatmap *)

Lemma grid_step_shape cell_of sw md week day acc :
  length (fst acc) = 6%nat ∧ Forall (λ row, length row = 7%nat) (fst acc) →
  length (fst (grid_step cell_of sw md week day acc)) = 6%nat
  ∧ Forall (λ row, length row = 7%nat)
      (fst (grid_step cell_of sw md week day acc)).
Proof.
  destruct acc as [g dn]. unfold grid_step. cbn [fst]. intros [Hl Hr].
  destruct (_ && _); [|done]. cbn [fst]. split.
  - by rewrite length_alter.
  - apply Forall_alter; [done|]. intros row _ Hrow.
    by rewrite length_insert.
Qed.

Lemma build_grid_shape cell_of sw md :
  length (build_grid cell_of sw md) = 6%nat
  ∧ Forall (λ row, length row = 7%nat) (build_grid cell_of sw md).
Proof.
  rewrite build_grid_flat.
  assert (length (fst (replicate 6 (replicate 7 Blank), 1)) = 6%nat
          ∧ Forall (λ row, length row = 7%nat)
              (fst (replicate 6 (replicate 7 Blank), 1))) as H0.
  { split; [reflexivity|]. cbn. repeat constructor. }
  revert H0. generalize (replicate 6 (replicate 7 Blank), 1).
  generalize (seq 0 42). intros l. induction l as [|i l IH]; intros acc H.
  - exact H.
  - cbn [foldl]. apply IH. by apply grid_step_shape.
Qed.

Lemma build_grid_blank cell_of sw md (j : nat) :
  0 ≤ sw → (j < 42)%nat →
  ¬ (sw ≤ Z.of_nat j < sw + md) →
  flat_get (build_grid cell_of sw md) j = Some Blank.
Proof.
  intros Hsw Hj Hout. rewrite build_grid_flat.
  pose proof (grid_fold_invariant cell_of sw md 42 Hsw (le_n 42)) as H.
  cbv zeta in H. revert H.
  generalize (foldl (λ acc i, grid_step cell_of sw md
                                (i `div` 7)%nat (i `mod` 7)%nat acc)
                (replicate 6 (replicate 7 Blank), 1) (seq 0 42)).
  intros acc [_ Hg]. rewrite Hg by done. unfold expected.
  rewrite decide_False; [done|lia].
Qed.


(** X13.  The grid that [heatmap] prints has six rows of seven cells, and every
    position before the first day of the month or after its last day holds
    the blank marker. *)
Theorem heatmap_grid_shape now year month st rep (j : nat) :
  cmd_heatmap now year month st = Ok rep →
  let y := Py.or_else Py.truthy_int year (Datetime.year now) in
  let m := Py.or_else Py.truthy_int month (Datetime.month now) in
  let first := weekday (at_midnight y m 1) in
  length (grid rep) = 6%nat
  ∧ Forall (λ row, length row = 7%nat) (grid rep)
  ∧ first + days_in_month y m ≤ 37
  ∧ ((j < 42)%nat →
     ¬ (first ≤ Z.of_nat j < first + days_in_month y m) →
     flat_get (grid rep) j = Some Blank).
Proof.
  intros H y m first. unfold cmd_heatmap in H. fold y m in H.
  destruct (read_daily_goal (database st)) as [g|e]; [|done].
  cbn [mbind result_bind] in H. rewrite month_frame_spec in H.
  destruct (decide (1 ≤ y ≤ 9999 ∧ 1 ≤ m ≤ 12)) as [[Hy Hm]|Hout]; [|done].
  destruct (decide (y = 9999 ∧ m = 12)); [done|].
  cbn [mbind result_bind] in H. fold first in H. injection H as <-.
  cbn [grid].
  pose proof (days_in_month_range y m Hm) as Hdim.
  assert (0 ≤ first < 7) as Hw
      by (unfold first, weekday; apply Z.mod_pos_bound; lia).
  set (cell_of := λ day_num, day_cell _ _ _).
  destruct (build_grid_shape cell_of first (days_in_month y m)) as [Hl Hr].
  split; [exact Hl|]. split; [exact Hr|]. split; [lia|].
  intros Hj Hout. apply build_grid_blank; [lia|done|done].
Qed.

Lemma heatmap_grid_shape_witness :
  length (grid sample_heatmap) = 6%nat.
Proof.
  apply (heatmap_grid_shape (now clock_1) (Some 2024) (Some 3)
           (run goal_three_one_done) sample_heatmap 0).
  vm_compute. reflexivity.
Defined.

(** ** The lines of the week *)

Lemma or_else_int_default o : Py.or_else Py.truthy_int o 0 = default 0 o.
Proof.
  destruct o as [z|]; [|done]. cbn. unfold Py.truthy_int.
  by destruct (Z.eqb_spec z 0) as [->|].
Qed.

Lemma sql_sum_default (l : list Session.row) :
  default 0 (sql_sum (Session.actual_duration <$> l)) = minutes_sum l.
Proof.
  unfold sql_sum.
  assert (∀ acc, default 0
            (foldl (λ acc v, match v with
                             | Some z => Some (default 0 acc + z)
                             | None => acc
                             end) acc (Session.actual_duration <$> l))
          = default 0 acc + minutes_sum l) as H.
  { induction l as [|r l IH]; intros acc; [cbn; lia|].
    rewrite fmap_cons. cbn [foldl]. rewrite IH.
    unfold minutes_sum. cbn [foldr].
    destruct (Session.actual_duration r); unfold default; cbn [from_option id]; lia. }
  rewrite H. cbn. lia.
Qed.

Lemma minutes_sum_cons r l :
  minutes_sum (r :: l) = default 0 (Session.actual_duration r) + minutes_sum l.
Proof. done. Qed.

Lemma minutes_by_date (ks : list string) (l : list Session.row) :
  NoDup ks → (∀ r, r ∈ l → Session.date r ∈ ks) →
  sumZ ((λ k, minutes_sum (filter (λ r, Session.date r = k) l)) <$> ks)
  = minutes_sum l.
Proof.
  intros Hnd. induction l as [|x l IH]; intros Hin.
  - clear. induction ks as [|k ks IHk]; [done|].
    rewrite fmap_cons, sumZ_cons, IHk. done.
  - assert (∀ c, sumZ ((λ k, if decide (Session.date x = k) then c else 0)
                         <$> ks) = c) as Hind.
    { intros c. assert (Session.date x ∈ ks) as Hx by (apply Hin; by left).
      revert Hx. generalize (Session.date x). clear -Hnd. intros d Hx.
      induction Hnd as [|k ks Hk Hnd IHk].
      - by destruct (not_elem_of_nil d).
      - rewrite fmap_cons, sumZ_cons.
        apply elem_of_cons in Hx as [->|Hx].
        + rewrite decide_True by done.
          assert (sumZ ((λ k0, if decide (k = k0) then c else 0) <$> ks) = 0)
            as ->; [|lia].
          clear -Hk. induction ks as [|k' ks IH]; [done|].
          apply not_elem_of_cons in Hk as [Hne Hk].
          by rewrite fmap_cons, sumZ_cons, decide_False, IH.
        + rewrite decide_False by (intros ->; done). by rewrite IHk. }
    assert (sumZ ((λ k, minutes_sum (filter (λ r, Session.date r = k)
                                       (x :: l))) <$> ks)
            = sumZ ((λ k, if decide (Session.date x = k)
                          then default 0 (Session.actual_duration x) else 0)
                      <$> ks)
              + sumZ ((λ k, minutes_sum (filter (λ r, Session.date r = k) l))
                        <$> ks)) as ->.
    { clear. induction ks as [|k ks IHk]; [done|].
      rewrite !fmap_cons, !sumZ_cons, IHk, filter_cons.
      destruct (decide (Session.date x = k));
        [rewrite minutes_sum_cons|]; lia. }
    rewrite Hind, IH, minutes_sum_cons; [done|].
    intros y Hy. apply Hin. by right.
Qed.

(** The line that [week] prints for one row of its query. *)
Lemma week_loop_spec g rows tp tm lines :
  week_loop g rows tp tm lines
  = if decide (g = 0 ∧ rows ≠ []) then Raise ZeroDivisionError
    else Ok (tp + sumZ ((λ row, snd (fst row)) <$> rows),
             tm + sumZ ((λ row, default 0 (snd row)) <$> rows),
             lines ++
             ((λ row, mk_week_line (fst (fst row)) (snd (fst row))
                        (default 0 (snd row))
                        (bar 10 (Py.int_of_float
                                   (inject_Z 10
                                    * Qmin (Py.truediv (snd (fst row)) g) 1)%Q)))
                <$> rows)).
Proof.
  revert tp tm lines.
  induction rows as [|[[date count] minutes] rows IH]; intros tp tm lines.
  - cbn [week_loop]. rewrite decide_False by (intros [_ ?]; done).
    rewrite !fmap_nil, app_nil_r. unfold sumZ. cbn [foldr].
    by rewrite !Z.add_0_r.
  - cbn [week_loop]. unfold progress.
    destruct (Z.eqb_spec g 0) as [->|Hg].
    + cbn [mbind result_bind]. by rewrite decide_True.
    + cbn [mbind result_bind]. rewrite IH.
      rewrite decide_False by (intros [? _]; done).
      rewrite decide_False by (intros [? _]; done).
      rewrite !fmap_cons, !sumZ_cons, <- app_assoc. cbn [fst snd app].
      rewrite or_else_int_default. do 3 f_equal; lia.
Qed.

Lemma group_by_date_keys l :
  (λ row, fst (fst row)) <$> group_by_date l
  = merge_sort str_le (remove_dups (Session.date <$> l)).
Proof.
  unfold group_by_date. rewrite <- list_fmap_compose.
  apply list_fmap_id.
Qed.

Lemma read_daily_goal_raise d e :
  read_daily_goal d = Raise e → e = ValueError.
Proof.
  unfold read_daily_goal.
  destruct (config d !! "daily_goal") as [v|]; [|done].
  destruct (Py.int_of_str v); [done|]. by intros [= <-].
Qed.



(** X11.  The lines of the weekly report: one for each date that has a completed
    session in the week, in ascending order of the date text; the line's
    count is the number of those sessions and its minutes are the sum of
    their durations; the week's minutes are the sum over all of them. *)
Theorem week_lines_by_date now st t :
  cmd_week now st = Ok (WeekTotals t) →
  ∃ week_start,
    plus_days now (- weekday now) = Ok week_start
    ∧ let rows := week_rows week_start (database st) in
      week_minutes t = minutes_sum rows
      ∧ StronglySorted str_le (line_date <$> week_lines t)
      ∧ NoDup (line_date <$> week_lines t)
      ∧ (∀ r, r ∈ rows → Session.date r ∈ (line_date <$> week_lines t))
      ∧ ∀ line, line ∈ week_lines t →
          let of_day :=
            filter (λ r, Session.date r = line_date line) rows in
          of_day ≠ []
          ∧ line_count line = Z.of_nat (length of_day)
          ∧ line_minutes line = minutes_sum of_day.
Proof.
  unfold cmd_week. intros H.
  destruct (plus_days now (- weekday now)) as [ws|e]; [|done].
  cbn [mbind result_bind] in H. exists ws. split; [done|]. cbv zeta.
  destruct (read_daily_goal (database st)) as [g|e]; [|done].
  cbn [mbind result_bind] in H.
  set (rows := week_rows ws (database st)) in *.
  pose proof (group_by_date_keys rows) as Hkeys.
  assert (merge_sort str_le (remove_dups (Session.date <$> rows))
          ≡ₚ remove_dups (Session.date <$> rows)) as Hperm
      by apply merge_sort_Permutation.
  destruct (group_by_date rows) as [|row0 rest] eqn:E; [done|].
  cbv beta iota in H. rewrite <- E in H, Hkeys. clear E row0 rest.
  rewrite week_loop_spec in H.
  destruct (decide (g = 0 ∧ group_by_date rows ≠ [])); [done|].
  cbn [mbind result_bind] in H. injection H as <-.
  cbn [week_minutes week_lines].
  rewrite <- list_fmap_compose.
  assert (line_date ∘ (λ row : string * Z * option Z,
            mk_week_line (fst (fst row)) (snd (fst row)) (default 0 (snd row))
              (bar 10 (Py.int_of_float
                         (inject_Z 10
                          * Qmin (Py.truediv (snd (fst row)) g) 1)%Q)))
          = λ row, fst (fst row)) as -> by done.
  rewrite Hkeys.
  split; [|split; [|split; [|split]]].
  - rewrite Z.add_0_l. unfold group_by_date. rewrite <- list_fmap_compose.
    erewrite list_fmap_ext;
      [apply (minutes_by_date
                (merge_sort str_le (remove_dups (Session.date <$> rows))))|..].
    + rewrite Hperm. apply NoDup_remove_dups.
    + intros r Hr. rewrite Hperm. apply elem_of_remove_dups.
      by apply list_elem_of_fmap_2.
    + intros i k _. cbn. apply sql_sum_default.
  - apply StronglySorted_merge_sort; apply _.
  - rewrite Hperm. apply NoDup_remove_dups.
  - intros r Hr. rewrite Hperm. apply elem_of_remove_dups.
    by apply list_elem_of_fmap_2.
  - intros line Hline.
    apply list_elem_of_fmap in Hline as (row & -> & Hrow).
    unfold group_by_date in Hrow.
    apply list_elem_of_fmap in Hrow as (k & -> & Hk).
    cbn [line_date line_count line_minutes fst snd].
    split; [|split; [done|apply sql_sum_default]].
    rewrite Hperm, elem_of_remove_dups in Hk.
    apply list_elem_of_fmap in Hk as (r & -> & Hr).
    intros Hnil.
    assert (r ∈ filter (λ r0, Session.date r0 = Session.date r) rows) as Hin
        by (by apply list_elem_of_filter).
    rewrite Hnil in Hin. by destruct (not_elem_of_nil r).
Qed.

Lemma week_lines_by_date_witness :
  ∃ week_start,
    plus_days (now clock_3) (- weekday (now clock_3)) = Ok week_start
    ∧ 30 = minutes_sum (week_rows week_start
                          (database (run goal_three_one_done))).
Proof.
  destruct (week_lines_by_date (now clock_3) (run goal_three_one_done)
              (mk_week_totals
                 [mk_week_line "2024-03-15" 1 30 (bar 10 3)] 1 30
                 (inject_Z 1 / inject_Z 7)%Q))
    as (ws & Hp & Hm & _).
  - vm_compute. reflexivity.
  - exists ws. split; [exact Hp|exact Hm].
Defined.

(** ** What is stored is kept *)

Lemma continues_refl r : continues r r.
Proof. by repeat split. Qed.

Lemma continues_trans r1 r2 r3 :
  continues r1 r2 → continues r2 r3 → continues r1 r3.
Proof.
  intros (A1 & A2 & A3 & A4 & A5 & A6) (B1 & B2 & B3 & B4 & B5 & B6).
  unfold continues.
  rewrite B1, B2, B3, B4, B5, A1, A2, A3, A4, A5.
  repeat split. intros Hend. rewrite <- (A6 Hend). apply B6.
  by rewrite (A6 Hend).
Qed.

Lemma Forall2_continues_refl l : Forall2 continues l l.
Proof. induction l; constructor; [apply continues_refl|done]. Qed.

Lemma Forall2_continues_trans l1 l2 l3 :
  Forall2 continues l1 l2 → Forall2 continues l2 l3 →
  Forall2 continues l1 l3.
Proof.
  intros H. revert l3. induction H as [|r1 r2 l1 l2 Hr Hl IH]; intros l3 H3.
  - by inversion H3.
  - inversion H3 as [|? r3 ? l3' Hr3 Hl3]; subst.
    constructor; [by eapply continues_trans|by apply IH].
Qed.

(** An update of the rows that the marker names touches open rows only. *)
Lemma update_continues k f l :
  (∀ r, r ∈ l → Session.id r = k → Session.end_time r = None) →
  (∀ r, Session.id (f r) = Session.id r
        ∧ Session.start_time (f r) = Session.start_time r
        ∧ Session.planned_duration (f r) = Session.planned_duration r
        ∧ Session.task_id (f r) = Session.task_id r
        ∧ Session.date (f r) = Session.date r) →
  Forall2 continues l (update_session k f l).
Proof.
  intros Hopen Hf. unfold update_session.
  induction l as [|r l IH]; [constructor|].
  rewrite fmap_cons. constructor.
  - destruct (decide (Session.id r = k)) as [Hid|_]; [|apply continues_refl].
    destruct (Hf r) as (F1 & F2 & F3 & F4 & F5).
    repeat split; try done. intros Hend.
    destruct Hend. apply Hopen; [by left|done].
  - apply IH. intros r' Hr'. apply Hopen. by right.
Qed.

Lemma complete_continues now st :
  shaped st →
  Forall2 continues (sessions (database st))
    (sessions (database (fst (cmd_complete now st)))).
Proof.
  intros [_ Hmk]. unfold cmd_complete.
  destruct (marker st) as [m|] eqn:Hm; [|apply Forall2_continues_refl].
  cbn. apply update_continues; [|by intros r].
  intros r Hr Hid. by destruct (Hmk m r eq_refl Hr Hid).
Qed.

Lemma interrupt_continues now reason st :
  shaped st →
  Forall2 continues (sessions (database st))
    (sessions (database (fst (cmd_interrupt now reason st)))).
Proof.
  intros [_ Hmk]. unfold cmd_interrupt.
  destruct (marker st) as [m|] eqn:Hm; [|apply Forall2_continues_refl].
  cbn. apply update_continues; [|by intros r].
  intros r Hr Hid. by destruct (Hmk m r eq_refl Hr Hid).
Qed.

Lemma main_continues clk c st :
  shaped st →
  ∃ kept added,
    sessions (database (main clk c st)) = kept ++ added
    ∧ Forall2 continues (sessions (database st)) kept.
Proof.
  intros Hst. unfold main.
  set (st0 := mk_state (init_db (database st)) (marker st)).
  assert (shaped st0) as H0 by done.
  assert (sessions (database st0) = sessions (database st)) as <- by done.
  clearbody st0.
  assert (∃ kept added,
             sessions (database st0) = kept ++ added
             ∧ Forall2 continues (sessions (database st0)) kept) as Hsame.
  { exists (sessions (database st0)), []. rewrite app_nil_r.
    split; [done|apply Forall2_continues_refl]. }
  destruct c; try exact Hsame.
  - destruct (cmd_start clk task duration st0) as [[st' out]|e] eqn:E;
      [|exact Hsame].
    apply cmd_start_ok in E as (st1 & Hs & E).
    pose proof (shaped_start_session _ _ _ _ _ H0 Hs) as H1.
    apply start_session_ok in Hs as (tid & tasks' & _ & Hse & _).
    destruct (timed duration).
    + destruct E as (-> & _).
      pose proof (complete_continues (now_after clk) st1 H1) as Hc.
      rewrite Hse in Hc. apply Forall2_app_inv_l in Hc
        as (kept & added & Hk & _ & Heq).
      by exists kept, added.
    + destruct E as (-> & _). rewrite Hse.
      eexists _, _. split; [done|apply Forall2_continues_refl].
  - exists (sessions (database (fst (cmd_complete (now clk) st0)))), [].
    rewrite app_nil_r. split; [done|by apply complete_continues].
  - exists (sessions (database (fst (cmd_interrupt (now clk) reason st0)))), [].
    rewrite app_nil_r. split; [done|by apply interrupt_continues].
  - destruct (cmd_task_add clk name st0) as [[st' out]|e] eqn:E;
      [|exact Hsame].
    unfold cmd_task_add in E. destruct (negb _).
    + by injection E as <- _.
    + destruct (insert_task _ _); [|done]. cbn in E. by injection E as <- _.
  - unfold cmd_config. destruct value as [v|]; [|exact Hsame].
    destruct (Py.truthy_str v); exact Hsame.
Qed.

Lemma run_from_continues st tr :
  shaped st →
  ∃ kept added,
    sessions (database (run_from st tr)) = kept ++ added
    ∧ Forall2 continues (sessions (database st)) kept.
Proof.
  revert st. induction tr as [|[clk c] tr IH]; intros st Hst.
  - exists (sessions (database st)), []. rewrite app_nil_r.
    split; [done|apply Forall2_continues_refl].
  - cbn. destruct (main_continues clk c st Hst) as (k1 & a1 & E1 & F1).
    destruct (IH (main clk c st) (shaped_main _ _ _ Hst))
      as (k2 & a2 & E2 & F2).
    rewrite E1 in F2. apply Forall2_app_inv_l in F2
      as (k2a & k2b & Fa & _ & ->).
    exists k2a, (k2b ++ a2). rewrite app_assoc. split; [done|].
    by eapply Forall2_continues_trans.
Qed.


Lemma task_continues_refl t : task_continues t t.
Proof. unfold task_continues. split; [done|]. split; [done|lia]. Qed.

Lemma task_continues_trans t1 t2 t3 :
  task_continues t1 t2 → task_continues t2 t3 → task_continues t1 t3.
Proof.
  intros (A1 & A2 & A3) (B1 & B2 & B3). unfold task_continues.
  rewrite B1, B2, A1, A2. split; [done|]. split; [done|lia].
Qed.

Lemma Forall2_task_continues_refl l : Forall2 task_continues l l.
Proof. induction l; constructor; [apply task_continues_refl|done]. Qed.

Lemma Forall2_task_continues_trans l1 l2 l3 :
  Forall2 task_continues l1 l2 → Forall2 task_continues l2 l3 →
  Forall2 task_continues l1 l3.
Proof.
  intros H. revert l3. induction H as [|r1 r2 l1 l2 Hr Hl IH]; intros l3 H3.
  - by inversion H3.
  - inversion H3 as [|? r3 ? l3' Hr3 Hl3]; subst.
    constructor; [by eapply task_continues_trans|by apply IH].
Qed.

Lemma credit_continues k d l :
  Forall2 task_continues l (update_task k (credit_task d) l).
Proof.
  unfold update_task. induction l as [|t l IH]; [constructor|].
  rewrite fmap_cons. constructor; [|done].
  destruct (decide (Task.id t = k)); [|apply task_continues_refl].
  unfold task_continues, credit_task. cbn. split; [done|]. split; [done|lia].
Qed.

Lemma complete_task_continues now st :
  Forall2 task_continues (tasks (database st))
    (tasks (database (fst (cmd_complete now st)))).
Proof.
  unfold cmd_complete.
  destruct (marker st) as [m|]; [|apply Forall2_task_continues_refl]. cbn.
  destruct (Marker.task_id m) as [tid|]; [|apply Forall2_task_continues_refl].
  destruct (Py.truthy_str tid); [|apply Forall2_task_continues_refl].
  apply credit_continues.
Qed.

Lemma start_session_tasks clk task duration st st1 :
  start_session clk task duration st = Ok st1 →
  ∃ added, tasks (database st1) = tasks (database st) ++ added.
Proof.
  intros H. apply start_session_task in H as (tid & _ & _ & H).
  destruct (Py.truthy_opt Py.truthy_str task).
  - destruct (select_task_id _ _).
    + destruct H as [_ ->]. exists []. by rewrite app_nil_r.
    + destruct H as (_ & _ & ->). by eexists.
  - destruct H as [_ ->]. exists []. by rewrite app_nil_r.
Qed.

Lemma main_task_continues clk c st :
  ∃ kept added,
    tasks (database (main clk c st)) = kept ++ added
    ∧ Forall2 task_continues (tasks (database st)) kept.
Proof.
  unfold main.
  set (st0 := mk_state (init_db (database st)) (marker st)).
  assert (tasks (database st0) = tasks (database st)) as <- by done.
  clearbody st0.
  assert (∃ kept added,
             tasks (database st0) = kept ++ added
             ∧ Forall2 task_continues (tasks (database st0)) kept) as Hsame.
  { exists (tasks (database st0)), []. rewrite app_nil_r.
    split; [done|apply Forall2_task_continues_refl]. }
  destruct c; try exact Hsame.
  - destruct (cmd_start clk task duration st0) as [[st' out]|e] eqn:E;
      [|exact Hsame].
    apply cmd_start_ok in E as (st1 & Hs & E).
    apply start_session_tasks in Hs as (added & Hs).
    destruct (timed duration).
    + destruct E as (-> & _).
      pose proof (complete_task_continues (now_after clk) st1) as Hc.
      rewrite Hs in Hc. apply Forall2_app_inv_l in Hc
        as (kept & added' & Hk & _ & Heq).
      by exists kept, added'.
    + destruct E as (-> & _). rewrite Hs.
      eexists _, _. split; [done|apply Forall2_task_continues_refl].
  - exists (tasks (database (fst (cmd_complete (now clk) st0)))), [].
    rewrite app_nil_r. split; [done|apply complete_task_continues].
  - unfold cmd_interrupt. destruct (marker st0); exact Hsame.
  - destruct (cmd_task_add clk name st0) as [[st' out]|e] eqn:E;
      [|exact Hsame].
    unfold cmd_task_add in E. destruct (negb _).
    + by injection E as <- _.
    + unfold insert_task in E. destruct (decide _); [done|].
      cbn in E. injection E as <- _. cbn.
      eexists _, _. split; [done|apply Forall2_task_continues_refl].
  - unfold cmd_config. destruct value as [v|]; [|exact Hsame].
    destruct (Py.truthy_str v); exact Hsame.
Qed.

(** X15.  No invocation deletes, renames or reorders tasks: after further
    invocations the tasks table starts with the tasks it had, each with its
    id and name and with no fewer completed pomodoros, and new tasks come
    after them. *)
Theorem tasks_are_kept (st : state) (tr : list (clock * command)) :
  ∃ kept added,
    tasks (database (run_from st tr)) = kept ++ added
    ∧ Forall2 task_continues (tasks (database st)) kept.
Proof.
  revert st. induction tr as [|[clk c] tr IH]; intros st.
  - exists (tasks (database st)), []. rewrite app_nil_r.
    split; [done|apply Forall2_task_continues_refl].
  - cbn. destruct (main_task_continues clk c st) as (k1 & a1 & E1 & F1).
    destruct (IH (main clk c st)) as (k2 & a2 & E2 & F2).
    rewrite E1 in F2. apply Forall2_app_inv_l in F2
      as (k2a & k2b & Fa & _ & ->).
    exists k2a, (k2b ++ a2). rewrite app_assoc. split; [done|].
    by eapply Forall2_task_continues_trans.
Qed.

(** ** The stored goal *)

Lemma complete_config now st :
  config (database (fst (cmd_complete now st))) = config (database st).
Proof. unfold cmd_complete. by destruct (marker st). Qed.

Lemma main_config clk c st :
  config (database (main clk c st))
  = <["daily_goal" :=
        goal_after (default "8" (config (database st) !! "daily_goal"))
          [(clk, c)]]> (config (database st)).
Proof.
  unfold main, goal_after. cbn [foldl].
  set (g := default "8" (config (database st) !! "daily_goal")).
  set (st0 := mk_state (init_db (database st)) (marker st)).
  assert (config (database st0)
          = <["daily_goal" := g]> (config (database st))) as H0.
  { subst st0 g. cbn. destruct (config (database st) !! "daily_goal") eqn:E.
    - cbn. by rewrite insert_id.
    - done. }
  clearbody st0.
  destruct c; try exact H0.
  - destruct (cmd_start clk task duration st0) as [[st' out]|e] eqn:E;
      [|exact H0].
    apply cmd_start_ok in E as (st1 & Hs & E).
    apply start_session_ok in Hs as (tid & tasks' & _ & _ & _ & Hc & _).
    destruct (timed duration); destruct E as (-> & _).
    + by rewrite complete_config, Hc.
    + by rewrite Hc.
  - by rewrite complete_config.
  - unfold cmd_interrupt. by destruct (marker st0).
  - destruct (cmd_task_add clk name st0) as [[st' out]|e] eqn:E;
      [|exact H0].
    unfold cmd_task_add in E. destruct (negb _).
    + by injection E as <- _.
    + destruct (insert_task _ _); [|done]. cbn in E. by injection E as <- _.
  - unfold cmd_config. destruct value as [v|]; [|exact H0].
    destruct (Py.truthy_str v); [|exact H0].
    cbn. by rewrite H0, insert_insert_eq.
Qed.


(** ** What today's report accounts for *)

Lemma filter_agree {A} (P Q : A → Prop) `{∀ x, Decision (P x)}
      `{∀ x, Decision (Q x)} (l : list A) :
  (∀ x, x ∈ l → P x ↔ Q x) → filter P l = filter Q l.
Proof.
  induction l as [|x l IH]; intros Hl; [done|].
  rewrite !filter_cons.
  assert (filter P l = filter Q l) as ->
      by (apply IH; intros y Hy; apply Hl; by right).
  destruct (decide (P x)) as [Hp|Hp], (decide (Q x)) as [Hq|Hq]; try done.
  - destruct Hq. apply Hl; [by left|done].
  - destruct Hp. apply Hl; [by left|done].
Qed.

Lemma row_shape_flags r :
  row_shape r →
  (Session.completed r = 1 → Session.end_time r ≠ None)
  ∧ (Session.completed r = 0 →
     (Session.interruption_reason r ≠ None ↔ Session.end_time r ≠ None))
  ∧ (Session.completed r = 0 ∨ Session.completed r = 1).
Proof.
  intros (_ & _ & [Ho|[Hc|Hi]]).
  - destruct Ho as (He & _ & Hf & Hw). rewrite He, Hf, Hw.
    split; [done|]. split; [done|by left].
  - destruct Hc as ([e He] & _ & Hf & Hw). rewrite He, Hf, Hw.
    split; [done|]. split; [done|by right].
  - destruct Hi as ([e He] & _ & Hf & (w & Hw & _)). rewrite He, Hf, Hw.
    split; [done|]. split; [done|by left].
Qed.

Lemma finished_split (l : list Session.row) :
  (∀ r, r ∈ l → row_shape r) →
  Z.of_nat (length (filter (λ r, Session.completed r = 1) l))
  + Z.of_nat (length (filter (λ r, Session.completed r = 0
                                   ∧ Session.end_time r ≠ None) l))
  = Z.of_nat (length (filter (λ r, Session.end_time r ≠ None) l)).
Proof.
  induction l as [|r l IH]; intros Hl; [done|].
  rewrite !filter_cons.
  destruct (row_shape_flags r (Hl r ltac:(by left))) as (H1 & H0 & Hf).
  specialize (IH (λ x Hx, Hl x ltac:(by right))).
  destruct (decide (Session.completed r = 1)) as [E1|E1],
    (decide (Session.completed r = 0 ∧ Session.end_time r ≠ None))
      as [[E0 Ee]|E0],
    (decide (Session.end_time r ≠ None)) as [Ee'|Ee'];
    cbn [length]; try lia; tauto.
Qed.



(** ** Export keeps every field *)

Lemma json_opt_str_inj a b : json_opt JStr a = json_opt JStr b → a = b.
Proof. destruct a, b; cbn; congruence. Qed.

Lemma json_opt_int_inj a b : json_opt JInt a = json_opt JInt b → a = b.
Proof. destruct a, b; cbn; congruence. Qed.

Lemma export_record_inj r1 r2 :
  (Session.completed r1 = 0 ∨ Session.completed r1 = 1) →
  (Session.completed r2 = 0 ∨ Session.completed r2 = 1) →
  export_record r1 = export_record r2 → r1 = r2.
Proof.
  intros H1 H2 E. destruct r1, r2. unfold export_record in E. cbn in *.
  injection E as E1 E2 E3 E4 E5 E6 E7 E8 E9.
  apply json_opt_str_inj in E3, E7, E8. apply json_opt_int_inj in E5.
  subst. f_equal. destruct H1 as [->| ->], H2 as [->| ->]; done.
Qed.


(** ** Decimal texts *)

Lemma digit_val_digit d : 0 ≤ d ≤ 9 → Py.digit_val (Py.digit d) = Some d.
Proof.
  intros Hd.
  assert (d = 0 ∨ d = 1 ∨ d = 2 ∨ d = 3 ∨ d = 4 ∨ d = 5 ∨ d = 6 ∨ d = 7
          ∨ d = 8 ∨ d = 9) as H by lia.
  repeat destruct H as [->|H]; try reflexivity. by subst.
Qed.

Lemma digit_plain d :
  0 ≤ d ≤ 9 →
  Py.is_space (Py.digit d) = false
  ∧ Py.digit d ≠ "-"%char ∧ Py.digit d ≠ "+"%char.
Proof.
  intros Hd.
  assert (d = 0 ∨ d = 1 ∨ d = 2 ∨ d = 3 ∨ d = 4 ∨ d = 5 ∨ d = 6 ∨ d = 7
          ∨ d = 8 ∨ d = 9) as H by lia.
  repeat destruct H as [->|H]; try (by subst); by repeat split.
Qed.

Lemma append_cons c a b : String c a +:+ b = String c (a +:+ b).
Proof. done. Qed.

Lemma append_nil_l b : "" +:+ b = b.
Proof. done. Qed.

(** Reading the digits that [decimal] has written gives the number back. *)
Lemma decimal_read fuel :
  ∀ n rest, 0 ≤ n < 10 ^ Z.of_nat fuel →
    ∃ k : nat, ∀ acc,
      Py.int_digits (Py.decimal fuel n +:+ rest) acc false
      = Py.int_digits rest (acc * 10 ^ Z.of_nat k + n) false.
Proof.
  induction fuel as [|f IH]; intros n rest Hn.
  { change (10 ^ Z.of_nat 0) with 1 in Hn. exists 0%nat. intros acc.
    cbn [Py.decimal]. rewrite append_nil_l. f_equal.
    change (10 ^ Z.of_nat 0) with 1. lia. }
  cbn [Py.decimal].
  assert (0 ≤ n mod 10 ≤ 9) as Hd by (Z.div_mod_to_equations; lia).
  destruct (Z.ltb_spec n 10) as [Hlt|Hge].
  - exists 1%nat. intros acc.
    rewrite append_nil_l, append_cons, append_nil_l.
    cbn [Py.int_digits]. rewrite digit_val_digit by done.
    rewrite Z.mod_small by lia. f_equal.
    change (10 ^ Z.of_nat 1) with 10. lia.
  - rewrite Nat2Z.inj_succ, Z.pow_succ_r in Hn by lia.
    destruct (IH (n / 10) (String (Py.digit (n mod 10)) rest)) as (k & Hk).
    { Z.div_mod_to_equations. lia. }
    exists (S k). intros acc.
    rewrite append_assoc, append_cons, append_nil_l, Hk.
    cbn [Py.int_digits]. rewrite digit_val_digit by done. f_equal.
    rewrite Nat2Z.inj_succ, Z.pow_succ_r by lia.
    pose proof (Z.div_mod n 10 ltac:(lia)) as E.
    set (q := n / 10) in *. set (m := n mod 10) in *. clearbody q m.
    rewrite E. ring.
Qed.

Lemma decimal_first fuel :
  ∀ n, 0 ≤ n < 10 ^ Z.of_nat fuel → (0 < fuel)%nat →
    ∃ d r, 0 ≤ d ≤ 9 ∧ Py.decimal fuel n = String (Py.digit d) r.
Proof.
  induction fuel as [|f IH]; intros n Hn Hfuel; [lia|].
  cbn [Py.decimal].
  destruct (Z.ltb_spec n 10) as [Hlt|Hge].
  - exists n, "". split; [lia|]. by rewrite Z.mod_small by lia.
  - rewrite Nat2Z.inj_succ, Z.pow_succ_r in Hn by lia.
    destruct (IH (n / 10)) as (d & r & Hd & ->).
    { Z.div_mod_to_equations. lia. }
    { destruct f; [|lia]. change (10 ^ Z.of_nat 0) with 1 in Hn. lia. }
    exists d, (r +:+ String (Py.digit (n mod 10)) ""). by split.
Qed.

Lemma decimal_last fuel n :
  ∃ a d, 0 ≤ d ≤ 9 ∧ Py.decimal (S fuel) n = a +:+ String (Py.digit d) "".
Proof.
  cbn [Py.decimal]. eexists _, (n mod 10). split; [|reflexivity].
  Z.div_mod_to_equations. lia.
Qed.

Lemma digits_fuel n : 0 ≤ n → n < 10 ^ Z.of_nat (S (Z.to_nat (Z.log2 n))).
Proof.
  intros Hn. rewrite Nat2Z.inj_succ, Z2Nat.id by apply Z.log2_nonneg.
  destruct (Z.eq_dec n 0) as [->|Hne]; [done|].
  pose proof (Z.log2_spec n ltac:(lia)) as [_ Hlt].
  pose proof (Z.log2_nonneg n) as Hl.
  eapply Z.lt_le_trans; [exact Hlt|].
  apply Z.pow_le_mono_l. lia.
Qed.

Lemma rstrip_plain a c :
  Py.is_space c = false →
  Py.rstrip (a +:+ String c "") = a +:+ String c "".
Proof.
  intros Hc. induction a as [|x a IH].
  - rewrite append_nil_l. cbn [Py.rstrip]. by rewrite Hc.
  - rewrite append_cons. cbn [Py.rstrip]. rewrite IH.
    destruct a; reflexivity.
Qed.

(** [int(str(z)) == z] *)
Lemma int_of_str_str z : Py.int_of_str (Py.str z) = Some z.
Proof.
  assert (∀ n, 0 ≤ n →
            Py.rstrip (Py.digits n) = Py.digits n
            ∧ Py.int_unsigned (Py.digits n) = Some n
            ∧ ∃ d r, 0 ≤ d ≤ 9 ∧ Py.digits n = String (Py.digit d) r) as H.
  { intros n Hn. unfold Py.digits.
    pose proof (digits_fuel n Hn) as Hf.
    destruct (decimal_last (Z.to_nat (Z.log2 n)) n) as (a & d & Hd & Hl).
    destruct (decimal_first _ n (conj Hn Hf) ltac:(lia)) as (d1 & r & Hd1 & H1).
    destruct (decimal_read _ n "" (conj Hn Hf)) as (k & Hk).
    split; [|split].
    - rewrite Hl. apply rstrip_plain. by destruct (digit_plain d Hd).
    - specialize (Hk 0).
      assert (∀ s, s +:+ "" = s) as Hnil
          by (induction s as [|? ? IHs]; [done|by rewrite append_cons, IHs]).
      rewrite Hnil in Hk. rewrite H1 in *. cbn [Py.int_unsigned].
      cbn [Py.int_digits] in Hk. rewrite digit_val_digit in * by done.
      replace (10 * 0 + d1) with d1 in Hk by lia.
      replace (0 * 10 ^ Z.of_nat k + n) with n in Hk by lia.
      exact Hk.
    - by exists d1, r. }
  unfold Py.int_of_str, Py.str.
  destruct (Z.ltb_spec z 0) as [Hneg|Hpos].
  - destruct (H (- z) ltac:(lia)) as (Hr & Hu & d & r & Hd & Hs).
    rewrite append_cons, append_nil_l. cbn [Py.lstrip].
    change (Py.is_space "-") with false. cbn iota.
    assert (Py.rstrip (String "-" (Py.digits (- z)))
            = String "-" (Py.digits (- z))) as ->.
    { cbn [Py.rstrip]. rewrite Hr, Hs. reflexivity. }
    rewrite Hu. cbn. f_equal. lia.
  - destruct (H z Hpos) as (Hr & Hu & d & r & Hd & Hs).
    destruct (digit_plain d Hd) as (Hsp & Hm & Hp).
    assert (Py.lstrip (Py.digits z) = Py.digits z) as ->.
    { rewrite Hs. cbn [Py.lstrip]. by rewrite Hsp. }
    rewrite Hr, <- Hu, Hs.
    destruct (Py.digit d) as [b0 b1 b2 b3 b4 b5 b6 b7] eqn:E.
    destruct b0, b1, b2, b3, b4, b5, b6, b7; try reflexivity; done.
Qed.

Lemma str_inj z1 z2 : Py.str z1 = Py.str z2 → z1 = z2.
Proof.
  intros H. pose proof (int_of_str_str z1) as H1.
  rewrite H, int_of_str_str in H1. by injection H1.
Qed.

(** ** The goal as decimal text *)


(** ** Ids and the clock *)

Lemma complete_ids now st :
  Session.id <$> sessions (database (fst (cmd_complete now st)))
  = Session.id <$> sessions (database st)
  ∧ Task.id <$> tasks (database (fst (cmd_complete now st)))
    = Task.id <$> tasks (database st).
Proof.
  unfold cmd_complete. destruct (marker st) as [m|]; [|done]. cbn.
  split; [by apply update_session_ids|].
  destruct (Marker.task_id m) as [tid|]; [|done].
  destruct (Py.truthy_str tid); [|done]. by apply update_task_ids.
Qed.

Lemma interrupt_ids now reason st :
  Session.id <$> sessions (database (fst (cmd_interrupt now reason st)))
  = Session.id <$> sessions (database st)
  ∧ tasks (database (fst (cmd_interrupt now reason st)))
    = tasks (database st).
Proof.
  unfold cmd_interrupt. destruct (marker st) as [m|]; [|done]. cbn.
  split; [by apply update_session_ids|done].
Qed.

Lemma ids_from_more l l' st : ids_from l st → ids_from (l ++ l') st.
Proof.
  intros [Hs Ht]. split; intros k Hk; rewrite fmap_app, elem_of_app; left;
    [by apply Hs|by apply Ht].
Qed.

Lemma main_ids clk c st l :
  ids_from l st → ids_from (l ++ [clk]) (main clk c st).
Proof.
  intros Hst. unfold main.
  set (st0 := mk_state (init_db (database st)) (marker st)).
  assert (ids_from l st0) as H0 by done. clearbody st0.
  pose proof (ids_from_more l [clk] st0 H0) as Hsame.
  destruct c; try exact Hsame.
  - destruct (cmd_start clk task duration st0) as [[st' out]|e] eqn:E;
      [|exact Hsame].
    apply cmd_start_ok in E as (st1 & Hs & E).
    assert (ids_from (l ++ [clk]) st1) as H1.
    { pose proof (start_session_tasks _ _ _ _ _ Hs) as _.
      apply start_session_task in Hs as (tid & Hse & _ & Hta).
      destruct Hsame as [Hss Hst0]. split.
      - intros k Hk. rewrite Hse, fmap_app, elem_of_app in Hk.
        destruct Hk as [Hk|Hk]; [by apply Hss|].
        rewrite fmap_app, elem_of_app. right. exact Hk.
      - assert (tasks (database st1) = tasks (database st0)
                ∨ tasks (database st1)
                  = tasks (database st0)
                      ++ [Task.mk (generate_task_id clk) (default "" task) 0 0])
          as [-> | ->].
        { destruct (Py.truthy_opt Py.truthy_str task);
            [destruct (select_task_id _ _)|]; intuition. }
        + exact Hst0.
        + intros k Hk. rewrite fmap_app, elem_of_app in Hk.
          destruct Hk as [Hk|Hk]; [by apply Hst0|].
          rewrite fmap_app, elem_of_app. right. exact Hk. }
    destruct (timed duration); destruct E as (-> & _); [|exact H1].
    destruct (complete_ids (now_after clk) st1) as [Es Et].
    destruct H1 as [Hs1 Ht1]. split; intros k; [rewrite Es|rewrite Et]; auto.
  - destruct (complete_ids (now clk) st0) as [Es Et].
    destruct Hsame as [Hs1 Ht1].
    split; intros k; [rewrite Es|rewrite Et]; auto.
  - destruct (interrupt_ids (now clk) reason st0) as [Es Et].
    destruct Hsame as [Hs1 Ht1].
    split; intros k; [rewrite Es|rewrite Et]; auto.
  - destruct (cmd_task_add clk name st0) as [[st' out]|e] eqn:E;
      [|exact Hsame].
    unfold cmd_task_add in E. destruct (negb _).
    + by injection E as <- _.
    + unfold insert_task in E. destruct (decide _); [done|].
      cbn in E. injection E as <- _.
      destruct Hsame as [Hs1 Ht1]. split; [exact Hs1|].
      cbn [database tasks].
      intros k Hk. rewrite fmap_app, elem_of_app in Hk.
      destruct Hk as [Hk|Hk]; [by apply Ht1|].
      rewrite fmap_app, elem_of_app. right. exact Hk.
  - unfold cmd_config. destruct value as [v|]; [|exact Hsame].
    destruct (Py.truthy_str v); exact Hsame.
Qed.

Lemma run_from_ids tr : ∀ st l,
  ids_from l st → ids_from (l ++ (fst <$> tr)) (run_from st tr).
Proof.
  induction tr as [|[clk c] tr IH]; intros st l Hst.
  - by apply ids_from_more.
  - rewrite fmap_cons, cons_middle, (assoc_L (++)).
    change (run_from st ((clk, c) :: tr)) with (run_from (main clk c st) tr).
    apply IH. by apply main_ids.
Qed.

Lemma session_id_inj c1 c2 :
  generate_session_id c1 = generate_session_id c2 →
  session_ms c1 = session_ms c2.
Proof.
  unfold generate_session_id. intros H. cbn [append] in H.
  injection H as H. by apply str_inj.
Qed.

Lemma task_id_inj c1 c2 :
  generate_task_id c1 = generate_task_id c2 → task_ms c1 = task_ms c2.
Proof.
  unfold generate_task_id. intros H. cbn [append] in H.
  injection H as H. by apply str_inj.
Qed.



(** ** Adding a task *)

Lemma select_task_id_app_none n l l' :
  select_task_id n l = None →
  select_task_id n (l ++ l') = select_task_id n l'.
Proof.
  induction l as [|t l IH]; [done|].
  change ((t :: l) ++ l') with (t :: (l ++ l')).
  rewrite !select_task_id_cons. by destruct (decide _).
Qed.



(** ** The month summary and the printed rows *)

Lemma date_map_as_list (l : list Session.row) :
  build_date_map (group_by_date l)
  = list_to_map
      ((λ k, (k, (Z.of_nat (length (filter (λ r, Session.date r = k) l)),
                  minutes_sum (filter (λ r, Session.date r = k) l))))
         <$> merge_sort str_le (remove_dups (Session.date <$> l))).
Proof.
  set (ks := merge_sort str_le (remove_dups (Session.date <$> l))).
  assert (ks ≡ₚ remove_dups (Session.date <$> l)) as Hp
      by apply merge_sort_Permutation.
  assert (NoDup ks) as Hnd by (rewrite Hp; apply NoDup_remove_dups).
  set (pairs := _ <$> ks).
  assert (pairs.*1 = ks) as Hkeys.
  { subst pairs. rewrite <- list_fmap_compose. apply list_fmap_id. }
  apply map_eq. intros k. rewrite build_date_map_lookup.
  rewrite or_else_int_default, sql_sum_default.
  assert (k ∈ ks ↔ filter (λ r, Session.date r = k) l ≠ []) as Hk.
  { rewrite Hp, elem_of_remove_dups, list_elem_of_fmap. split.
    - intros (r & -> & Hr) E.
      assert (r ∈ filter (λ r0, Session.date r0 = Session.date r) l) as Hin
          by by apply list_elem_of_filter.
      rewrite E in Hin. by apply not_elem_of_nil in Hin.
    - intros Hne. destruct (filter _ l) as [|r rest] eqn:E; [done|].
      assert (r ∈ filter (λ r0, Session.date r0 = k) l) as Hin
          by (rewrite E; by left).
      apply list_elem_of_filter in Hin as [Hd Hin]. by exists r. }
  destruct (decide (filter (λ r, Session.date r = k) l = [])) as [E|E].
  - symmetry. apply not_elem_of_list_to_map. rewrite Hkeys.
    intros Hin. by apply Hk in Hin.
  - symmetry. apply elem_of_list_to_map; [by rewrite Hkeys|].
    subst pairs. apply list_elem_of_fmap. exists k. split; [done|].
    by apply Hk.
Qed.

Lemma remove_dups_length {A} `{EqDecision A} (l : list A) :
  (length (remove_dups l) ≤ length l)%nat.
Proof.
  induction l as [|x l IH]; [done|]. cbn.
  destruct (decide_rel elem_of x l); cbn; lia.
Qed.

(** X22.  The month summary of [heatmap]: the total is the number of
    completed sessions of the month, the minutes are the sum of their
    durations, and the active days are the different dates among them, so
    never more than the total.  The daily average is left out exactly when
    the month has no completed session, so its division never fails. *)
Theorem heatmap_summary_totals (year month : Z) (d : db) :
  let rows := month_rows year month d in
  let s := heatmap_summary (build_date_map (group_by_date rows)) in
  summary_pomodoros s = Z.of_nat (length rows)
  ∧ summary_minutes s = minutes_sum rows
  ∧ active_days s
    = Z.of_nat (length (remove_dups (Session.date <$> rows)))
  ∧ active_days s ≤ summary_pomodoros s
  ∧ (active_average s = None ↔ rows = [])
  ∧ ∀ q, active_average s = Some q →
         q = (inject_Z (minutes_sum rows) / inject_Z (active_days s))%Q.
Proof.
  intros rows s. subst s. unfold heatmap_summary.
  cbn [summary_pomodoros summary_minutes active_days active_average].
  rewrite date_map_as_list.
  set (ks := merge_sort str_le (remove_dups (Session.date <$> rows))).
  assert (ks ≡ₚ remove_dups (Session.date <$> rows)) as Hp
      by apply merge_sort_Permutation.
  assert (NoDup ks) as Hnd by (rewrite Hp; apply NoDup_remove_dups).
  assert (∀ r, r ∈ rows → Session.date r ∈ ks) as Hcover.
  { intros r Hr. rewrite Hp. apply elem_of_remove_dups.
    by apply list_elem_of_fmap_2. }
  set (pairs := _ <$> ks).
  assert (pairs.*1 = ks) as Hkeys.
  { subst pairs. rewrite <- list_fmap_compose. apply list_fmap_id. }
  assert (NoDup pairs.*1) as Hndp by by rewrite Hkeys.
  pose proof (map_to_list_to_map (M := gmap string) pairs Hndp) as Hlist.
  assert (sumZ ((snd <$> map_to_list (list_to_map pairs
                                        : gmap string (Z * Z))).*1)
          = Z.of_nat (length rows)) as Hcount.
  { rewrite (sumZ_perm _ ((snd <$> pairs).*1)) by by rewrite Hlist.
    subst pairs. rewrite <- !list_fmap_compose.
    erewrite list_fmap_ext;
      [apply (group_sizes_sum Session.date ks rows Hnd Hcover)|].
    intros i k _. reflexivity. }
  assert (sumZ ((snd <$> map_to_list (list_to_map pairs
                                        : gmap string (Z * Z))).*2)
          = minutes_sum rows) as Hmin.
  { rewrite (sumZ_perm _ ((snd <$> pairs).*2)) by by rewrite Hlist.
    subst pairs. rewrite <- !list_fmap_compose.
    erewrite list_fmap_ext; [apply (minutes_by_date ks rows Hnd Hcover)|].
    intros i k _. reflexivity. }
  assert (size (list_to_map pairs : gmap string (Z * Z)) = length ks)
    as Hsize.
  { rewrite map_size_list_to_map by done. subst pairs.
    by rewrite length_fmap. }
  rewrite Hcount, Hmin, Hsize.
  assert (length ks = length (remove_dups (Session.date <$> rows))) as Hlen
      by by rewrite Hp.
  assert (length (remove_dups (Session.date <$> rows)) ≤ length rows)%nat
    as Hle.
  { etrans; [apply remove_dups_length|]. by rewrite length_fmap. }
  split; [done|]. split; [done|]. split; [by rewrite Hlen|].
  split; [lia|]. split.
  - destruct (Z.ltb_spec 0 (Z.of_nat (length ks))) as [Hpos|Hzero].
    + split; [done|]. intros E. rewrite E in Hlen. cbn in Hlen. lia.
    + split; [|done]. intros _.
      destruct rows as [|r rows']; [done|].
      assert (Session.date r ∈ ks) as Hin by (apply Hcover; by left).
      destruct ks; [by apply not_elem_of_nil in Hin|cbn in Hzero; lia].
  - intros q. destruct (0 <? Z.of_nat (length ks)); [|done].
    by intros [= <-].
Qed.

Lemma day_cell_not_blank date_map g s : day_cell date_map g s ≠ Blank.
Proof.
  unfold day_cell, count_cell. destruct (date_map !! s) as [[c ?]|]; [|done].
  destruct (g <=? c); [done|]. destruct (Qle_bool _ _); [done|].
  by destruct (0 <? c).
Qed.

Lemma printed_rows_build cell_of sw md :
  0 ≤ sw < 7 → 0 ≤ md → sw + md ≤ 42 → (∀ d, cell_of d ≠ Blank) →
  printed_rows (build_grid cell_of sw md)
  = if decide (35 < sw + md) then build_grid cell_of sw md
    else take 5 (build_grid cell_of sw md).
Proof.
  intros Hsw Hmd Hfit Hcell.
  destruct (build_grid_shape cell_of sw md) as [Hlen Hrows].
  assert (35 < sw + md →
          flat_get (build_grid cell_of sw md) 35
          = Some (cell_of (35 - sw + 1))) as Hday.
  { intros Hlong.
    pose proof (build_grid_cell cell_of sw md (35 - sw + 1)
                  ltac:(lia) Hfit ltac:(lia)) as H.
    rewrite grid_cell_flat in H.
    by replace (Z.to_nat (sw + (35 - sw + 1) - 1)) with 35%nat in H by lia. }
  assert (¬ 35 < sw + md → ∀ i, (i < 7)%nat →
          flat_get (build_grid cell_of sw md) (35 + i) = Some Blank) as Hblank.
  { intros Hshort i Hi. apply build_grid_blank; [lia|lia|lia]. }
  revert Hlen Hrows Hday Hblank. generalize (build_grid cell_of sw md).
  intros g Hlen Hrows Hday Hblank.
  destruct g as [|r0 [|r1 [|r2 [|r3 [|r4 [|r5 [|]]]]]]]; try done.
  unfold printed_rows. cbn [seq omap list_omap lookup list_lookup mbind
                           option_bind Nat.ltb Nat.leb].
  rewrite !orb_true_r, orb_false_r. cbn [take].
  destruct (decide (35 < sw + md)) as [Hlong|Hshort].
  - specialize (Hday Hlong). unfold flat_get in Hday. cbn in Hday.
    assert (has_content r5 = true) as ->; [|done].
    apply existsb_exists. exists (cell_of (35 - sw + 1)). split.
    + destruct r5; [done|]. cbn in Hday. injection Hday as ->. by left.
    + specialize (Hcell (35 - sw + 1)).
      by destruct (cell_of (35 - sw + 1)).
  - specialize (Hblank Hshort).
    assert (r5 = replicate 7 Blank) as ->; [|done].
    apply Forall_forall with (x := r5) in Hrows;
      [|do 5 apply list_elem_of_further; apply list_elem_of_here].
    destruct r5 as [|c0 [|c1 [|c2 [|c3 [|c4 [|c5 [|c6 [|]]]]]]]]; try done.
    pose proof (Hblank 0%nat ltac:(lia)) as B0.
    pose proof (Hblank 1%nat ltac:(lia)) as B1.
    pose proof (Hblank 2%nat ltac:(lia)) as B2.
    pose proof (Hblank 3%nat ltac:(lia)) as B3.
    pose proof (Hblank 4%nat ltac:(lia)) as B4.
    pose proof (Hblank 5%nat ltac:(lia)) as B5.
    pose proof (Hblank 6%nat ltac:(lia)) as B6.
    unfold flat_get in *. cbn in B0, B1, B2, B3, B4, B5, B6.
    by injection B0 as ->; injection B1 as ->; injection B2 as ->;
       injection B3 as ->; injection B4 as ->; injection B5 as ->;
       injection B6 as ->.
Qed.

(** X23.  [heatmap] prints the first five rows of its grid, and the sixth
    exactly when the month reaches into a sixth week, which is when the
    weekday of the first and the length of the month add up to more than
    35. *)
Theorem heatmap_prints_five_or_six_rows now year month st rep :
  cmd_heatmap now year month st = Ok rep →
  let y := Py.or_else Py.truthy_int year (Datetime.year now) in
  let m := Py.or_else Py.truthy_int month (Datetime.month now) in
  let first := weekday (at_midnight y m 1) in
  printed_rows (grid rep)
  = if decide (35 < first + days_in_month y m) then grid rep
    else take 5 (grid rep).
Proof.
  intros H y m first. unfold cmd_heatmap in H. fold y m in H.
  destruct (read_daily_goal (database st)) as [g|e]; [|done].
  cbn [mbind result_bind] in H. rewrite month_frame_spec in H.
  destruct (decide (1 ≤ y ≤ 9999 ∧ 1 ≤ m ≤ 12)) as [[Hy Hm]|Hout]; [|done].
  destruct (decide (y = 9999 ∧ m = 12)); [done|].
  cbn [mbind result_bind] in H. fold first in H. injection H as <-.
  cbn [grid].
  pose proof (days_in_month_range y m Hm) as Hdim.
  assert (0 ≤ first < 7) as Hw
      by (unfold first, weekday; apply Z.mod_pos_bound; lia).
  apply printed_rows_build; [done|lia|lia|].
  intros d. apply day_cell_not_blank.
Qed.

Lemma heatmap_prints_five_or_six_rows_witness :
  printed_rows (grid sample_heatmap) = take 5 (grid sample_heatmap).
Proof.
  apply (heatmap_prints_five_or_six_rows (now clock_1) (Some 2024) (Some 3)
           (run goal_three_one_done) sample_heatmap).
  vm_compute. reflexivity.
Defined.

(** ** A negative goal *)

(** [int(n * min(c / g, 1.0))] for a negative goal. *)
Lemma bar_fill_negative n c g :
  g < 0 → 0 ≤ c → 0 ≤ n →
  Py.int_of_float (inject_Z n * Qmin (Py.truediv c g) 1)%Q
  = - (n * c / - g).
Proof.
  intros Hg Hc Hn. destruct g as [|p|p]; try lia.
  unfold Py.truediv, Qdiv, Qinv, inject_Z. cbn [Qnum Qden].
  unfold Qmin, GenericMinMax.gmin.
  destruct (Qcompare _ _) eqn:E; unfold Qcompare in E; cbn in E.
  3: { rewrite Z.compare_gt_iff in E. lia. }
  all: unfold Py.int_of_float; cbn.
  all: replace (n * (c * Z.neg 1)) with (- (n * c)) by lia.
  all: replace (Z.pos (1 * p)) with (Z.pos p) by lia.
  all: rewrite Z.quot_opp_l by lia; rewrite Z.quot_div_nonneg by nia.
  all: change (- Z.neg p) with (Z.pos p).
  all:   reflexivity.
Qed.

(** X24.  With a stored goal below zero [today] does not fail: it says that
    the goal is achieved, fills no cell of the bar, and prints a bar that
    is longer than 20 cells as soon as [20 * count] reaches the size of the
    goal: its length is [20 + floor(20 * count / -goal)]. *)
Theorem today_with_negative_goal now st g :
  read_daily_goal (database st) = Ok g → g < 0 →
  ∃ rep, cmd_today now st = Ok rep
    ∧ daily_goal rep = g
    ∧ goal_status rep = GoalReached
    ∧ filled_cells (progress_bar rep) = 0
    ∧ Z.of_nat (length (progress_bar rep))
      = 20 + 20 * completed_count rep / - g.
Proof.
  intros Hgoal Hg. unfold cmd_today. rewrite Hgoal.
  cbn [mbind result_bind]. unfold progress.
  destruct (Z.eqb_spec g 0) as [->|_]; [lia|].
  cbn [mbind result_bind]. eexists. split; [reflexivity|].
  cbn [daily_goal goal_status progress_bar completed_count].
  set (c := Z.of_nat (length _)).
  assert (0 ≤ c) as Hc by (subst c; lia).
  rewrite bar_fill_negative by lia.
  assert (0 ≤ 20 * c / - g) as Hq by (apply Z.div_pos; lia).
  split; [done|]. split.
  { destruct (Z.leb_spec g c); [done|lia]. }
  unfold bar, filled_cells.
  replace (Z.to_nat (- (20 * c / - g))) with 0%nat by lia.
  cbn [replicate app]. split.
  - by rewrite filter_replicate_false.
  - rewrite length_replicate. lia.
Qed.

Lemma today_with_negative_goal_witness :
  ∃ rep,
    cmd_today (now clock_3)
      (fst (cmd_config (Some "-5") (run goal_three_one_done))) = Ok rep
    ∧ Z.of_nat (length (progress_bar rep)) = 20 + 20 * completed_count rep / 5.
Proof.
  destruct (today_with_negative_goal (now clock_3)
              (fst (cmd_config (Some "-5") (run goal_three_one_done))) (-5))
    as (rep & H & _ & _ & _ & Hl).
  - vm_compute. reflexivity.
  - lia.
  - exists rep. split; [exact H|exact Hl].
Defined.
